(** * RuntimeMeshComponent: the section registry and its create/update protocol

    A shallow embedding of [Source/Public/RuntimeMeshComponent.h]: the
    validation macros, [CreateOrResetSection], the four typed create
    overloads and the eight typed [UpdateMeshSection] overloads are
    translated from the header.  The members the header only declares
    (the section's buffer setters, the batch state, the collision
    tracker, the queries) are modelled from the design document and are
    marked as such. *)

From stdpp Require Import base decidable option list gmap strings.
From Stdlib Require Import ZArith Lia.

Local Open Scope string_scope.
Local Open Scope Z_scope.

(** ** Engine value types *)

(** [FVector] has three [float] coordinates in the engine.  The component
    only compares coordinates and takes minima and maxima of them, so the
    coordinate type is modelled by the ordered integers. *)
Record FVector := MkFVector { X : Z; Y : Z; Z_ : Z }.

Record FBox := MkFBox { Min : FVector; Max : FVector; IsValid : bool }.

#[global] Instance FVector_eq_dec : EqDecision FVector.
Proof. solve_decision. Defined.

#[global] Instance FBox_eq_dec : EqDecision FBox.
Proof. solve_decision. Defined.

(** [TArray::Num].  Counts and indices are [int32] in the source and
    integers here; the one sum the header takes of them,
    [SectionIndex + 1], goes through [Int32Add] below. *)
Definition Num {A : Type} (Array : list A) : Z := Z.of_nat (length Array).

(** [int32] addition.  C++ leaves the overflow of a signed sum undefined;
    as compiled, [MAX_int32 + 1] wraps to [MIN_int32].  Here a sum outside
    the range has no value, and the code that takes the sum says what
    happens then. *)
Definition MAX_int32 : Z := 2147483647.
Definition MIN_int32 : Z := -2147483648.

Definition Int32Add (a b : Z) : option Z :=
  if bool_decide (MIN_int32 ≤ a + b ≤ MAX_int32) then Some (a + b) else None.

Arguments Int32Add : simpl never.

(** [TArray::SetNum] on a count that is not negative: a longer array is
    cut, a shorter one is filled up with default-constructed elements. *)
Definition SetNum {A : Type} (Default : A) (Array : list A) (NewNum : Z) : list A :=
  if bool_decide (NewNum ≤ Num Array)
  then take (Z.to_nat NewNum) Array
  else Array ++ replicate (Z.to_nat NewNum - length Array)%nat Default.

(** [FBox(ForceInit)] and [FBox::operator+=(const FVector&)]. *)
Definition FBox_ForceInit : FBox :=
  MkFBox (MkFVector 0 0 0) (MkFVector 0 0 0) false.

Definition FBox_AddPoint (Box : FBox) (P : FVector) : FBox :=
  if IsValid Box
  then MkFBox (MkFVector (Z.min (X (Min Box)) (X P)) (Z.min (Y (Min Box)) (Y P))
                         (Z.min (Z_ (Min Box)) (Z_ P)))
              (MkFVector (Z.max (X (Max Box)) (X P)) (Z.max (Y (Max Box)) (Y P))
                         (Z.max (Z_ (Max Box)) (Z_ P)))
              true
  else MkFBox P P true.

(** Modelled from the spec: the bounding box computed by "a linear scan
    over positions" (the scan itself lives in RuntimeMeshSection.h, which
    is not part of the sources). *)
Definition ComputeBoundingBox (Positions : list FVector) : FBox :=
  foldl FBox_AddPoint FBox_ForceInit Positions.

Arguments ComputeBoundingBox : simpl never.

Definition FBox_IsInside (Box : FBox) (P : FVector) : Prop :=
  X (Min Box) ≤ X P ≤ X (Max Box) ∧
  Y (Min Box) ≤ Y P ≤ Y (Max Box) ∧
  Z_ (Min Box) ≤ Z_ P ≤ Z_ (Max Box).

(** What it is for a box to be the axis-aligned bounding box of a
    non-empty set of positions: it is valid, every position is inside, and
    each of its six faces touches a position. *)
Definition IsAxisAlignedBoundsOf (Box : FBox) (Positions : list FVector) : Prop :=
  IsValid Box = true
  ∧ (∀ p, p ∈ Positions → FBox_IsInside Box p)
  ∧ (∃ p, p ∈ Positions ∧ X p = X (Min Box))
  ∧ (∃ p, p ∈ Positions ∧ Y p = Y (Min Box))
  ∧ (∃ p, p ∈ Positions ∧ Z_ p = Z_ (Min Box))
  ∧ (∃ p, p ∈ Positions ∧ X p = X (Max Box))
  ∧ (∃ p, p ∈ Positions ∧ Y p = Y (Max Box))
  ∧ (∃ p, p ∈ Positions ∧ Z_ p = Z_ (Max Box)).

(** A coordinate of the running box is the one it started with or is
    attained by a position scanned so far. *)
Definition StartedOrAttained (get : FVector → Z) (Start Now : Z)
    (Positions : list FVector) : Prop :=
  Now = Start ∨ ∃ p, p ∈ Positions ∧ get p = Now.

(** ** Enumerations declared in RuntimeMeshCore.h *)

(** Modelled from the spec: the update-frequency hint; the header uses
    [EUpdateFrequency::Average] as the default argument. *)
Inductive EUpdateFrequency := Average | Infrequent | Frequent.

#[global] Instance EUpdateFrequency_eq_dec : EqDecision EUpdateFrequency.
Proof. solve_decision. Defined.

(** Modelled from the spec: the update flags are a bit set in which the
    header tests the [MoveArrays] bit ("moveSemantics"); [None] is the
    empty set. *)
Definition ESectionUpdateFlags := Z.
Definition ESectionUpdateFlags_None : ESectionUpdateFlags := 0.
Definition ESectionUpdateFlags_MoveArrays : ESectionUpdateFlags := 1.

(** The layout tag of a vertex type ([VertexType::TypeInfo]), identified
    by the type's name. *)
Definition FRuntimeMeshVertexTypeInfo := string.

(** ** Outcomes of a call

    A call either returns or halts.  [check] is the engine's assertion
    macro; it is modelled as it behaves in a build that compiles
    assertions in: a failed [check] stops execution with the text of the
    assertion, and nothing after it runs.  The component as it stands at
    that point is kept in the outcome, so that what was mutated before the
    halt can be stated. *)
Inductive EHalt : Type :=
  | AssertionFailed (Message : string)
  | LayoutMismatch (Recorded Requested : FRuntimeMeshVertexTypeInfo).

Inductive TResult (State A : Type) : Type :=
  | Returned (Value : A) (Component : State)
  | Halted (Reason : EHalt) (Component : State).

Arguments Returned {State A} Value Component.
Arguments Halted {State A} Reason Component.

Definition TCall (State A : Type) : Type := State → TResult State A.

Definition Return {State A} (Value : A) : TCall State A :=
  λ C, Returned Value C.

Definition Bind {State A B} (m : TCall State A) (k : A → TCall State B)
    : TCall State B :=
  λ C, match m C with
       | Returned a C' => k a C'
       | Halted h C' => Halted h C'
       end.

Notation "'let*' x ':=' m 'in' k" := (Bind m (λ x, k))
  (at level 10, x name, m at level 100, k at level 200).
Notation "'let*' ' p ':=' m 'in' k" := (Bind m (λ p, k))
  (at level 10, p strict pattern, m at level 100, k at level 200).
Notation "m ';;' k" := (Bind m (λ _, k))
  (at level 100, k at level 200, right associativity).

Definition Halt {State A} (Reason : EHalt) : TCall State A :=
  λ C, Halted Reason C.

Definition check {State} (Condition : bool) (Message : string) : TCall State () :=
  if Condition then Return () else Halt (AssertionFailed Message).

(** ** Vertex types and section construction *)

(** What the component needs of a vertex type: its position member.  The
    vertex array of a dual-buffer section carries everything but the
    position, and there the member is not read. *)
Class RuntimeMeshVertex (VertexType : Type) := {
  PositionOf : VertexType → FVector
}.

(** What the section constructor leaves in the members the create path
    does not assign; the constructor is in RuntimeMeshSection.h, so its
    choices are parameters here. *)
Class FSectionDefaults := MkSectionDefaults {
  Default_LocalBoundingBox : FBox;
  Default_CollisionEnabled : bool;
  Default_UpdateFrequency : EUpdateFrequency;
  Default_bIsVisible : bool;
  Default_bCastsShadow : bool
}.

(** ** Sections, collision aggregates, batch state *)

Section RuntimeMesh.

(** The template parameter [VertexType] with its position member. *)
Context {VertexType : Type} `{!RuntimeMeshVertex VertexType}.

(** [FRuntimeMeshSection<VertexType>], type erased: the layout tag is
    kept next to the buffers ([GetVertexType]).  The header names
    [VertexBuffer], [CollisionEnabled], [UpdateFrequency],
    [bIsInternalSectionType] and [IsDualBufferSection]; the class itself
    is in RuntimeMeshSection.h, and its other members follow the data
    model of the design document (position buffer, index buffer,
    bounding box, visibility, shadow casting). *)
Record FRuntimeMeshSection := MkSection {
  VertexTypeInfo : FRuntimeMeshVertexTypeInfo;
  bNeedsPositionOnlyBuffer : bool;
  bIsInternalSectionType : bool;
  PositionVertexBuffer : list FVector;
  VertexBuffer : list VertexType;
  IndexBuffer : list Z;
  LocalBoundingBox : FBox;
  CollisionEnabled : bool;
  UpdateFrequency : EUpdateFrequency;
  bIsVisible : bool;
  bCastsShadow : bool
}.

Context `{!FSectionDefaults}.

(** [new SectionType(bWantsSeparatePositionBuffer)]. *)
Definition NewSection (VT : FRuntimeMeshVertexTypeInfo)
    (bInNeedsPositionOnlyBuffer : bool) : FRuntimeMeshSection :=
  {| VertexTypeInfo := VT;
     bNeedsPositionOnlyBuffer := bInNeedsPositionOnlyBuffer;
     bIsInternalSectionType := false;
     PositionVertexBuffer := [];
     VertexBuffer := [];
     IndexBuffer := [];
     LocalBoundingBox := Default_LocalBoundingBox;
     CollisionEnabled := Default_CollisionEnabled;
     UpdateFrequency := Default_UpdateFrequency;
     bIsVisible := Default_bIsVisible;
     bCastsShadow := Default_bCastsShadow |}.

Definition IsDualBufferSection (S : FRuntimeMeshSection) : bool :=
  bNeedsPositionOnlyBuffer S.

(** Member assignments on a section. *)
Definition Set_bIsInternalSectionType (b : bool) (S : FRuntimeMeshSection) :=
  MkSection (VertexTypeInfo S) (bNeedsPositionOnlyBuffer S) b
    (PositionVertexBuffer S) (VertexBuffer S) (IndexBuffer S)
    (LocalBoundingBox S) (CollisionEnabled S) (UpdateFrequency S)
    (bIsVisible S) (bCastsShadow S).
Definition Set_PositionVertexBuffer (v : list FVector) (S : FRuntimeMeshSection) :=
  MkSection (VertexTypeInfo S) (bNeedsPositionOnlyBuffer S) (bIsInternalSectionType S)
    v (VertexBuffer S) (IndexBuffer S)
    (LocalBoundingBox S) (CollisionEnabled S) (UpdateFrequency S)
    (bIsVisible S) (bCastsShadow S).
Definition Set_VertexBuffer (v : list VertexType) (S : FRuntimeMeshSection) :=
  MkSection (VertexTypeInfo S) (bNeedsPositionOnlyBuffer S) (bIsInternalSectionType S)
    (PositionVertexBuffer S) v (IndexBuffer S)
    (LocalBoundingBox S) (CollisionEnabled S) (UpdateFrequency S)
    (bIsVisible S) (bCastsShadow S).
Definition Set_IndexBuffer (v : list Z) (S : FRuntimeMeshSection) :=
  MkSection (VertexTypeInfo S) (bNeedsPositionOnlyBuffer S) (bIsInternalSectionType S)
    (PositionVertexBuffer S) (VertexBuffer S) v
    (LocalBoundingBox S) (CollisionEnabled S) (UpdateFrequency S)
    (bIsVisible S) (bCastsShadow S).
Definition Set_LocalBoundingBox (b : FBox) (S : FRuntimeMeshSection) :=
  MkSection (VertexTypeInfo S) (bNeedsPositionOnlyBuffer S) (bIsInternalSectionType S)
    (PositionVertexBuffer S) (VertexBuffer S) (IndexBuffer S)
    b (CollisionEnabled S) (UpdateFrequency S)
    (bIsVisible S) (bCastsShadow S).
Definition Set_CollisionEnabled (b : bool) (S : FRuntimeMeshSection) :=
  MkSection (VertexTypeInfo S) (bNeedsPositionOnlyBuffer S) (bIsInternalSectionType S)
    (PositionVertexBuffer S) (VertexBuffer S) (IndexBuffer S)
    (LocalBoundingBox S) b (UpdateFrequency S)
    (bIsVisible S) (bCastsShadow S).
Definition Set_UpdateFrequency (f : EUpdateFrequency) (S : FRuntimeMeshSection) :=
  MkSection (VertexTypeInfo S) (bNeedsPositionOnlyBuffer S) (bIsInternalSectionType S)
    (PositionVertexBuffer S) (VertexBuffer S) (IndexBuffer S)
    (LocalBoundingBox S) (CollisionEnabled S) f
    (bIsVisible S) (bCastsShadow S).
Definition Set_bIsVisible (b : bool) (S : FRuntimeMeshSection) :=
  MkSection (VertexTypeInfo S) (bNeedsPositionOnlyBuffer S) (bIsInternalSectionType S)
    (PositionVertexBuffer S) (VertexBuffer S) (IndexBuffer S)
    (LocalBoundingBox S) (CollisionEnabled S) (UpdateFrequency S)
    b (bCastsShadow S).
Definition Set_bCastsShadow (b : bool) (S : FRuntimeMeshSection) :=
  MkSection (VertexTypeInfo S) (bNeedsPositionOnlyBuffer S) (bIsInternalSectionType S)
    (PositionVertexBuffer S) (VertexBuffer S) (IndexBuffer S)
    (LocalBoundingBox S) (CollisionEnabled S) (UpdateFrequency S)
    (bIsVisible S) b.

(** The bounds policy shared by the two vertex setters: an explicit box
    is taken as given, otherwise the positions are scanned. *)
Definition NewBounds (BoundingBox : option FBox) (Positions : list FVector) : FBox :=
  match BoundingBox with
  | Some Box => Box
  | None => ComputeBoundingBox Positions
  end.

(** Modelled from the spec: [updateVertexPositionBuffer] replaces the
    position buffer, takes the supplied box or scans the positions, and
    returns whether the bounds changed.  [bShouldUseMove] only decides
    whether the caller's array is copied or emptied, which leaves the
    stored contents the same. *)
Definition UpdateVertexPositionBuffer (Positions : list FVector)
    (BoundingBox : option FBox) (bShouldUseMove : bool)
    (S : FRuntimeMeshSection) : FRuntimeMeshSection * bool :=
  let Box := NewBounds BoundingBox Positions in
  (Set_LocalBoundingBox Box (Set_PositionVertexBuffer Positions S),
   negb (bool_decide (LocalBoundingBox S = Box))).

(** Modelled from the spec: [updateVertexBuffer] replaces the vertex
    buffer and returns whether the bounds changed.  Bounds follow the
    positions: in a section with a separate position buffer the vertex
    buffer holds no positions and the bounds are left alone ("bounds
    are recomputed only when positions change"); otherwise the supplied
    box is taken or the vertices' positions are scanned. *)
Definition UpdateVertexBuffer (Vertices : list VertexType)
    (BoundingBox : option FBox) (bShouldUseMove : bool)
    (S : FRuntimeMeshSection) : FRuntimeMeshSection * bool :=
  if IsDualBufferSection S
  then (Set_VertexBuffer Vertices S, false)
  else
    let Box := NewBounds BoundingBox (PositionOf <$> Vertices) in
    (Set_LocalBoundingBox Box (Set_VertexBuffer Vertices S),
     negb (bool_decide (LocalBoundingBox S = Box))).

(** Modelled from the spec: [updateIndexBuffer] replaces the index
    buffer; no bounds implication. *)
Definition UpdateIndexBuffer (Triangles : list Z) (bShouldUseMove : bool)
    (S : FRuntimeMeshSection) : FRuntimeMeshSection * () :=
  (Set_IndexBuffer Triangles S, ()).

(** Modelled from the spec: collision-only sections and convex hulls are
    "simple value aggregates (vertex list + optional triangle list)";
    their structs are declared outside the header. *)
Record FRuntimeMeshCollisionSection := MkCollisionSection {
  CollisionVertexBuffer : list FVector;
  CollisionIndexBuffer : list Z
}.

Record FRuntimeConvexCollisionSection := MkConvexSection {
  ConvexVertexBuffer : list FVector
}.

(** Modelled from the spec: the batch state is an "inside batch" flag
    together with the set of section indices touched since the batch
    began. *)
Record FRuntimeMeshBatchUpdateState := MkBatchState {
  bIsPending : bool;
  TouchedSections : gset Z
}.

(** Modelled from the spec: what reaches the render-proxy
    synchronisation, [syncSection(index, whichPartsChanged, snapshot)]:
    the section index, which parts changed, and the section as it is when
    the synchronisation runs. *)
Inductive ESyncKind : Type :=
  | SyncCreate
  | SyncUpdate (bPositions bVertices bIndices bBounds : bool)
  | SyncProperties
  | SyncBatch.

Record FSectionSync := MkSync {
  SyncSectionIndex : Z;
  SyncKind : ESyncKind;
  SyncSnapshot : option FRuntimeMeshSection
}.

(** Modelled from the spec: the "one combined description" handed to the
    collision cooker. *)
Record FCollisionDescription := MkCollisionDescription {
  CookedSections : list FRuntimeMeshSection;
  CookedCollisionSections : list FRuntimeMeshCollisionSection;
  CookedConvexSections : list FRuntimeConvexCollisionSection
}.

(** ** The component

    The members of [URuntimeMeshComponent] the protocol reads and
    writes ([MeshSections], [BatchState], [bCollisionDirty], the two
    collision arrays, [BodySetup], and the enabled state of
    [PrePhysicsTick]), followed by the collaborators it talks to: the
    log, the render-proxy synchronisation, and the scheduler that holds
    the requests for the pre-physics tick.  The registry holds its
    sections by value: the shared pointers of the source are never
    aliased by the calls modelled here. *)
Record URuntimeMeshComponent := MkComponent {
  MeshSections : list (option FRuntimeMeshSection);
  BatchState : FRuntimeMeshBatchUpdateState;
  bCollisionDirty : bool;
  MeshCollisionSections : list FRuntimeMeshCollisionSection;
  ConvexCollisionSections : list FRuntimeConvexCollisionSection;
  bPrePhysicsTickEnabled : bool;
  BodySetup : option FCollisionDescription;
  LogOutput : list (bool * string);
  RenderSyncs : list FSectionSync;
  PendingBakeRequests : nat
}.

Definition Set_MeshSections (v : list (option FRuntimeMeshSection)) (C : URuntimeMeshComponent) :=
  MkComponent v (BatchState C) (bCollisionDirty C) (MeshCollisionSections C)
    (ConvexCollisionSections C) (bPrePhysicsTickEnabled C) (BodySetup C)
    (LogOutput C) (RenderSyncs C) (PendingBakeRequests C).
Definition Set_BatchState (v : FRuntimeMeshBatchUpdateState) (C : URuntimeMeshComponent) :=
  MkComponent (MeshSections C) v (bCollisionDirty C) (MeshCollisionSections C)
    (ConvexCollisionSections C) (bPrePhysicsTickEnabled C) (BodySetup C)
    (LogOutput C) (RenderSyncs C) (PendingBakeRequests C).
Definition Set_bCollisionDirty (v : bool) (C : URuntimeMeshComponent) :=
  MkComponent (MeshSections C) (BatchState C) v (MeshCollisionSections C)
    (ConvexCollisionSections C) (bPrePhysicsTickEnabled C) (BodySetup C)
    (LogOutput C) (RenderSyncs C) (PendingBakeRequests C).
Definition Set_MeshCollisionSections (v : list FRuntimeMeshCollisionSection) (C : URuntimeMeshComponent) :=
  MkComponent (MeshSections C) (BatchState C) (bCollisionDirty C) v
    (ConvexCollisionSections C) (bPrePhysicsTickEnabled C) (BodySetup C)
    (LogOutput C) (RenderSyncs C) (PendingBakeRequests C).
Definition Set_ConvexCollisionSections (v : list FRuntimeConvexCollisionSection) (C : URuntimeMeshComponent) :=
  MkComponent (MeshSections C) (BatchState C) (bCollisionDirty C) (MeshCollisionSections C)
    v (bPrePhysicsTickEnabled C) (BodySetup C)
    (LogOutput C) (RenderSyncs C) (PendingBakeRequests C).
Definition Set_PrePhysicsTick (Enabled : bool) (Requests : nat) (C : URuntimeMeshComponent) :=
  MkComponent (MeshSections C) (BatchState C) (bCollisionDirty C) (MeshCollisionSections C)
    (ConvexCollisionSections C) Enabled (BodySetup C)
    (LogOutput C) (RenderSyncs C) Requests.
Definition Set_BodySetup (v : option FCollisionDescription) (C : URuntimeMeshComponent) :=
  MkComponent (MeshSections C) (BatchState C) (bCollisionDirty C) (MeshCollisionSections C)
    (ConvexCollisionSections C) (bPrePhysicsTickEnabled C) v
    (LogOutput C) (RenderSyncs C) (PendingBakeRequests C).
Definition Set_LogOutput (v : list (bool * string)) (C : URuntimeMeshComponent) :=
  MkComponent (MeshSections C) (BatchState C) (bCollisionDirty C) (MeshCollisionSections C)
    (ConvexCollisionSections C) (bPrePhysicsTickEnabled C) (BodySetup C)
    v (RenderSyncs C) (PendingBakeRequests C).
Definition Set_RenderSyncs (v : list FSectionSync) (C : URuntimeMeshComponent) :=
  MkComponent (MeshSections C) (BatchState C) (bCollisionDirty C) (MeshCollisionSections C)
    (ConvexCollisionSections C) (bPrePhysicsTickEnabled C) (BodySetup C)
    (LogOutput C) v (PendingBakeRequests C).

(** The component as its constructor leaves it. *)
Definition NewComponent : URuntimeMeshComponent :=
  MkComponent [] (MkBatchState false ∅) false [] [] false None [] [] 0%nat.

Abbreviation Call := (TCall URuntimeMeshComponent).

(** ** Primitives *)

(** Reading a member of the component. *)
Definition Gets {A : Type} (Member : URuntimeMeshComponent → A) : Call A :=
  λ C, Returned (Member C) C.

Definition Modify (f : URuntimeMeshComponent → URuntimeMeshComponent) : Call () :=
  λ C, Returned () (f C).

(** [Log(Text, bIsError)]: one line on the component's log, at error or
    warning level. *)
Definition Log (Text : string) (bIsError : bool) : Call () :=
  Modify (λ C, Set_LogOutput (LogOutput C ++ [(bIsError, Text)]) C).

(** [MeshSections[SectionIndex]] as an optional: nothing when the index
    is out of range or the slot holds no section. *)
Definition SlotAt (SectionIndex : Z) (Sections : list (option FRuntimeMeshSection))
    : option FRuntimeMeshSection :=
  if bool_decide (0 ≤ SectionIndex)
  then mjoin (Sections !! Z.to_nat SectionIndex)
  else None.

Definition SectionAt (SectionIndex : Z) (C : URuntimeMeshComponent)
    : option FRuntimeMeshSection :=
  SlotAt SectionIndex (MeshSections C).

(** [MeshSections[SectionIndex] = Ptr] on an index in range. *)
Definition SetSlot (SectionIndex : Z) (Ptr : option FRuntimeMeshSection)
    (C : URuntimeMeshComponent) : URuntimeMeshComponent :=
  Set_MeshSections (<[Z.to_nat SectionIndex := Ptr]> (MeshSections C)) C.

(** [MeshSections[SectionIndex]->]: [TArray::operator[]] range checks
    the index and [TSharedPtr::operator->] checks the pointer. *)
Definition Deref (SectionIndex : Z) : Call FRuntimeMeshSection :=
  let* Sections := Gets MeshSections in
  if bool_decide (0 ≤ SectionIndex < Num Sections)
  then match SlotAt SectionIndex Sections with
       | Some Sec => Return Sec
       | None => Halt (AssertionFailed "IsValid()")
       end
  else Halt (AssertionFailed "Array index out of bounds").

(** A member call through the section pointer: the section object in
    the registry slot is the one mutated. *)
Definition Invoke {A : Type} (SectionPtr : Z)
    (Method : FRuntimeMeshSection → FRuntimeMeshSection * A) : Call A :=
  let* Sec := Deref SectionPtr in
  let '(Sec', Value) := Method Sec in
  Modify (SetSlot SectionPtr (Some Sec'));;
  Return Value.

Definition Assign (SectionPtr : Z)
    (Setter : FRuntimeMeshSection → FRuntimeMeshSection) : Call () :=
  Invoke SectionPtr (λ Sec, (Setter Sec, ())).

(** ** Validation macros *)

Definition RMC_VALIDATE_CREATIONPARAMETERS {A B : Type}
    (SectionIndex : Z) (Vertices : list A) (Triangles : list B) : Call () :=
  check (bool_decide (0 ≤ SectionIndex)) "SectionIndex cannot be negative.";;
  check (bool_decide (0 < Num Vertices)) "Vertices length must not be 0.";;
  check (bool_decide (0 < Num Triangles)) "Triangles length must not be 0".

Definition RMC_VALIDATE_CREATIONPARAMETERS_DUALBUFFER {A B P : Type}
    (SectionIndex : Z) (Vertices : list A) (Triangles : list B)
    (Positions : list P) : Call () :=
  RMC_VALIDATE_CREATIONPARAMETERS SectionIndex Vertices Triangles;;
  check (bool_decide (Num Positions = Num Vertices))
        "Positions must be the same length as Vertices".

Definition RMC_VALIDATE_BOUNDINGBOX (BoundingBox : FBox) : Call () :=
  check (IsValid BoundingBox) "BoundingBox must be valid.".

Definition RMC_VALIDATE_UPDATEPARAMETERS (SectionIndex : Z) : Call () :=
  check (bool_decide (0 ≤ SectionIndex)) "SectionIndex cannot be negative.";;
  let* Sections := Gets MeshSections in
  check (bool_decide (SectionIndex < Num Sections)
         && bool_decide (is_Some (SlotAt SectionIndex Sections)))
        "Invalid SectionIndex.".

(** [RMC_VALIDATE_UPDATEPARAMETERS_INTERNALSECTION]: the update checks
    followed by the test of the section's legacy flag. *)
Definition RMC_VALIDATE_UPDATEPARAMETERS_INTERNALSECTION (SectionIndex : Z) : Call () :=
  RMC_VALIDATE_UPDATEPARAMETERS SectionIndex;;
  let* Sec := Deref SectionIndex in
  check (bIsInternalSectionType Sec) "Section is not of legacy type.".

Definition RMC_VALIDATE_UPDATEPARAMETERS_DUALBUFFER (SectionIndex : Z) : Call () :=
  RMC_VALIDATE_UPDATEPARAMETERS SectionIndex;;
  let* Sec := Deref SectionIndex in
  check (IsDualBufferSection Sec) "Section is not dual buffer.".

(** Modelled from the spec: [verifyLayout] "fails with a LayoutMismatch
    error" when the caller's vertex type is not the one recorded at
    creation.  The header discards the result of [EnsureEquals], so the
    failure is a halt of the call. *)
Definition EnsureEquals (SectionIndex : Z) (VT : FRuntimeMeshVertexTypeInfo) : Call () :=
  let* Sec := Deref SectionIndex in
  if bool_decide (VertexTypeInfo Sec = VT)
  then Return ()
  else Halt (LayoutMismatch (VertexTypeInfo Sec) VT).

(** ** Collision dirty tracker *)

(** Modelled from the spec: [MarkCollisionDirty] "sets the dirty flag
    and, if not already pending, requests one invocation" of the bake
    callback.  The pending flag is the enabled state of the pre-physics
    tick function; [PendingBakeRequests] counts what the scheduler has
    been asked for and has not run yet. *)
Definition MarkCollisionDirty : Call () :=
  Modify (λ C,
    let C' := Set_bCollisionDirty true C in
    if bPrePhysicsTickEnabled C'
    then C'
    else Set_PrePhysicsTick true (S (PendingBakeRequests C')) C').

(** Modelled from the spec: the bake gathers the sections with
    collision enabled, the collision-only sections and the convex hulls
    into one description for the cooker; on success it clears the dirty
    flag and installs the shape, on failure it logs and leaves the
    previous shape in place. *)
Definition BakeCollision (bCookSucceeds : bool) : Call () :=
  let* Sections := Gets MeshSections in
  let* CollisionSections := Gets MeshCollisionSections in
  let* ConvexSections := Gets ConvexCollisionSections in
  let Description :=
    MkCollisionDescription
      (filter (λ Sec, CollisionEnabled Sec = true) (omap id Sections))
      CollisionSections ConvexSections in
  if bCookSucceeds
  then Modify (λ C, Set_BodySetup (Some Description) (Set_bCollisionDirty false C))
  else Log "BakeCollision() - Cooking the collision mesh failed." true.

(** Modelled from the spec: the scheduler runs the one-shot bake
    callback it was asked for; the request is consumed whether or not
    the cook succeeds, and nothing is baked when nothing is dirty. *)
Definition ExecuteTick (bCookSucceeds : bool) : Call () :=
  let* bEnabled := Gets bPrePhysicsTickEnabled in
  if bEnabled
  then Modify (λ C, Set_PrePhysicsTick false (Nat.pred (PendingBakeRequests C)) C);;
       let* bDirty := Gets bCollisionDirty in
       if bDirty then BakeCollision bCookSucceeds else Return ()
  else Return ().

(** ** Batch state and synchronisation *)

(** Modelled from the spec: outside a batch the section is synchronised
    at once; "while Batching, every create/update/property-change call
    records its section index in the touched set and returns without
    synchronizing". *)
Definition SynchronizeOrDefer (SectionIndex : Z) (Kind : ESyncKind) : Call () :=
  Modify (λ C,
    if bIsPending (BatchState C)
    then Set_BatchState
           (MkBatchState true ({[SectionIndex]} ∪ TouchedSections (BatchState C))) C
    else Set_RenderSyncs
           (RenderSyncs C ++ [MkSync SectionIndex Kind (SectionAt SectionIndex C)]) C).

(** Modelled from the spec: finishing a create marks collision dirty
    when the new section has collision enabled, then synchronises. *)
Definition CreateSectionInternal (SectionIndex : Z) : Call () :=
  let* Sec := Deref SectionIndex in
  (if CollisionEnabled Sec then MarkCollisionDirty else Return ());;
  SynchronizeOrDefer SectionIndex SyncCreate.

(** Modelled from the spec: finishing an update synchronises "with flags
    describing exactly which parts changed"; a geometry mutation of a
    section with collision enabled marks collision dirty. *)
Definition UpdateSectionInternal (SectionIndex : Z)
    (bHadVertexPositionsUpdate bHadVertexUpdates bHadIndexUpdates
     bNeedsBoundsUpdate : bool) : Call () :=
  let* Sec := Deref SectionIndex in
  (if CollisionEnabled Sec then MarkCollisionDirty else Return ());;
  SynchronizeOrDefer SectionIndex
    (SyncUpdate bHadVertexPositionsUpdate bHadVertexUpdates bHadIndexUpdates
                bNeedsBoundsUpdate).

(** Modelled from the spec: a property change synchronises like any
    other mutation. *)
Definition UpdateSectionPropertiesInternal (SectionIndex : Z)
    (bUpdateRequiresProxyRecreateIfStatic : bool) : Call () :=
  SynchronizeOrDefer SectionIndex SyncProperties.

(** Modelled from the spec: [beginBatch] takes Idle to Batching and
    clears the touched set; the spec leaves a nested begin open, and
    here it leaves the running batch as it is. *)
Definition StartBatch (B : FRuntimeMeshBatchUpdateState) : FRuntimeMeshBatchUpdateState :=
  if bIsPending B then B else MkBatchState true ∅.

Definition BeginBatchUpdates : Call () :=
  Modify (λ C, Set_BatchState (StartBatch (BatchState C)) C).

(** Modelled from the spec: [endBatch] takes Batching to Idle and
    "iterates the touched-index set exactly once", synchronising each
    touched section; without a running batch it does nothing. *)
Definition EndBatchUpdates : Call () :=
  Modify (λ C,
    if bIsPending (BatchState C)
    then Set_BatchState (MkBatchState false ∅)
           (Set_RenderSyncs
              (RenderSyncs C ++
               ((λ i, MkSync i SyncBatch (SectionAt i C))
                  <$> elements (TouchedSections (BatchState C)))) C)
    else C).


(** ** Creating sections *)

(** [(UpdateFlags & ESectionUpdateFlags::MoveArrays) != ESectionUpdateFlags::None] *)
Definition ShouldUseMove (UpdateFlags : ESectionUpdateFlags) : bool :=
  bool_decide (Z.land UpdateFlags ESectionUpdateFlags_MoveArrays ≠ ESectionUpdateFlags_None).

(** [CreateOrResetSection<SectionType>]: the section pointer it returns
    is the registry slot it has just filled.  [SectionIndex + 1] is an
    [int32] sum: at [SectionIndex = MAX_int32] it overflows, the count
    that reaches [SetNum] is negative, and [SetNum] fails its range check
    before the array is touched. *)
Definition CreateOrResetSection (VT : FRuntimeMeshVertexTypeInfo) (SectionIndex : Z)
    (bWantsSeparatePositionBuffer : bool) (bIsInternalSectionType : bool) : Call Z :=
  (* Ensure sections array is long enough *)
  let* Sections := Gets MeshSections in
  (if bool_decide (Num Sections ≤ SectionIndex)
   then match Int32Add SectionIndex 1 with
        | Some NewNum =>
            Modify (λ C, Set_MeshSections (SetNum None (MeshSections C) NewNum) C)
        | None => Halt (AssertionFailed "Array count out of bounds")
        end
   else Return ());;
  (* Create new section *)
  let NewSection :=
    Set_bIsInternalSectionType bIsInternalSectionType
      (NewSection VT bWantsSeparatePositionBuffer) in
  (* Store section at index *)
  let* Sections := Gets MeshSections in
  check (bool_decide (0 ≤ SectionIndex < Num Sections)) "Array index out of bounds";;
  Modify (SetSlot SectionIndex (Some NewSection));;
  Return SectionIndex.

(** [CreateMeshSection<VertexType>(SectionIndex, Vertices, Triangles, ...)] *)
Definition CreateMeshSection (VT : FRuntimeMeshVertexTypeInfo) (SectionIndex : Z)
    (Vertices : list VertexType) (Triangles : list Z) (bCreateCollision : bool)
    (UpdateFrequency : EUpdateFrequency) (UpdateFlags : ESectionUpdateFlags) : Call () :=
  RMC_VALIDATE_CREATIONPARAMETERS SectionIndex Vertices Triangles;;
  let* SectionPtr := CreateOrResetSection VT SectionIndex false false in
  let bShouldUseMove := ShouldUseMove UpdateFlags in
  Invoke SectionPtr (UpdateVertexBuffer Vertices None bShouldUseMove);;
  Invoke SectionPtr (UpdateIndexBuffer Triangles bShouldUseMove);;
  Assign SectionPtr (Set_CollisionEnabled bCreateCollision);;
  Assign SectionPtr (Set_UpdateFrequency UpdateFrequency);;
  CreateSectionInternal SectionIndex.

(** [CreateMeshSection<VertexType>(SectionIndex, Vertices, Triangles, BoundingBox, ...)] *)
Definition CreateMeshSection_Box (VT : FRuntimeMeshVertexTypeInfo) (SectionIndex : Z)
    (Vertices : list VertexType) (Triangles : list Z) (BoundingBox : FBox)
    (bCreateCollision : bool) (UpdateFrequency : EUpdateFrequency)
    (UpdateFlags : ESectionUpdateFlags) : Call () :=
  RMC_VALIDATE_CREATIONPARAMETERS SectionIndex Vertices Triangles;;
  RMC_VALIDATE_BOUNDINGBOX BoundingBox;;
  let* SectionPtr := CreateOrResetSection VT SectionIndex false false in
  let bShouldUseMove := ShouldUseMove UpdateFlags in
  Invoke SectionPtr (UpdateVertexBuffer Vertices (Some BoundingBox) bShouldUseMove);;
  Invoke SectionPtr (UpdateIndexBuffer Triangles bShouldUseMove);;
  Assign SectionPtr (Set_CollisionEnabled bCreateCollision);;
  Assign SectionPtr (Set_UpdateFrequency UpdateFrequency);;
  CreateSectionInternal SectionIndex.

(** [CreateMeshSectionDualBuffer<VertexType>(SectionIndex, VertexPositions, VertexData, Triangles, ...)] *)
Definition CreateMeshSectionDualBuffer (VT : FRuntimeMeshVertexTypeInfo) (SectionIndex : Z)
    (VertexPositions : list FVector) (VertexData : list VertexType) (Triangles : list Z)
    (bCreateCollision : bool) (UpdateFrequency : EUpdateFrequency)
    (UpdateFlags : ESectionUpdateFlags) : Call () :=
  RMC_VALIDATE_CREATIONPARAMETERS_DUALBUFFER SectionIndex VertexData Triangles VertexPositions;;
  let* SectionPtr := CreateOrResetSection VT SectionIndex true false in
  let bShouldUseMove := ShouldUseMove UpdateFlags in
  Invoke SectionPtr (UpdateVertexPositionBuffer VertexPositions None bShouldUseMove);;
  Invoke SectionPtr (UpdateVertexBuffer VertexData None bShouldUseMove);;
  Invoke SectionPtr (UpdateIndexBuffer Triangles bShouldUseMove);;
  Assign SectionPtr (Set_CollisionEnabled bCreateCollision);;
  Assign SectionPtr (Set_UpdateFrequency UpdateFrequency);;
  CreateSectionInternal SectionIndex.

(** [CreateMeshSectionDualBuffer<VertexType>(SectionIndex, VertexPositions, VertexData, Triangles, BoundingBox, ...)] *)
Definition CreateMeshSectionDualBuffer_Box (VT : FRuntimeMeshVertexTypeInfo)
    (SectionIndex : Z) (VertexPositions : list FVector) (VertexData : list VertexType)
    (Triangles : list Z) (BoundingBox : FBox) (bCreateCollision : bool)
    (UpdateFrequency : EUpdateFrequency) (UpdateFlags : ESectionUpdateFlags) : Call () :=
  RMC_VALIDATE_CREATIONPARAMETERS_DUALBUFFER SectionIndex VertexData Triangles VertexPositions;;
  RMC_VALIDATE_BOUNDINGBOX BoundingBox;;
  let* SectionPtr := CreateOrResetSection VT SectionIndex true false in
  let bShouldUseMove := ShouldUseMove UpdateFlags in
  Invoke SectionPtr
    (UpdateVertexPositionBuffer VertexPositions (Some BoundingBox) bShouldUseMove);;
  Invoke SectionPtr (UpdateVertexBuffer VertexData None bShouldUseMove);;
  Invoke SectionPtr (UpdateIndexBuffer Triangles bShouldUseMove);;
  Assign SectionPtr (Set_CollisionEnabled bCreateCollision);;
  Assign SectionPtr (Set_UpdateFrequency UpdateFrequency);;
  CreateSectionInternal SectionIndex.

(** ** Updating sections

    The eight typed [UpdateMeshSection] overloads, in the order of the
    header. *)

(** [UpdateMeshSection<VertexType>(SectionIndex, Vertices, UpdateFlags)] *)
Definition UpdateMeshSection (VT : FRuntimeMeshVertexTypeInfo)
    (SectionIndex : Z) (Vertices : list VertexType)
    (UpdateFlags : ESectionUpdateFlags) : Call () :=
  RMC_VALIDATE_UPDATEPARAMETERS SectionIndex;;
  EnsureEquals SectionIndex VT;;
  let* Sec := Deref SectionIndex in
  if IsDualBufferSection Sec && bool_decide (Num Vertices ≠ Num (VertexBuffer Sec))
  then Log "UpdateMeshSection() - Vertices cannot change length unless the positions are updated as well." true
  else
    let bShouldUseMove := ShouldUseMove UpdateFlags in
    let* '(bNeedsBoundsUpdate, bUpdatedVertices) :=
      (if bool_decide (0 < Num Vertices)
       then let* b := Invoke SectionIndex (UpdateVertexBuffer Vertices None bShouldUseMove) in
            Return (b, true)
       else Log "UpdateMeshSection() - Vertices empty. They will not be updated." false;;
            Return (false, false)) in
    if bUpdatedVertices
    then UpdateSectionInternal SectionIndex false bUpdatedVertices false
           bNeedsBoundsUpdate
    else Return ().

(** [UpdateMeshSection<VertexType>(SectionIndex, Vertices, BoundingBox, UpdateFlags)] *)
Definition UpdateMeshSection_Box (VT : FRuntimeMeshVertexTypeInfo)
    (SectionIndex : Z) (Vertices : list VertexType)
    (BoundingBox : FBox)
    (UpdateFlags : ESectionUpdateFlags) : Call () :=
  RMC_VALIDATE_UPDATEPARAMETERS SectionIndex;;
  RMC_VALIDATE_BOUNDINGBOX BoundingBox;;
  EnsureEquals SectionIndex VT;;
  let* Sec := Deref SectionIndex in
  if IsDualBufferSection Sec && bool_decide (Num Vertices ≠ Num (VertexBuffer Sec))
  then Log "UpdateMeshSection() - Vertices cannot change length unless the positions are updated as well." true
  else
    let bShouldUseMove := ShouldUseMove UpdateFlags in
    let* '(bNeedsBoundsUpdate, bUpdatedVertices) :=
      (if bool_decide (0 < Num Vertices)
       then let* b := Invoke SectionIndex (UpdateVertexBuffer Vertices (Some BoundingBox) bShouldUseMove) in
            Return (b, true)
       else Log "UpdateMeshSection() - Vertices empty. They will not be updated." false;;
            Return (false, false)) in
    if bUpdatedVertices
    then UpdateSectionInternal SectionIndex false bUpdatedVertices false
           bNeedsBoundsUpdate
    else Return ().

(** [UpdateMeshSection<VertexType>(SectionIndex, Vertices, Triangles, UpdateFlags)] *)
Definition UpdateMeshSection_Triangles (VT : FRuntimeMeshVertexTypeInfo)
    (SectionIndex : Z) (Vertices : list VertexType) (Triangles : list Z)
    (UpdateFlags : ESectionUpdateFlags) : Call () :=
  RMC_VALIDATE_UPDATEPARAMETERS SectionIndex;;
  EnsureEquals SectionIndex VT;;
  let* Sec := Deref SectionIndex in
  if IsDualBufferSection Sec && bool_decide (Num Vertices ≠ Num (VertexBuffer Sec))
  then Log "UpdateMeshSection() - Vertices cannot change length unless the positions are updated as well." true
  else
    let bShouldUseMove := ShouldUseMove UpdateFlags in
    let* '(bNeedsBoundsUpdate, bUpdatedVertices) :=
      (if bool_decide (0 < Num Vertices)
       then let* b := Invoke SectionIndex (UpdateVertexBuffer Vertices None bShouldUseMove) in
            Return (b, true)
       else Log "UpdateMeshSection() - Vertices empty. They will not be updated." false;;
            Return (false, false)) in
    let* bUpdatedIndices :=
      (if bool_decide (0 < Num Triangles)
       then Invoke SectionIndex (UpdateIndexBuffer Triangles bShouldUseMove);;
            Return true
       else Log "UpdateMeshSection() - Triangles empty. They will not be updated." false;;
            Return false) in
    if bUpdatedVertices || bUpdatedIndices
    then UpdateSectionInternal SectionIndex false bUpdatedVertices bUpdatedIndices
           bNeedsBoundsUpdate
    else Return ().

(** [UpdateMeshSection<VertexType>(SectionIndex, Vertices, Triangles, BoundingBox, UpdateFlags)] *)
Definition UpdateMeshSection_Triangles_Box (VT : FRuntimeMeshVertexTypeInfo)
    (SectionIndex : Z) (Vertices : list VertexType) (Triangles : list Z)
    (BoundingBox : FBox)
    (UpdateFlags : ESectionUpdateFlags) : Call () :=
  RMC_VALIDATE_UPDATEPARAMETERS SectionIndex;;
  RMC_VALIDATE_BOUNDINGBOX BoundingBox;;
  EnsureEquals SectionIndex VT;;
  let* Sec := Deref SectionIndex in
  if IsDualBufferSection Sec && bool_decide (Num Vertices ≠ Num (VertexBuffer Sec))
  then Log "UpdateMeshSection() - Vertices cannot change length unless the positions are updated as well." true
  else
    let bShouldUseMove := ShouldUseMove UpdateFlags in
    let* '(bNeedsBoundsUpdate, bUpdatedVertices) :=
      (if bool_decide (0 < Num Vertices)
       then let* b := Invoke SectionIndex (UpdateVertexBuffer Vertices (Some BoundingBox) bShouldUseMove) in
            Return (b, true)
       else Log "UpdateMeshSection() - Vertices empty. They will not be updated." false;;
            Return (false, false)) in
    let* bUpdatedIndices :=
      (if bool_decide (0 < Num Triangles)
       then Invoke SectionIndex (UpdateIndexBuffer Triangles bShouldUseMove);;
            Return true
       else Log "UpdateMeshSection() - Triangles empty. They will not be updated." false;;
            Return false) in
    if bUpdatedVertices || bUpdatedIndices
    then UpdateSectionInternal SectionIndex false bUpdatedVertices bUpdatedIndices
           bNeedsBoundsUpdate
    else Return ().

(** [UpdateMeshSection<VertexType>(SectionIndex, VertexPositions, VertexData, UpdateFlags)] *)
Definition UpdateMeshSection_Dual (VT : FRuntimeMeshVertexTypeInfo)
    (SectionIndex : Z) (VertexPositions : list FVector)
    (VertexData : list VertexType)
    (UpdateFlags : ESectionUpdateFlags) : Call () :=
  RMC_VALIDATE_UPDATEPARAMETERS_DUALBUFFER SectionIndex;;
  EnsureEquals SectionIndex VT;;
  let* Sec := Deref SectionIndex in
  if IsDualBufferSection Sec
     && bool_decide (Num VertexData ≠ Num (VertexBuffer Sec))
     && bool_decide (Num VertexPositions ≠ Num VertexData)
  then Log "UpdateMeshSection() - Vertices cannot change length unless the positions are updated as well." true
  else
    let bShouldUseMove := ShouldUseMove UpdateFlags in
    let* '(bNeedsBoundsUpdate, bUpdatedVertexPositions) :=
      (if bool_decide (0 < Num VertexPositions)
       then let* b := Invoke SectionIndex
                  (UpdateVertexPositionBuffer VertexPositions None bShouldUseMove) in
            Return (b, true)
       else Log "UpdatemeshSection() - Vertex positions empty. They will not be updated." false;;
            Return (false, false)) in
    let* bUpdatedVertices :=
      (if bool_decide (0 < Num VertexData)
       then Invoke SectionIndex (UpdateVertexBuffer VertexData None bShouldUseMove);;
            Return true
       else Log "UpdateMeshSection() - Vertices empty. They will not be updated." false;;
            Return false) in
    if bUpdatedVertexPositions || bUpdatedVertices
    then UpdateSectionInternal SectionIndex bUpdatedVertexPositions bUpdatedVertices
           false bNeedsBoundsUpdate
    else Return ().

(** [UpdateMeshSection<VertexType>(SectionIndex, VertexPositions, VertexData, BoundingBox, UpdateFlags)] *)
Definition UpdateMeshSection_Dual_Box (VT : FRuntimeMeshVertexTypeInfo)
    (SectionIndex : Z) (VertexPositions : list FVector)
    (VertexData : list VertexType) (BoundingBox : FBox)
    (UpdateFlags : ESectionUpdateFlags) : Call () :=
  RMC_VALIDATE_UPDATEPARAMETERS_DUALBUFFER SectionIndex;;
  RMC_VALIDATE_BOUNDINGBOX BoundingBox;;
  EnsureEquals SectionIndex VT;;
  let* Sec := Deref SectionIndex in
  if IsDualBufferSection Sec
     && bool_decide (Num VertexData ≠ Num (VertexBuffer Sec))
     && bool_decide (Num VertexPositions ≠ Num VertexData)
  then Log "UpdateMeshSection() - Vertices cannot change length unless the positions are updated as well." true
  else
    let bShouldUseMove := ShouldUseMove UpdateFlags in
    let* '(bNeedsBoundsUpdate, bUpdatedVertexPositions) :=
      (if bool_decide (0 < Num VertexPositions)
       then let* b := Invoke SectionIndex
                  (UpdateVertexPositionBuffer VertexPositions (Some BoundingBox) bShouldUseMove) in
            Return (b, true)
       else Log "UpdatemeshSection() - Vertex positions empty. They will not be updated." false;;
            Return (false, false)) in
    let* bUpdatedVertices :=
      (if bool_decide (0 < Num VertexData)
       then Invoke SectionIndex (UpdateVertexBuffer VertexData None bShouldUseMove);;
            Return true
       else Log "UpdateMeshSection() - Vertices empty. They will not be updated." false;;
            Return false) in
    if bUpdatedVertexPositions || bUpdatedVertices
    then UpdateSectionInternal SectionIndex bUpdatedVertexPositions bUpdatedVertices
           false bNeedsBoundsUpdate
    else Return ().

(** [UpdateMeshSection<VertexType>(SectionIndex, VertexPositions, VertexData, Triangles, UpdateFlags)] *)
Definition UpdateMeshSection_Dual_Triangles (VT : FRuntimeMeshVertexTypeInfo)
    (SectionIndex : Z) (VertexPositions : list FVector)
    (VertexData : list VertexType) (Triangles : list Z)
    (UpdateFlags : ESectionUpdateFlags) : Call () :=
  RMC_VALIDATE_UPDATEPARAMETERS_DUALBUFFER SectionIndex;;
  EnsureEquals SectionIndex VT;;
  let* Sec := Deref SectionIndex in
  if IsDualBufferSection Sec
     && bool_decide (Num VertexData ≠ Num (VertexBuffer Sec))
     && bool_decide (Num VertexPositions ≠ Num VertexData)
  then Log "UpdateMeshSection() - Vertices cannot change length unless the positions are updated as well." true
  else
    let bShouldUseMove := ShouldUseMove UpdateFlags in
    let* '(bNeedsBoundsUpdate, bUpdatedVertexPositions) :=
      (if bool_decide (0 < Num VertexPositions)
       then let* b := Invoke SectionIndex
                  (UpdateVertexPositionBuffer VertexPositions None bShouldUseMove) in
            Return (b, true)
       else Log "UpdatemeshSection() - Vertex positions empty. They will not be updated." false;;
            Return (false, false)) in
    let* bUpdatedVertices :=
      (if bool_decide (0 < Num VertexData)
       then Invoke SectionIndex (UpdateVertexBuffer VertexData None bShouldUseMove);;
            Return true
       else Log "UpdateMeshSection() - Vertices empty. They will not be updated." false;;
            Return false) in
    let* bUpdatedIndices :=
      (if bool_decide (0 < Num Triangles)
       then Invoke SectionIndex (UpdateIndexBuffer Triangles bShouldUseMove);;
            Return true
       else Log "UpdateMeshSection() - Triangles empty. They will not be updated." false;;
            Return false) in
    if bUpdatedVertexPositions || bUpdatedVertices || bUpdatedIndices
    then UpdateSectionInternal SectionIndex bUpdatedVertexPositions bUpdatedVertices
           bUpdatedIndices bNeedsBoundsUpdate
    else Return ().

(** [UpdateMeshSection<VertexType>(SectionIndex, VertexPositions, VertexData, Triangles, BoundingBox, UpdateFlags)] *)
Definition UpdateMeshSection_Dual_Triangles_Box (VT : FRuntimeMeshVertexTypeInfo)
    (SectionIndex : Z) (VertexPositions : list FVector)
    (VertexData : list VertexType) (Triangles : list Z) (BoundingBox : FBox)
    (UpdateFlags : ESectionUpdateFlags) : Call () :=
  RMC_VALIDATE_UPDATEPARAMETERS_DUALBUFFER SectionIndex;;
  RMC_VALIDATE_BOUNDINGBOX BoundingBox;;
  EnsureEquals SectionIndex VT;;
  let* Sec := Deref SectionIndex in
  if IsDualBufferSection Sec
     && bool_decide (Num VertexData ≠ Num (VertexBuffer Sec))
     && bool_decide (Num VertexPositions ≠ Num VertexData)
  then Log "UpdateMeshSection() - Vertices cannot change length unless the positions are updated as well." true
  else
    let bShouldUseMove := ShouldUseMove UpdateFlags in
    let* '(bNeedsBoundsUpdate, bUpdatedVertexPositions) :=
      (if bool_decide (0 < Num VertexPositions)
       then let* b := Invoke SectionIndex
                  (UpdateVertexPositionBuffer VertexPositions (Some BoundingBox) bShouldUseMove) in
            Return (b, true)
       else Log "UpdatemeshSection() - Vertex positions empty. They will not be updated." false;;
            Return (false, false)) in
    let* bUpdatedVertices :=
      (if bool_decide (0 < Num VertexData)
       then Invoke SectionIndex (UpdateVertexBuffer VertexData None bShouldUseMove);;
            Return true
       else Log "UpdateMeshSection() - Vertices empty. They will not be updated." false;;
            Return false) in
    let* bUpdatedIndices :=
      (if bool_decide (0 < Num Triangles)
       then Invoke SectionIndex (UpdateIndexBuffer Triangles bShouldUseMove);;
            Return true
       else Log "UpdateMeshSection() - Triangles empty. They will not be updated." false;;
            Return false) in
    if bUpdatedVertexPositions || bUpdatedVertices || bUpdatedIndices
    then UpdateSectionInternal SectionIndex bUpdatedVertexPositions bUpdatedVertices
           bUpdatedIndices bNeedsBoundsUpdate
    else Return ().


(** ** Queries *)

(** Modelled from the spec: "section existence" — the index is in range
    and its slot holds a section. *)
Definition DoesSectionExist (SectionIndex : Z) (C : URuntimeMeshComponent) : bool :=
  bool_decide (is_Some (SectionAt SectionIndex C)).

(** Modelled from the spec: "section bounding box" — the box of an
    existing section; the C++ result flag and out parameter are folded
    into an optional. *)
Definition GetSectionBoundingBox (SectionIndex : Z) (C : URuntimeMeshComponent)
    : option FBox :=
  LocalBoundingBox <$> SectionAt SectionIndex C.

(** ** Section properties, clearing, collision geometry *)

(** Modelled from the spec: a property change on an existing section is
    applied and synchronised; on a non-existent section it is rejected
    without mutation. *)
Definition SetMeshSectionVisible (SectionIndex : Z) (bNewVisibility : bool) : Call () :=
  let* Sections := Gets MeshSections in
  match SlotAt SectionIndex Sections with
  | Some _ =>
      Assign SectionIndex (Set_bIsVisible bNewVisibility);;
      UpdateSectionPropertiesInternal SectionIndex false
  | None => Return ()
  end.

Definition SetMeshSectionCastsShadow (SectionIndex : Z) (bNewCastsShadow : bool) : Call () :=
  let* Sections := Gets MeshSections in
  match SlotAt SectionIndex Sections with
  | Some _ =>
      Assign SectionIndex (Set_bCastsShadow bNewCastsShadow);;
      UpdateSectionPropertiesInternal SectionIndex true
  | None => Return ()
  end.

(** Modelled from the spec: "a collision-enabled flag toggle" marks
    collision dirty. *)
Definition SetMeshSectionCollisionEnabled (SectionIndex : Z)
    (bNewCollisionEnabled : bool) : Call () :=
  let* Sections := Gets MeshSections in
  match SlotAt SectionIndex Sections with
  | Some Sec =>
      if bool_decide (CollisionEnabled Sec = bNewCollisionEnabled)
      then Return ()
      else Assign SectionIndex (Set_CollisionEnabled bNewCollisionEnabled);;
           MarkCollisionDirty
  | None => Return ()
  end.

(** Modelled from the spec: "removing a section index sets its slot
    empty and, if the section had collision enabled, marks the collision
    dirty flag". *)
Definition ClearMeshSection (SectionIndex : Z) : Call () :=
  let* Sections := Gets MeshSections in
  match SlotAt SectionIndex Sections with
  | Some Sec =>
      Modify (SetSlot SectionIndex None);;
      if CollisionEnabled Sec then MarkCollisionDirty else Return ()
  | None => Return ()
  end.

(** Modelled from the spec: "removing all sections resets the registry
    to empty"; the collision of the removed sections goes with them. *)
Definition ClearAllMeshSections : Call () :=
  let* Sections := Gets MeshSections in
  Modify (Set_MeshSections []);;
  if bool_decide (Exists (λ Sec, CollisionEnabled Sec = true) (omap id Sections))
  then MarkCollisionDirty
  else Return ().

(** Modelled from the spec: "a raw collision-section set/clear" and "a
    convex-hull add/clear" each mark collision dirty. *)
Definition EmptyCollisionSection : FRuntimeMeshCollisionSection :=
  MkCollisionSection [] [].

Definition SetMeshCollisionSection (CollisionSectionIndex : Z)
    (Vertices : list FVector) (Triangles : list Z) : Call () :=
  if bool_decide (0 ≤ CollisionSectionIndex)
  then
    Modify (λ C,
      let Sections :=
        if bool_decide (Num (MeshCollisionSections C) ≤ CollisionSectionIndex)
        then SetNum EmptyCollisionSection (MeshCollisionSections C)
               (CollisionSectionIndex + 1)
        else MeshCollisionSections C in
      Set_MeshCollisionSections
        (<[Z.to_nat CollisionSectionIndex := MkCollisionSection Vertices Triangles]>
           Sections) C);;
    MarkCollisionDirty
  else Return ().

Definition ClearMeshCollisionSection (CollisionSectionIndex : Z) : Call () :=
  let* Sections := Gets MeshCollisionSections in
  if bool_decide (0 ≤ CollisionSectionIndex < Num Sections)
  then
    Modify (λ C,
      Set_MeshCollisionSections
        (<[Z.to_nat CollisionSectionIndex := EmptyCollisionSection]>
           (MeshCollisionSections C)) C);;
    MarkCollisionDirty
  else Return ().

Definition ClearAllMeshCollisionSections : Call () :=
  Modify (Set_MeshCollisionSections []);;
  MarkCollisionDirty.

Definition AddCollisionConvexMesh (ConvexVerts : list FVector) : Call () :=
  Modify (λ C,
    Set_ConvexCollisionSections
      (ConvexCollisionSections C ++ [MkConvexSection ConvexVerts]) C);;
  MarkCollisionDirty.

Definition ClearCollisionConvexMeshes : Call () :=
  Modify (Set_ConvexCollisionSections []);;
  MarkCollisionDirty.

Definition SetCollisionConvexMeshes (ConvexMeshes : list (list FVector)) : Call () :=
  Modify (Set_ConvexCollisionSections (MkConvexSection <$> ConvexMeshes));;
  MarkCollisionDirty.

(** ** Calls as data

    The entry points as values, so that properties can be stated once
    for every overload and for sequences of calls. *)

Inductive ECreateCall : Type :=
  | Create (VT : FRuntimeMeshVertexTypeInfo) (SectionIndex : Z)
      (Vertices : list VertexType) (Triangles : list Z)
      (bCreateCollision : option bool) (UpdateFrequency : option EUpdateFrequency)
      (UpdateFlags : option ESectionUpdateFlags)
  | Create_Box (VT : FRuntimeMeshVertexTypeInfo) (SectionIndex : Z)
      (Vertices : list VertexType) (Triangles : list Z) (BoundingBox : FBox)
      (bCreateCollision : option bool) (UpdateFrequency : option EUpdateFrequency)
      (UpdateFlags : option ESectionUpdateFlags)
  | CreateDual (VT : FRuntimeMeshVertexTypeInfo) (SectionIndex : Z)
      (VertexPositions : list FVector) (VertexData : list VertexType)
      (Triangles : list Z)
      (bCreateCollision : option bool) (UpdateFrequency : option EUpdateFrequency)
      (UpdateFlags : option ESectionUpdateFlags)
  | CreateDual_Box (VT : FRuntimeMeshVertexTypeInfo) (SectionIndex : Z)
      (VertexPositions : list FVector) (VertexData : list VertexType)
      (Triangles : list Z) (BoundingBox : FBox)
      (bCreateCollision : option bool) (UpdateFrequency : option EUpdateFrequency)
      (UpdateFlags : option ESectionUpdateFlags).

(** The default arguments of the create overloads:
    [bCreateCollision = false], [UpdateFrequency = EUpdateFrequency::Average],
    [UpdateFlags = ESectionUpdateFlags::None]. *)
Definition Arg_bCreateCollision (Argument : option bool) : bool :=
  default false Argument.
Definition Arg_UpdateFrequency (Argument : option EUpdateFrequency) : EUpdateFrequency :=
  default Average Argument.
Definition Arg_UpdateFlags (Argument : option ESectionUpdateFlags) : ESectionUpdateFlags :=
  default ESectionUpdateFlags_None Argument.

Definition RunCreate (c : ECreateCall) : Call () :=
  match c with
  | Create VT i V T bC F U =>
      CreateMeshSection VT i V T
        (Arg_bCreateCollision bC) (Arg_UpdateFrequency F) (Arg_UpdateFlags U)
  | Create_Box VT i V T B bC F U =>
      CreateMeshSection_Box VT i V T B
        (Arg_bCreateCollision bC) (Arg_UpdateFrequency F) (Arg_UpdateFlags U)
  | CreateDual VT i P V T bC F U =>
      CreateMeshSectionDualBuffer VT i P V T
        (Arg_bCreateCollision bC) (Arg_UpdateFrequency F) (Arg_UpdateFlags U)
  | CreateDual_Box VT i P V T B bC F U =>
      CreateMeshSectionDualBuffer_Box VT i P V T B
        (Arg_bCreateCollision bC) (Arg_UpdateFrequency F) (Arg_UpdateFlags U)
  end.

Definition CreateIndex (c : ECreateCall) : Z :=
  match c with
  | Create _ i _ _ _ _ _ | Create_Box _ i _ _ _ _ _ _
  | CreateDual _ i _ _ _ _ _ _ | CreateDual_Box _ i _ _ _ _ _ _ _ => i
  end.

(** The vertex array of the call ([Vertices], or [VertexData] of a
    dual-buffer create). *)
Definition CreateVertices (c : ECreateCall) : list VertexType :=
  match c with
  | Create _ _ V _ _ _ _ | Create_Box _ _ V _ _ _ _ _
  | CreateDual _ _ _ V _ _ _ _ | CreateDual_Box _ _ _ V _ _ _ _ _ => V
  end.

Definition CreateTriangles (c : ECreateCall) : list Z :=
  match c with
  | Create _ _ _ T _ _ _ | Create_Box _ _ _ T _ _ _ _
  | CreateDual _ _ _ _ T _ _ _ | CreateDual_Box _ _ _ _ T _ _ _ _ => T
  end.

(** The positions the call supplies: those of the vertices, or the
    separate position array of a dual-buffer create. *)
Definition CreatePositions (c : ECreateCall) : list FVector :=
  match c with
  | Create _ _ V _ _ _ _ | Create_Box _ _ V _ _ _ _ _ => PositionOf <$> V
  | CreateDual _ _ P _ _ _ _ _ | CreateDual_Box _ _ P _ _ _ _ _ _ => P
  end.

Definition CreateBoundingBox (c : ECreateCall) : option FBox :=
  match c with
  | Create _ _ _ _ _ _ _ | CreateDual _ _ _ _ _ _ _ _ => None
  | Create_Box _ _ _ _ B _ _ _ | CreateDual_Box _ _ _ _ _ B _ _ _ => Some B
  end.

Definition CreateIsDual (c : ECreateCall) : bool :=
  match c with
  | Create _ _ _ _ _ _ _ | Create_Box _ _ _ _ _ _ _ _ => false
  | CreateDual _ _ _ _ _ _ _ _ | CreateDual_Box _ _ _ _ _ _ _ _ _ => true
  end.

Definition CreateVertexType (c : ECreateCall) : FRuntimeMeshVertexTypeInfo :=
  match c with
  | Create VT _ _ _ _ _ _ | Create_Box VT _ _ _ _ _ _ _
  | CreateDual VT _ _ _ _ _ _ _ | CreateDual_Box VT _ _ _ _ _ _ _ _ => VT
  end.

(** The collision and update-frequency arguments as written at the call
    site: nothing when the argument is omitted. *)
Definition CreateCollisionArgument (c : ECreateCall) : option bool :=
  match c with
  | Create _ _ _ _ bC _ _ | Create_Box _ _ _ _ _ bC _ _
  | CreateDual _ _ _ _ _ bC _ _ | CreateDual_Box _ _ _ _ _ _ bC _ _ => bC
  end.

Definition CreateUpdateFrequencyArgument (c : ECreateCall) : option EUpdateFrequency :=
  match c with
  | Create _ _ _ _ _ F _ | Create_Box _ _ _ _ _ _ F _
  | CreateDual _ _ _ _ _ _ F _ | CreateDual_Box _ _ _ _ _ _ _ F _ => F
  end.

Inductive EUpdateCall : Type :=
  | Update (VT : FRuntimeMeshVertexTypeInfo) (SectionIndex : Z)
      (Vertices : list VertexType) (UpdateFlags : ESectionUpdateFlags)
  | Update_Box (VT : FRuntimeMeshVertexTypeInfo) (SectionIndex : Z)
      (Vertices : list VertexType) (BoundingBox : FBox)
      (UpdateFlags : ESectionUpdateFlags)
  | Update_Triangles (VT : FRuntimeMeshVertexTypeInfo) (SectionIndex : Z)
      (Vertices : list VertexType) (Triangles : list Z)
      (UpdateFlags : ESectionUpdateFlags)
  | Update_Triangles_Box (VT : FRuntimeMeshVertexTypeInfo) (SectionIndex : Z)
      (Vertices : list VertexType) (Triangles : list Z) (BoundingBox : FBox)
      (UpdateFlags : ESectionUpdateFlags)
  | UpdateDual (VT : FRuntimeMeshVertexTypeInfo) (SectionIndex : Z)
      (VertexPositions : list FVector) (VertexData : list VertexType)
      (UpdateFlags : ESectionUpdateFlags)
  | UpdateDual_Box (VT : FRuntimeMeshVertexTypeInfo) (SectionIndex : Z)
      (VertexPositions : list FVector) (VertexData : list VertexType)
      (BoundingBox : FBox) (UpdateFlags : ESectionUpdateFlags)
  | UpdateDual_Triangles (VT : FRuntimeMeshVertexTypeInfo) (SectionIndex : Z)
      (VertexPositions : list FVector) (VertexData : list VertexType)
      (Triangles : list Z) (UpdateFlags : ESectionUpdateFlags)
  | UpdateDual_Triangles_Box (VT : FRuntimeMeshVertexTypeInfo) (SectionIndex : Z)
      (VertexPositions : list FVector) (VertexData : list VertexType)
      (Triangles : list Z) (BoundingBox : FBox)
      (UpdateFlags : ESectionUpdateFlags).

Definition RunUpdate (u : EUpdateCall) : Call () :=
  match u with
  | Update VT i V U => UpdateMeshSection VT i V U
  | Update_Box VT i V B U => UpdateMeshSection_Box VT i V B U
  | Update_Triangles VT i V T U => UpdateMeshSection_Triangles VT i V T U
  | Update_Triangles_Box VT i V T B U => UpdateMeshSection_Triangles_Box VT i V T B U
  | UpdateDual VT i P V U => UpdateMeshSection_Dual VT i P V U
  | UpdateDual_Box VT i P V B U => UpdateMeshSection_Dual_Box VT i P V B U
  | UpdateDual_Triangles VT i P V T U => UpdateMeshSection_Dual_Triangles VT i P V T U
  | UpdateDual_Triangles_Box VT i P V T B U =>
      UpdateMeshSection_Dual_Triangles_Box VT i P V T B U
  end.

Definition UpdateIndex (u : EUpdateCall) : Z :=
  match u with
  | Update _ i _ _ | Update_Box _ i _ _ _ | Update_Triangles _ i _ _ _
  | Update_Triangles_Box _ i _ _ _ _ | UpdateDual _ i _ _ _
  | UpdateDual_Box _ i _ _ _ _ | UpdateDual_Triangles _ i _ _ _ _
  | UpdateDual_Triangles_Box _ i _ _ _ _ _ => i
  end.

Definition UpdateVertexType (u : EUpdateCall) : FRuntimeMeshVertexTypeInfo :=
  match u with
  | Update VT _ _ _ | Update_Box VT _ _ _ _ | Update_Triangles VT _ _ _ _
  | Update_Triangles_Box VT _ _ _ _ _ | UpdateDual VT _ _ _ _
  | UpdateDual_Box VT _ _ _ _ _ | UpdateDual_Triangles VT _ _ _ _ _
  | UpdateDual_Triangles_Box VT _ _ _ _ _ _ => VT
  end.

(** The three parts a call can supply; an overload without the
    parameter supplies nothing for it. *)
Definition UpdatePositions (u : EUpdateCall) : list FVector :=
  match u with
  | UpdateDual _ _ P _ _ | UpdateDual_Box _ _ P _ _ _
  | UpdateDual_Triangles _ _ P _ _ _ | UpdateDual_Triangles_Box _ _ P _ _ _ _ => P
  | _ => []
  end.

Definition UpdateVertices (u : EUpdateCall) : list VertexType :=
  match u with
  | Update _ _ V _ | Update_Box _ _ V _ _ | Update_Triangles _ _ V _ _
  | Update_Triangles_Box _ _ V _ _ _ | UpdateDual _ _ _ V _
  | UpdateDual_Box _ _ _ V _ _ | UpdateDual_Triangles _ _ _ V _ _
  | UpdateDual_Triangles_Box _ _ _ V _ _ _ => V
  end.

Definition UpdateTriangles (u : EUpdateCall) : list Z :=
  match u with
  | Update_Triangles _ _ _ T _ | Update_Triangles_Box _ _ _ T _ _
  | UpdateDual_Triangles _ _ _ _ T _ | UpdateDual_Triangles_Box _ _ _ _ T _ _ => T
  | _ => []
  end.

Definition UpdateBoundingBox (u : EUpdateCall) : option FBox :=
  match u with
  | Update_Box _ _ _ B _ | Update_Triangles_Box _ _ _ _ B _
  | UpdateDual_Box _ _ _ _ B _ | UpdateDual_Triangles_Box _ _ _ _ _ B _ => Some B
  | _ => None
  end.

(** Whether the overload is one of the four that take a separate
    position array. *)
Definition UpdateIsDualOverload (u : EUpdateCall) : bool :=
  match u with
  | UpdateDual _ _ _ _ _ | UpdateDual_Box _ _ _ _ _ _
  | UpdateDual_Triangles _ _ _ _ _ _ | UpdateDual_Triangles_Box _ _ _ _ _ _ _ => true
  | _ => false
  end.

Inductive ECall : Type :=
  | CallCreate (c : ECreateCall)
  | CallUpdate (u : EUpdateCall)
  | CallSetMeshSectionVisible (SectionIndex : Z) (bNewVisibility : bool)
  | CallSetMeshSectionCastsShadow (SectionIndex : Z) (bNewCastsShadow : bool)
  | CallSetMeshSectionCollisionEnabled (SectionIndex : Z) (bNewCollisionEnabled : bool)
  | CallClearMeshSection (SectionIndex : Z)
  | CallClearAllMeshSections
  | CallSetMeshCollisionSection (CollisionSectionIndex : Z)
      (Vertices : list FVector) (Triangles : list Z)
  | CallClearMeshCollisionSection (CollisionSectionIndex : Z)
  | CallClearAllMeshCollisionSections
  | CallAddCollisionConvexMesh (ConvexVerts : list FVector)
  | CallClearCollisionConvexMeshes
  | CallSetCollisionConvexMeshes (ConvexMeshes : list (list FVector))
  | CallBeginBatchUpdates
  | CallEndBatchUpdates
  | CallExecuteTick (bCookSucceeds : bool).

Definition Run (c : ECall) : Call () :=
  match c with
  | CallCreate c => RunCreate c
  | CallUpdate u => RunUpdate u
  | CallSetMeshSectionVisible i b => SetMeshSectionVisible i b
  | CallSetMeshSectionCastsShadow i b => SetMeshSectionCastsShadow i b
  | CallSetMeshSectionCollisionEnabled i b => SetMeshSectionCollisionEnabled i b
  | CallClearMeshSection i => ClearMeshSection i
  | CallClearAllMeshSections => ClearAllMeshSections
  | CallSetMeshCollisionSection i V T => SetMeshCollisionSection i V T
  | CallClearMeshCollisionSection i => ClearMeshCollisionSection i
  | CallClearAllMeshCollisionSections => ClearAllMeshCollisionSections
  | CallAddCollisionConvexMesh V => AddCollisionConvexMesh V
  | CallClearCollisionConvexMeshes => ClearCollisionConvexMeshes
  | CallSetCollisionConvexMeshes Vs => SetCollisionConvexMeshes Vs
  | CallBeginBatchUpdates => BeginBatchUpdates
  | CallEndBatchUpdates => EndBatchUpdates
  | CallExecuteTick b => ExecuteTick b
  end.

(** A sequence of calls, one after the other; a halt ends it. *)
Fixpoint RunAll (cs : list ECall) : Call () :=
  match cs with
  | [] => Return ()
  | c :: cs' => Run c;; RunAll cs'
  end.

End RuntimeMesh.

Arguments FRuntimeMeshSection VertexType : clear implicits.
Arguments URuntimeMeshComponent VertexType : clear implicits.
Arguments ECreateCall VertexType : clear implicits.
Arguments EUpdateCall VertexType : clear implicits.
Arguments ECall VertexType : clear implicits.

(** The component a call leaves behind, returned or halted. *)
Definition ComponentOf {State A} (r : TResult State A) : State :=
  match r with
  | Returned _ C => C
  | Halted _ C => C
  end.

(** ** The claims of the design document that the code does not bear out,
    as the document words them *)

(** A rejection is a logged, recoverable no-op: the call returns, the
    sections are as before, and the log has grown. *)
Definition RejectedAsLoggedNoOp {VertexType : Type}
    (m : TCall (URuntimeMeshComponent VertexType) ())
    (C : URuntimeMeshComponent VertexType) : Prop :=
  ∃ C', m C = Returned () C'
        ∧ MeshSections C' = MeshSections C
        ∧ LogOutput C' ≠ LogOutput C.

(** Every non-empty part of an update on an existing section is applied,
    whatever else the call supplies. *)
Definition AppliesEveryNonEmptyPart {VertexType : Type} `{!RuntimeMeshVertex VertexType}
    (u : EUpdateCall VertexType) (C : URuntimeMeshComponent VertexType) : Prop :=
  ∀ C', RunUpdate u C = Returned () C' →
    ∃ Sec', SectionAt (UpdateIndex u) C' = Some Sec'
      ∧ (UpdatePositions u ≠ [] → PositionVertexBuffer Sec' = UpdatePositions u)
      ∧ (UpdateVertices u ≠ [] → VertexBuffer Sec' = UpdateVertices u)
      ∧ (UpdateTriangles u ≠ [] → IndexBuffer Sec' = UpdateTriangles u).

(** An index array whose length is not a multiple of 3 leaves the stored
    index buffer as it was. *)
Definition KeepsIndexBufferOnBadLength {VertexType : Type} `{!RuntimeMeshVertex VertexType}
    (u : EUpdateCall VertexType) (C : URuntimeMeshComponent VertexType) : Prop :=
  (length (UpdateTriangles u) mod 3 ≠ 0)%nat →
  IndexBuffer <$> SectionAt (UpdateIndex u) (ComponentOf (RunUpdate u C))
  = IndexBuffer <$> SectionAt (UpdateIndex u) C.

(** An update whose vertex type is not the one recorded in the section is
    rejected as a layout mismatch, with nothing mutated. *)
Definition RejectedAsLayoutMismatch {VertexType : Type} `{!RuntimeMeshVertex VertexType}
    (u : EUpdateCall VertexType) (C : URuntimeMeshComponent VertexType) : Prop :=
  ∀ Sec, SectionAt (UpdateIndex u) C = Some Sec →
    VertexTypeInfo Sec ≠ UpdateVertexType u →
    ∃ Recorded Requested, RunUpdate u C = Halted (LayoutMismatch Recorded Requested) C.

(** The two parallel arrays of a dual-buffer section have one length. *)
Definition ParallelArraysAgree {VertexType : Type}
    (Sec : FRuntimeMeshSection VertexType) : Prop :=
  IsDualBufferSection Sec = true →
  length (PositionVertexBuffer Sec) = length (VertexBuffer Sec).

(** ** Validity of the arguments of a create call, as the macros test it *)

Definition CreateRejected {VertexType : Type} `{!RuntimeMeshVertex VertexType}
    (c : ECreateCall VertexType) : Prop :=
  CreateIndex c < 0
  ∨ CreateVertices c = []
  ∨ CreateTriangles c = []
  ∨ (∃ Box, CreateBoundingBox c = Some Box ∧ IsValid Box = false)
  ∨ (CreateIsDual c = true ∧ length (CreatePositions c) ≠ length (CreateVertices c)).

Definition CreateValid {VertexType : Type} `{!RuntimeMeshVertex VertexType}
    (c : ECreateCall VertexType) : Prop :=
  0 ≤ CreateIndex c
  ∧ CreateVertices c ≠ []
  ∧ CreateTriangles c ≠ []
  ∧ (∀ Box, CreateBoundingBox c = Some Box → IsValid Box = true)
  ∧ (CreateIsDual c = true → length (CreatePositions c) = length (CreateVertices c)).

(** The design document on a create call that passes validation: after
    it the section at its index exists. *)
Definition ValidCreateMakesTheSectionExist {VertexType : Type}
    `{!RuntimeMeshVertex VertexType} `{!FSectionDefaults}
    (c : ECreateCall VertexType) (C : URuntimeMeshComponent VertexType) : Prop :=
  CreateValid c →
  ∃ C', RunCreate c C = Returned () C' ∧ DoesSectionExist (CreateIndex c) C' = true.

(** The registry can hold the slot of a create call: the slot lies within
    the array already, or [SectionIndex + 1] is an [int32]. *)
Definition SlotIsReachable {VertexType : Type} (SectionIndex : Z)
    (C : URuntimeMeshComponent VertexType) : Prop :=
  SectionIndex < Num (MeshSections C) ∨ SectionIndex < MAX_int32.

(** ** Creates, described on the section

    The section a valid create call leaves in its slot: the arrays of the
    call, the supplied or computed bounds, the collision and frequency
    arguments, and the constructor's choice for everything else. *)
Definition CreatedSection {VertexType : Type} `{!RuntimeMeshVertex VertexType}
    `{!FSectionDefaults} (c : ECreateCall VertexType) : FRuntimeMeshSection VertexType :=
  {| VertexTypeInfo := CreateVertexType c;
     bNeedsPositionOnlyBuffer := CreateIsDual c;
     bIsInternalSectionType := false;
     PositionVertexBuffer := if CreateIsDual c then CreatePositions c else [];
     VertexBuffer := CreateVertices c;
     IndexBuffer := CreateTriangles c;
     LocalBoundingBox := NewBounds (CreateBoundingBox c) (CreatePositions c);
     CollisionEnabled := Arg_bCreateCollision (CreateCollisionArgument c);
     UpdateFrequency := Arg_UpdateFrequency (CreateUpdateFrequencyArgument c);
     bIsVisible := Default_bIsVisible;
     bCastsShadow := Default_bCastsShadow |}.

(** ** Updates, described on the section

    What the guard of an update overload tests against the stored section,
    what the macros assert of the call, and the section an accepted call
    leaves: every non-empty supplied part replaced, every other buffer as
    it was. *)

Definition UpdateGuardRejects {VertexType : Type} (u : EUpdateCall VertexType)
    (Sec : FRuntimeMeshSection VertexType) : bool :=
  if UpdateIsDualOverload u
  then IsDualBufferSection Sec
       && bool_decide (Num (UpdateVertices u) ≠ Num (VertexBuffer Sec))
       && bool_decide (Num (UpdatePositions u) ≠ Num (UpdateVertices u))
  else IsDualBufferSection Sec
       && bool_decide (Num (UpdateVertices u) ≠ Num (VertexBuffer Sec)).

Definition UpdateParametersValid {VertexType : Type} (u : EUpdateCall VertexType)
    (Sec : FRuntimeMeshSection VertexType) : bool :=
  (if UpdateIsDualOverload u then IsDualBufferSection Sec else true)
  && match UpdateBoundingBox u with Some Box => IsValid Box | None => true end.

Definition ApplyPositions {VertexType : Type} (u : EUpdateCall VertexType)
    (Sec : FRuntimeMeshSection VertexType) : FRuntimeMeshSection VertexType :=
  if bool_decide (0 < Num (UpdatePositions u))
  then (UpdateVertexPositionBuffer (UpdatePositions u) (UpdateBoundingBox u) false Sec).1
  else Sec.

Definition ApplyVertices {VertexType : Type} `{!RuntimeMeshVertex VertexType}
    (u : EUpdateCall VertexType)
    (Sec : FRuntimeMeshSection VertexType) : FRuntimeMeshSection VertexType :=
  if bool_decide (0 < Num (UpdateVertices u))
  then (UpdateVertexBuffer (UpdateVertices u)
          (if UpdateIsDualOverload u then None else UpdateBoundingBox u) false Sec).1
  else Sec.

Definition ApplyTriangles {VertexType : Type} (u : EUpdateCall VertexType)
    (Sec : FRuntimeMeshSection VertexType) : FRuntimeMeshSection VertexType :=
  if bool_decide (0 < Num (UpdateTriangles u))
  then Set_IndexBuffer (UpdateTriangles u) Sec
  else Sec.

Definition UpdatedSection {VertexType : Type} `{!RuntimeMeshVertex VertexType}
    (u : EUpdateCall VertexType)
    (Sec : FRuntimeMeshSection VertexType) : FRuntimeMeshSection VertexType :=
  ApplyTriangles u (ApplyVertices u (ApplyPositions u Sec)).

(** The log lines of an accepted call: one warning for each empty array
    among the parameters of the overload, in the order of the checks. *)
Definition EmptyPositionsWarning : bool * string :=
  (false, "UpdatemeshSection() - Vertex positions empty. They will not be updated.").
Definition EmptyVerticesWarning : bool * string :=
  (false, "UpdateMeshSection() - Vertices empty. They will not be updated.").
Definition EmptyTrianglesWarning : bool * string :=
  (false, "UpdateMeshSection() - Triangles empty. They will not be updated.").
Definition LengthGuardError : bool * string :=
  (true, "UpdateMeshSection() - Vertices cannot change length unless the positions are updated as well.").

(** Whether the overload has a triangle parameter. *)
Definition UpdateHasTriangles {VertexType : Type} (u : EUpdateCall VertexType) : bool :=
  match u with
  | Update_Triangles _ _ _ _ _ | Update_Triangles_Box _ _ _ _ _ _
  | UpdateDual_Triangles _ _ _ _ _ _ | UpdateDual_Triangles_Box _ _ _ _ _ _ _ => true
  | _ => false
  end.

Definition UpdateWarnings {VertexType : Type} (u : EUpdateCall VertexType)
    : list (bool * string) :=
  ((if UpdateIsDualOverload u && negb (bool_decide (0 < Num (UpdatePositions u)))
    then [EmptyPositionsWarning] else [])
   ++ (if bool_decide (0 < Num (UpdateVertices u)) then [] else [EmptyVerticesWarning])
   ++ (if UpdateHasTriangles u && negb (bool_decide (0 < Num (UpdateTriangles u)))
       then [EmptyTrianglesWarning] else []))%list.

(** What an update does once its assertions have passed, on the
    section: the guard rejects and logs the error, or every non-empty
    part is applied and every empty parameter is logged. *)
Definition UpdateOutcome {VertexType : Type} `{!RuntimeMeshVertex VertexType}
    (u : EUpdateCall VertexType) (Sec : FRuntimeMeshSection VertexType)
    : FRuntimeMeshSection VertexType * list (bool * string) :=
  if UpdateGuardRejects u Sec
  then (Sec, [LengthGuardError])
  else (UpdatedSection u Sec, UpdateWarnings u).

(** ** A call that works on one section

    [Step i m f]: on a component whose slot [i] holds a section, the call
    [m] returns, and what it does to the registry and to the log is what
    the function [f] does to that section: [f] gives the section left in
    the slot, the value returned and the lines logged. *)
Definition Step {VertexType A : Type} (i : Z)
    (m : TCall (URuntimeMeshComponent VertexType) A)
    (f : FRuntimeMeshSection VertexType
         → FRuntimeMeshSection VertexType * A * list (bool * string)) : Prop :=
  ∀ C Sec, SectionAt i C = Some Sec →
    ∃ C', m C = Returned (f Sec).1.2 C'
          ∧ MeshSections C' = <[Z.to_nat i := Some (f Sec).1.1]> (MeshSections C)
          ∧ LogOutput C' = (LogOutput C ++ (f Sec).2)%list.

(** ** Invariants of the collision tracker

    [Preserves I m]: whatever the call [m] does, returning or halting, a
    component that satisfies [I] before satisfies it after. *)
Definition Preserves {State A : Type} (I : State → Prop) (m : TCall State A) : Prop :=
  ∀ C, I C → I (ComponentOf (m C)).

(** [Ensures Q m]: when the call [m] returns, [Q] holds of the component
    it leaves. *)
Definition Ensures {State A : Type} (Q : State → Prop) (m : TCall State A) : Prop :=
  ∀ C a C', m C = Returned a C' → Q C'.

(** The scheduler holds a request exactly while the pre-physics tick is
    enabled. *)
Definition TickRequested {VertexType : Type} (C : URuntimeMeshComponent VertexType) : Prop :=
  PendingBakeRequests C = if bPrePhysicsTickEnabled C then 1%nat else 0%nat.

(** Collision is dirty and its bake is requested. *)
Definition BakePending {VertexType : Type} (C : URuntimeMeshComponent VertexType) : Prop :=
  bCollisionDirty C = true ∧ bPrePhysicsTickEnabled C = true.

(** The mutations that affect collision, on the component they meet:
    creating a section with collision, clearing one that has collision,
    toggling the collision flag of a section, and every change of the
    collision-only sections and of the convex hulls. *)
Definition AffectsCollision {VertexType : Type} `{!RuntimeMeshVertex VertexType}
    (c : ECall VertexType) (C : URuntimeMeshComponent VertexType) : bool :=
  match c with
  | CallCreate c => Arg_bCreateCollision (CreateCollisionArgument c)
  | CallClearMeshSection i =>
      match SectionAt i C with Some Sec => CollisionEnabled Sec | None => false end
  | CallSetMeshSectionCollisionEnabled i b =>
      match SectionAt i C with
      | Some Sec => negb (bool_decide (CollisionEnabled Sec = b))
      | None => false
      end
  | CallSetMeshCollisionSection i _ _ => bool_decide (0 ≤ i)
  | CallClearMeshCollisionSection i =>
      bool_decide (0 ≤ i < Num (MeshCollisionSections C))
  | CallClearAllMeshSections =>
      bool_decide (Exists (λ Sec, CollisionEnabled Sec = true) (omap id (MeshSections C)))
  | CallClearAllMeshCollisionSections
  | CallAddCollisionConvexMesh _
  | CallClearCollisionConvexMeshes
  | CallSetCollisionConvexMeshes _ => true
  | _ => false
  end.

(** A sequence of calls each of which affects collision on the component
    it meets. *)
Fixpoint AllAffectCollision {VertexType : Type} `{!RuntimeMeshVertex VertexType}
    `{!FSectionDefaults} (cs : list (ECall VertexType))
    (C : URuntimeMeshComponent VertexType) : Prop :=
  match cs with
  | [] => True
  | c :: cs' =>
      AffectsCollision c C = true
      ∧ ∀ C', Run c C = Returned () C' → AllAffectCollision cs' C'
  end.

(** The components the calls can produce from a new one. *)
Definition Reachable {VertexType : Type} `{!RuntimeMeshVertex VertexType}
    `{!FSectionDefaults} (C : URuntimeMeshComponent VertexType) : Prop :=
  ∃ cs, RunAll cs NewComponent = Returned () C.

(** ** Batched against immediate synchronisation

    The same calls can be run inside a batch and outside one.
    [SameData] relates two components that agree on everything but the
    batch state and what has reached the render proxy;
    [BatchedAgainst Base Cb Ci] relates a component [Cb] inside a batch
    to a component [Ci] outside one: [Cb] has synchronised nothing since
    [Base], and its touched set holds exactly the sections [Ci] has
    synchronised since. *)
Definition IsBatchBracket {VertexType : Type} (c : ECall VertexType) : bool :=
  match c with
  | CallBeginBatchUpdates | CallEndBatchUpdates => true
  | _ => false
  end.

Definition SameData {VertexType : Type} (Cb Ci : URuntimeMeshComponent VertexType) : Prop :=
  MeshSections Cb = MeshSections Ci
  ∧ bCollisionDirty Cb = bCollisionDirty Ci
  ∧ MeshCollisionSections Cb = MeshCollisionSections Ci
  ∧ ConvexCollisionSections Cb = ConvexCollisionSections Ci
  ∧ bPrePhysicsTickEnabled Cb = bPrePhysicsTickEnabled Ci
  ∧ BodySetup Cb = BodySetup Ci
  ∧ LogOutput Cb = LogOutput Ci
  ∧ PendingBakeRequests Cb = PendingBakeRequests Ci.

Definition BatchedAgainst {VertexType : Type} (Base : list (FSectionSync (VertexType := VertexType)))
    (Cb Ci : URuntimeMeshComponent VertexType) : Prop :=
  SameData Cb Ci
  ∧ bIsPending (BatchState Cb) = true
  ∧ bIsPending (BatchState Ci) = false
  ∧ RenderSyncs Cb = Base
  ∧ ∃ Immediate,
      RenderSyncs Ci = (Base ++ Immediate)%list
      ∧ TouchedSections (BatchState Cb) = list_to_set (SyncSectionIndex <$> Immediate).

(** [Simulates R m]: run on two components related by [R], the call [m]
    ends the same way on both, with the same value or the same halt, and
    leaves them related. *)
Definition Simulates {State A : Type} (R : State → State → Prop) (m : TCall State A) : Prop :=
  ∀ Cb Ci, R Cb Ci →
    match m Cb, m Ci with
    | Returned a Cb', Returned a' Ci' => a = a' ∧ R Cb' Ci'
    | Halted h Cb', Halted h' Ci' => h = h' ∧ R Cb' Ci'
    | _, _ => False
    end.

(** ** The checks at the head of a call, in the order the macros run them

    The message of the first [check] of a create overload that fails on
    the arguments of the call: the section index, the vertex array, the
    triangle array, then (dual-buffer creates) the length of the position
    array, then (overloads with a box) the box. *)
Definition FirstFailedCreateCheck {VertexType : Type} `{!RuntimeMeshVertex VertexType}
    (c : ECreateCall VertexType) : option string :=
  if negb (bool_decide (0 ≤ CreateIndex c))
  then Some "SectionIndex cannot be negative."
  else if negb (bool_decide (0 < Num (CreateVertices c)))
  then Some "Vertices length must not be 0."
  else if negb (bool_decide (0 < Num (CreateTriangles c)))
  then Some "Triangles length must not be 0"
  else if CreateIsDual c
          && negb (bool_decide (Num (CreatePositions c) = Num (CreateVertices c)))
  then Some "Positions must be the same length as Vertices"
  else match CreateBoundingBox c with
       | Some Box => if IsValid Box then None else Some "BoundingBox must be valid."
       | None => None
       end.

(** The message of the first [check] of an update overload that fails on
    the call and the registry: the section index, the slot, then (the
    overloads with a position array) the kind of the section, then
    (overloads with a box) the box. *)
Definition FirstFailedUpdateCheck {VertexType : Type}
    (u : EUpdateCall VertexType) (C : URuntimeMeshComponent VertexType) : option string :=
  if negb (bool_decide (0 ≤ UpdateIndex u))
  then Some "SectionIndex cannot be negative."
  else match SectionAt (UpdateIndex u) C with
       | None => Some "Invalid SectionIndex."
       | Some Sec =>
           if UpdateIsDualOverload u && negb (IsDualBufferSection Sec)
           then Some "Section is not dual buffer."
           else match UpdateBoundingBox u with
                | Some Box =>
                    if IsValid Box then None else Some "BoundingBox must be valid."
                | None => None
                end
       end.

(** ** Updates, described on the whole component *)

(** The component with the section [Sec] in slot [i] and [Lines] added
    to its log. *)
Definition StoreAndLog {VertexType : Type} (i : Z) (Sec : FRuntimeMeshSection VertexType)
    (Lines : list (bool * string)) (C : URuntimeMeshComponent VertexType)
    : URuntimeMeshComponent VertexType :=
  Set_LogOutput (LogOutput C ++ Lines) (SetSlot i (Some Sec) C).

(** Whether one of the arrays of the call is not empty. *)
Definition UpdateSuppliesAny {VertexType : Type} (u : EUpdateCall VertexType) : bool :=
  bool_decide (0 < Num (UpdatePositions u))
  || bool_decide (0 < Num (UpdateVertices u))
  || bool_decide (0 < Num (UpdateTriangles u)).

(** [bNeedsBoundsUpdate] as the overload computes it: the result of the
    position setter in the overloads with a position array, of the vertex
    setter in the others, and [false] when that array is empty. *)
Definition UpdateNeedsBounds {VertexType : Type} `{!RuntimeMeshVertex VertexType}
    (u : EUpdateCall VertexType) (Sec : FRuntimeMeshSection VertexType) : bool :=
  if UpdateIsDualOverload u
  then if bool_decide (0 < Num (UpdatePositions u))
       then (UpdateVertexPositionBuffer (UpdatePositions u) (UpdateBoundingBox u)
               false Sec).2
       else false
  else if bool_decide (0 < Num (UpdateVertices u))
       then (UpdateVertexBuffer (UpdateVertices u) (UpdateBoundingBox u) false Sec).2
       else false.

(** The overload without the triangle parameter, with the other
    arguments of the call. *)
Definition WithoutTriangles {VertexType : Type} (u : EUpdateCall VertexType)
    : EUpdateCall VertexType :=
  match u with
  | Update_Triangles VT i V _ U => Update VT i V U
  | Update_Triangles_Box VT i V _ B U => Update_Box VT i V B U
  | UpdateDual_Triangles VT i P V _ U => UpdateDual VT i P V U
  | UpdateDual_Triangles_Box VT i P V _ B U => UpdateDual_Box VT i P V B U
  | _ => u
  end.

(** Two outcomes that end the same way and differ at most in the log. *)
Definition AgreeButLog {VertexType : Type}
    (r1 r2 : TResult (URuntimeMeshComponent VertexType) ()) : Prop :=
  match r1, r2 with
  | Returned _ C1, Returned _ C2 => Set_LogOutput [] C1 = Set_LogOutput [] C2
  | Halted h1 C1, Halted h2 C2 => h1 = h2 ∧ C1 = C2
  | _, _ => False
  end.

(** The update that supplies every array of a create call, through the
    overload with the same parameters. *)
Definition UpdateWithDataOf {VertexType : Type} (c : ECreateCall VertexType)
    : EUpdateCall VertexType :=
  match c with
  | Create VT i V T _ _ U => Update_Triangles VT i V T (Arg_UpdateFlags U)
  | Create_Box VT i V T B _ _ U => Update_Triangles_Box VT i V T B (Arg_UpdateFlags U)
  | CreateDual VT i P V T _ _ U => UpdateDual_Triangles VT i P V T (Arg_UpdateFlags U)
  | CreateDual_Box VT i P V T B _ _ U =>
      UpdateDual_Triangles_Box VT i P V T B (Arg_UpdateFlags U)
  end.

(** Two create calls for the same slot, vertex type and buffer layout,
    with the same collision and update-frequency arguments. *)
Definition SameSlotAndFlags {VertexType : Type}
    (c0 c1 : ECreateCall VertexType) : Prop :=
  CreateIndex c0 = CreateIndex c1
  ∧ CreateVertexType c0 = CreateVertexType c1
  ∧ CreateIsDual c0 = CreateIsDual c1
  ∧ Arg_bCreateCollision (CreateCollisionArgument c0)
    = Arg_bCreateCollision (CreateCollisionArgument c1)
  ∧ Arg_UpdateFrequency (CreateUpdateFrequencyArgument c0)
    = Arg_UpdateFrequency (CreateUpdateFrequencyArgument c1).

(** ** Sequences of typed calls *)

Definition IsCreateOrUpdate {VertexType : Type} (c : ECall VertexType) : bool :=
  match c with
  | CallCreate _ | CallUpdate _ => true
  | _ => false
  end.

(** A typed create, or an update through an overload without a position
    array. *)
Definition IsCreateOrSingleArrayUpdate {VertexType : Type} (c : ECall VertexType) : bool :=
  match c with
  | CallCreate _ => true
  | CallUpdate u => negb (UpdateIsDualOverload u)
  | _ => false
  end.

(** Every dual-buffer section of the registry has parallel arrays of one
    length. *)
Definition AllParallelArraysAgree {VertexType : Type}
    (C : URuntimeMeshComponent VertexType) : Prop :=
  ∀ j Sec, SectionAt j C = Some Sec → ParallelArraysAgree Sec.

(** ** A concrete vertex type and scene for the worked examples *)

Record FSimpleVertex := MkSimpleVertex { Position : FVector; Color : Z }.

Definition FSimpleVertex_Vertex : RuntimeMeshVertex FSimpleVertex :=
  {| PositionOf := Position |}.

(** Constructor choices for the examples: visible, shadow casting,
    no collision, an invalid zero box. *)
Definition ExampleDefaults : FSectionDefaults :=
  MkSectionDefaults FBox_ForceInit false Average true true.

Definition SimpleVertexType : FRuntimeMeshVertexTypeInfo := "FSimpleVertex".
Definition OtherVertexType : FRuntimeMeshVertexTypeInfo := "FOtherVertex".

Definition P (x y z : Z) : FVector := MkFVector x y z.
Definition V (x y z : Z) : FSimpleVertex := MkSimpleVertex (MkFVector x y z) 0.

(** Running a call on the example vertex type. *)
Definition ExampleCreate (c : ECreateCall FSimpleVertex)
    : TCall (URuntimeMeshComponent FSimpleVertex) () :=
  @RunCreate FSimpleVertex FSimpleVertex_Vertex ExampleDefaults c.

Definition ExampleUpdate (u : EUpdateCall FSimpleVertex)
    : TCall (URuntimeMeshComponent FSimpleVertex) () :=
  @RunUpdate FSimpleVertex FSimpleVertex_Vertex u.

Definition ExampleRunAll (cs : list (ECall FSimpleVertex))
    : TCall (URuntimeMeshComponent FSimpleVertex) () :=
  @RunAll FSimpleVertex FSimpleVertex_Vertex ExampleDefaults cs.

(** Section 0 is a quad: four vertices, two triangles, one buffer. *)
Definition QuadVertices : list FSimpleVertex :=
  [V 0 0 0; V 4 0 0; V 4 2 0; V 0 2 0].

Definition QuadScene : URuntimeMeshComponent FSimpleVertex :=
  ComponentOf
    (ExampleCreate
       (Create SimpleVertexType 0 QuadVertices [0; 1; 2; 0; 2; 3] None None None)
       NewComponent).

(** Section 0 is a dual-buffer triangle: three positions, three
    attribute entries. *)
Definition DualScene : URuntimeMeshComponent FSimpleVertex :=
  ComponentOf
    (ExampleCreate
       (CreateDual SimpleVertexType 0 [P 0 0 0; P 1 0 0; P 0 1 0]
          [V 0 0 0; V 0 0 0; V 0 0 0] [0; 1; 2] None None None)
       NewComponent).

Definition QuadCreate : ECreateCall FSimpleVertex :=
  Create SimpleVertexType 0 QuadVertices [0; 1; 2; 0; 2; 3] None None None.

(** The quad section as it sits in [QuadScene]. *)
Definition QuadSection : FRuntimeMeshSection FSimpleVertex :=
  @CreatedSection FSimpleVertex FSimpleVertex_Vertex ExampleDefaults QuadCreate.

(** The dual-buffer triangle as it sits in [DualScene]. *)
Definition DualSection : FRuntimeMeshSection FSimpleVertex :=
  @CreatedSection FSimpleVertex FSimpleVertex_Vertex ExampleDefaults
    (CreateDual SimpleVertexType 0 [P 0 0 0; P 1 0 0; P 0 1 0]
       [V 0 0 0; V 0 0 0; V 0 0 0] [0; 1; 2] None None None).

(** The quad scene after its section was hidden and given collision. *)
Definition HiddenScene : URuntimeMeshComponent FSimpleVertex :=
  ComponentOf
    (ExampleRunAll [CallSetMeshSectionVisible 0 false;
                    CallSetMeshSectionCollisionEnabled 0 true] QuadScene).

Definition HiddenSection : FRuntimeMeshSection FSimpleVertex :=
  Set_CollisionEnabled true (Set_bIsVisible false QuadSection).

(** A create call with a negative section index. *)
Definition NegativeIndexCreate : ECreateCall FSimpleVertex :=
  Create SimpleVertexType (-1) QuadVertices [0; 1; 2] None None None.

(** Only new triangles for the quad, the vertex array left empty. *)
Definition TrianglesOnlyUpdate : EUpdateCall FSimpleVertex :=
  Update_Triangles SimpleVertexType 0 [] [0; 2; 1; 0; 3; 2] ESectionUpdateFlags_None.

(** Only new triangles for the dual-buffer triangle, the vertex array
    left empty. *)
Definition DualTrianglesOnlyUpdate : EUpdateCall FSimpleVertex :=
  Update_Triangles SimpleVertexType 0 [] [0; 2; 1] ESectionUpdateFlags_None.

(** The same triangles for the dual-buffer triangle through the overload
    with a position array, both vertex arrays left empty. *)
Definition DualTrianglesOnlyUpdate_Positions : EUpdateCall FSimpleVertex :=
  UpdateDual_Triangles SimpleVertexType 0 [] [] [0; 2; 1] ESectionUpdateFlags_None.

(** Five attribute entries for the dual-buffer triangle, which stores
    three, and no triangles. *)
Definition LongerVerticesUpdate : EUpdateCall FSimpleVertex :=
  Update_Triangles SimpleVertexType 0
    [V 0 0 0; V 0 0 0; V 0 0 0; V 0 0 0; V 0 0 0] [] ESectionUpdateFlags_None.

(** Two indices: not a whole number of triangles. *)
Definition TwoIndexUpdate : EUpdateCall FSimpleVertex :=
  Update_Triangles SimpleVertexType 0 [] [0; 1] ESectionUpdateFlags_None.

(** The quad's vertices under another vertex type. *)
Definition WrongTypeUpdate : EUpdateCall FSimpleVertex :=
  Update OtherVertexType 0 QuadVertices ESectionUpdateFlags_None.

(** The quad's vertices under another vertex type, with a box that is not
    valid. *)
Definition WrongTypeInvalidBoxUpdate : EUpdateCall FSimpleVertex :=
  Update_Box OtherVertexType 0 QuadVertices FBox_ForceInit ESectionUpdateFlags_None.

(** Five new positions for the dual-buffer triangle, with three attribute
    entries, as many as are stored. *)
Definition FivePositionsUpdate : EUpdateCall FSimpleVertex :=
  UpdateDual SimpleVertexType 0
    [P 0 0 0; P 1 0 0; P 0 1 0; P 1 1 0; P 2 2 2]
    [V 0 0 0; V 0 0 0; V 0 0 0] ESectionUpdateFlags_None.

(** A triangle section at index [i]. *)
Definition TriangleCreate (i : Z) : ECreateCall FSimpleVertex :=
  Create SimpleVertexType i [V 0 0 0; V 1 0 0; V 0 1 0] [0; 1; 2] None None None.

(** A triangle section at the last index an [int32] can name. *)
Definition LastIndexCreate : ECreateCall FSimpleVertex := TriangleCreate MAX_int32.

Definition MovedTriangle : list FSimpleVertex := [V 5 5 5; V 6 5 5; V 5 6 5].

(** Section 0 is mutated twice, section 1 once. *)
Definition BatchMutations : list (ECall FSimpleVertex) :=
  [CallCreate (TriangleCreate 0);
   CallUpdate (Update SimpleVertexType 0 MovedTriangle ESectionUpdateFlags_None);
   CallCreate (TriangleCreate 1)].

(** The component when the batch of [BatchMutations] is about to end. *)
Definition BatchedScene : URuntimeMeshComponent FSimpleVertex :=
  ComponentOf (ExampleRunAll (CallBeginBatchUpdates :: BatchMutations) NewComponent).

(** The collision flag of the quad toggled on and off again, and a convex
    hull added. *)
Definition CollisionMutations : list (ECall FSimpleVertex) :=
  [CallSetMeshSectionCollisionEnabled 0 true;
   CallSetMeshSectionCollisionEnabled 0 false;
   CallAddCollisionConvexMesh [P 0 0 0; P 1 0 0; P 0 1 0; P 0 0 1]].

Definition CollisionScene : URuntimeMeshComponent FSimpleVertex :=
  ComponentOf (ExampleRunAll CollisionMutations QuadScene).

(** An update of the quad that supplies nothing. *)
Definition EmptyUpdate : EUpdateCall FSimpleVertex :=
  Update_Triangles SimpleVertexType 0 [] [] ESectionUpdateFlags_None.

(** Three new vertices for section 0, the triangle array left empty. *)
Definition MovedTriangleUpdate : EUpdateCall FSimpleVertex :=
  Update_Triangles SimpleVertexType 0 MovedTriangle [] ESectionUpdateFlags_None.

(** Three new attribute entries for the dual-buffer triangle, as many as
    it stores. *)
Definition SameLengthUpdate : EUpdateCall FSimpleVertex :=
  Update SimpleVertexType 0 [V 1 1 1; V 2 2 2; V 3 3 3] ESectionUpdateFlags_None.

(** Four positions and four attribute entries for the dual-buffer
    triangle. *)
Definition FourAndFourUpdate : EUpdateCall FSimpleVertex :=
  UpdateDual SimpleVertexType 0 [P 0 0 0; P 1 0 0; P 1 1 0; P 0 1 0]
    [V 0 0 0; V 0 0 0; V 0 0 0; V 0 0 0] ESectionUpdateFlags_None.

(** Section 0 created anew as the moved triangle. *)
Definition MovedTriangleCreate : ECreateCall FSimpleVertex :=
  Create SimpleVertexType 0 MovedTriangle [0; 1; 2] None None None.

(** A triangle in section 0 and another in section 1. *)
Definition TwoTriangleScene : URuntimeMeshComponent FSimpleVertex :=
  ComponentOf
    (ExampleRunAll [CallCreate (TriangleCreate 0); CallCreate (TriangleCreate 1)]
       NewComponent).

(** New indices for section 1. *)
Definition SecondTriangleUpdate : EUpdateCall FSimpleVertex :=
  Update_Triangles SimpleVertexType 1 [] [0; 2; 1] ESectionUpdateFlags_None.


(** A dual-buffer triangle in section 0, a quad in section 1, and new
    attribute entries for the triangle, as many as it stores. *)
Definition SingleArrayMutations : list (ECall FSimpleVertex) :=
  [CallCreate (CreateDual SimpleVertexType 0 [P 0 0 0; P 1 0 0; P 0 1 0]
                 [V 0 0 0; V 0 0 0; V 0 0 0] [0; 1; 2] None None None);
   CallCreate (Create SimpleVertexType 1 QuadVertices [0; 1; 2; 0; 2; 3] None None None);
   CallUpdate SameLengthUpdate].

(** * Properties *)

Section RuntimeMeshTheory.

Context {VertexType : Type} `{!RuntimeMeshVertex VertexType} `{!FSectionDefaults}.

Implicit Types (C : URuntimeMeshComponent VertexType).
Implicit Types (Sec : FRuntimeMeshSection VertexType).
Implicit Types (SectionIndex i j : Z).

(** *** Arrays *)

Lemma Num_nonneg {A} (l : list A) : 0 ≤ Num l.
Proof. unfold Num. lia. Qed.

Lemma Num_nil_iff {A} (l : list A) : 0 < Num l ↔ l ≠ [].
Proof. unfold Num. destruct l; simpl; split; intros; try done; lia. Qed.

Lemma Num_eq_iff {A B} (l : list A) (k : list B) : Num l = Num k ↔ length l = length k.
Proof. unfold Num. lia. Qed.

(** *** Running the call monad *)

Lemma Bind_Returned {A B} (m : TCall (URuntimeMeshComponent VertexType) A)
    (k : A → TCall (URuntimeMeshComponent VertexType) B) C a C' :
  m C = Returned a C' → Bind m k C = k a C'.
Proof. unfold Bind. by intros ->. Qed.

Lemma Bind_Halted {A B} (m : TCall (URuntimeMeshComponent VertexType) A)
    (k : A → TCall (URuntimeMeshComponent VertexType) B) C h C' :
  m C = Halted h C' → Bind m k C = Halted h C'.
Proof. unfold Bind. by intros ->. Qed.

Lemma check_true (Message : string) C :
  check true Message C = Returned () C.
Proof. done. Qed.

Lemma check_false (Message : string) C :
  check false Message C = Halted (AssertionFailed Message) C.
Proof. done. Qed.

(** *** Rejected create calls *)

Lemma RMC_VALIDATE_CREATIONPARAMETERS_spec {A B} i (Vs : list A) (Ts : list B) C :
  (0 ≤ i ∧ Vs ≠ [] ∧ Ts ≠ []
   ∧ RMC_VALIDATE_CREATIONPARAMETERS i Vs Ts C = Returned () C)
  ∨ ((i < 0 ∨ Vs = [] ∨ Ts = [])
     ∧ ∃ Message, RMC_VALIDATE_CREATIONPARAMETERS i Vs Ts C
                  = Halted (AssertionFailed Message) C).
Proof.
  unfold RMC_VALIDATE_CREATIONPARAMETERS, Bind.
  case_bool_decide as Hi; cbn; [|right; split; [lia | eauto]].
  case_bool_decide as HV; cbn;
    [|right; split; [right; left; destruct Vs; [done|unfold Num in HV; simpl in HV; lia] | eauto]].
  case_bool_decide as HT; cbn;
    [|right; split; [right; right; destruct Ts; [done|unfold Num in HT; simpl in HT; lia] | eauto]].
  left. repeat split; [done|..]; by apply Num_nil_iff.
Qed.

Lemma RMC_VALIDATE_CREATIONPARAMETERS_DUALBUFFER_spec {A B Q}
    i (Vs : list A) (Ts : list B) (Ps : list Q) C :
  (0 ≤ i ∧ Vs ≠ [] ∧ Ts ≠ [] ∧ length Ps = length Vs
   ∧ RMC_VALIDATE_CREATIONPARAMETERS_DUALBUFFER i Vs Ts Ps C = Returned () C)
  ∨ ((i < 0 ∨ Vs = [] ∨ Ts = [] ∨ length Ps ≠ length Vs)
     ∧ ∃ Message, RMC_VALIDATE_CREATIONPARAMETERS_DUALBUFFER i Vs Ts Ps C
                  = Halted (AssertionFailed Message) C).
Proof.
  unfold RMC_VALIDATE_CREATIONPARAMETERS_DUALBUFFER.
  destruct (RMC_VALIDATE_CREATIONPARAMETERS_spec i Vs Ts C)
    as [(Hi & HV & HT & Heq)|[Hbad [Message Heq]]].
  - rewrite (Bind_Returned _ _ _ _ _ Heq).
    case_bool_decide as HP; cbn.
    + left. repeat split; try done. by apply Num_eq_iff.
    + right. split; [|eauto]. do 3 right. by rewrite <- Num_eq_iff.
  - right. rewrite (Bind_Halted _ _ _ _ _ Heq). split; [|eauto]. tauto.
Qed.

Lemma RMC_VALIDATE_BOUNDINGBOX_spec (Box : FBox) C :
  RMC_VALIDATE_BOUNDINGBOX Box C
  = if IsValid Box then Returned () C
    else Halted (AssertionFailed "BoundingBox must be valid.") C.
Proof. unfold RMC_VALIDATE_BOUNDINGBOX. by destruct (IsValid Box). Qed.

(** C2, as the code has it: a create call with a negative section index,
    an empty vertex or triangle array, an invalid bounding box or (for a
    dual-buffer create) position and vertex arrays of different lengths
    fails one of the [check] assertions of the validation macros before
    anything is mutated: the call halts with the assertion, as [check]
    does where assertions are compiled in, and the component, its log
    included, is exactly as it was. *)
Theorem invalid_create_halts_before_any_mutation (c : ECreateCall VertexType) C :
  CreateRejected c →
  ∃ Message, RunCreate c C = Halted (AssertionFailed Message) C.
Proof.
  intros Hbad. destruct c as [VT i Vs Ts bC F U|VT i Vs Ts Box bC F U
                             |VT i Ps Vs Ts bC F U|VT i Ps Vs Ts Box bC F U];
    cbn [RunCreate]; unfold CreateRejected in Hbad; cbn in Hbad.
  - unfold CreateMeshSection.
    destruct (RMC_VALIDATE_CREATIONPARAMETERS_spec i Vs Ts C)
      as [(Hi & HV & HT & _)|[_ [Message Heq]]].
    + exfalso. destruct Hbad as [?|[?|[?|[(? & ? & ?)|[? _]]]]]; try done; lia.
    + exists Message. by rewrite (Bind_Halted _ _ _ _ _ Heq).
  - unfold CreateMeshSection_Box.
    destruct (RMC_VALIDATE_CREATIONPARAMETERS_spec i Vs Ts C)
      as [(Hi & HV & HT & Heq)|[_ [Message Heq]]].
    + rewrite (Bind_Returned _ _ _ _ _ Heq).
      destruct (IsValid Box) eqn:HBox.
      * exfalso. destruct Hbad as [?|[?|[?|[(B' & [= <-] & ?)|[? _]]]]];
          try done; try lia; congruence.
      * eexists. apply Bind_Halted. rewrite RMC_VALIDATE_BOUNDINGBOX_spec, HBox. done.
    + exists Message. by rewrite (Bind_Halted _ _ _ _ _ Heq).
  - unfold CreateMeshSectionDualBuffer.
    destruct (RMC_VALIDATE_CREATIONPARAMETERS_DUALBUFFER_spec i Vs Ts Ps C)
      as [(Hi & HV & HT & HP & _)|[_ [Message Heq]]].
    + exfalso. destruct Hbad as [?|[?|[?|[(? & ? & ?)|[_ ?]]]]]; try done; lia.
    + exists Message. by rewrite (Bind_Halted _ _ _ _ _ Heq).
  - unfold CreateMeshSectionDualBuffer_Box.
    destruct (RMC_VALIDATE_CREATIONPARAMETERS_DUALBUFFER_spec i Vs Ts Ps C)
      as [(Hi & HV & HT & HP & Heq)|[_ [Message Heq]]].
    + rewrite (Bind_Returned _ _ _ _ _ Heq).
      destruct (IsValid Box) eqn:HBox.
      * exfalso. destruct Hbad as [?|[?|[?|[(B' & [= <-] & ?)|[_ ?]]]]];
          try done; try lia; congruence.
      * eexists. apply Bind_Halted. rewrite RMC_VALIDATE_BOUNDINGBOX_spec, HBox. done.
    + exists Message. by rewrite (Bind_Halted _ _ _ _ _ Heq).
Qed.

(** *** The registry *)

Lemma SectionAt_Some i C Sec :
  SectionAt i C = Some Sec →
  0 ≤ i < Num (MeshSections C) ∧ MeshSections C !! Z.to_nat i = Some (Some Sec).
Proof.
  unfold SectionAt, SlotAt. case_bool_decide; [|done].
  destruct (MeshSections C !! Z.to_nat i) as [[Sec'|]|] eqn:E; simpl; try done.
  intros [= ->]. split; [|done]. apply lookup_lt_Some in E. unfold Num. lia.
Qed.

Lemma SlotAt_insert_eq i (l : list (option (FRuntimeMeshSection VertexType))) Ptr :
  0 ≤ i < Num l → SlotAt i (<[Z.to_nat i := Ptr]> l) = Ptr.
Proof.
  intros Hi. unfold SlotAt. rewrite bool_decide_true by lia.
  rewrite list_lookup_insert_eq; [done|]. unfold Num in Hi. lia.
Qed.

Lemma SlotAt_insert_ne i j (l : list (option (FRuntimeMeshSection VertexType))) Ptr :
  0 ≤ i → i ≠ j → SlotAt j (<[Z.to_nat i := Ptr]> l) = SlotAt j l.
Proof.
  intros Hi Hne. unfold SlotAt. case_bool_decide; [|done].
  rewrite list_lookup_insert_ne; [done|]. lia.
Qed.

Lemma SectionAt_MeshSections i C C' Sec :
  SectionAt i C = Some Sec →
  MeshSections C' = <[Z.to_nat i := Some Sec]> (MeshSections C) →
  MeshSections C' = MeshSections C.
Proof.
  intros HS ->. apply list_insert_id. by apply SectionAt_Some in HS as [_ ?].
Qed.

(** *** The rules of [Step] *)

Lemma Step_Return {A} i (a : A) : Step i (Return a) (λ Sec, (Sec, a, [])).
Proof.
  intros C Sec HS. exists C. cbn. split; [done|]. split; [|by rewrite app_nil_r].
  symmetry. apply list_insert_id. by apply SectionAt_Some in HS as [_ ?].
Qed.

Lemma Step_Log i Text bIsError :
  Step i (Log Text bIsError) (λ Sec, (Sec, (), [(bIsError, Text)])).
Proof.
  intros C Sec HS. eexists. cbn. split; [done|]. split; [|done].
  symmetry. apply list_insert_id. by apply SectionAt_Some in HS as [_ ?].
Qed.

Lemma Deref_Some i C Sec : SectionAt i C = Some Sec → Deref i C = Returned Sec C.
Proof.
  intros HS. pose proof (SectionAt_Some _ _ _ HS) as [Hi _].
  unfold Deref, Bind, Gets. rewrite bool_decide_true by done.
  unfold SectionAt in HS. by rewrite HS.
Qed.

Lemma Step_Deref i : Step i (Deref i) (λ Sec, (Sec, Sec, [])).
Proof.
  intros C Sec HS. exists C. rewrite (Deref_Some _ _ _ HS). cbn.
  split; [done|]. split; [|by rewrite app_nil_r].
  symmetry. apply list_insert_id. by apply SectionAt_Some in HS as [_ ?].
Qed.

Lemma Step_Invoke {A} i
    (Method : FRuntimeMeshSection VertexType → FRuntimeMeshSection VertexType * A) :
  Step i (Invoke i Method) (λ Sec, (Method Sec, [])).
Proof.
  intros C Sec HS. unfold Invoke. rewrite (Bind_Returned _ _ _ _ _ (Deref_Some _ _ _ HS)).
  destruct (Method Sec) as [Sec' Value]. eexists. cbn. split; [done|].
  split; [done|by rewrite app_nil_r].
Qed.

Lemma Step_Bind {A B} i (m : TCall (URuntimeMeshComponent VertexType) A)
    (k : A → TCall (URuntimeMeshComponent VertexType) B) f g :
  Step i m f → (∀ a, Step i (k a) (g a)) →
  Step i (Bind m k)
    (λ Sec, match f Sec with
            | (Sec1, a, Lines1) =>
                match g a Sec1 with
                | (Sec2, b, Lines2) => (Sec2, b, (Lines1 ++ Lines2)%list)
                end
            end).
Proof.
  intros Hm Hk C Sec HS. destruct (Hm C Sec HS) as (C1 & Hrun & Hsec & Hlog).
  rewrite (Bind_Returned _ _ _ _ _ Hrun).
  pose proof (SectionAt_Some _ _ _ HS) as [Hi _].
  assert (SectionAt i C1 = Some (f Sec).1.1) as HS1.
  { unfold SectionAt. rewrite Hsec. by apply SlotAt_insert_eq. }
  destruct (Hk (f Sec).1.2 C1 _ HS1) as (C2 & Hrun2 & Hsec2 & Hlog2).
  exists C2. destruct (f Sec) as [[Sec1 a] Lines1]. cbn in *.
  destruct (g a Sec1) as [[Sec2 b] Lines2]. cbn in *.
  split; [done|]. split.
  - rewrite Hsec2, Hsec. by rewrite list_insert_insert_eq.
  - rewrite Hlog2, Hlog. by rewrite app_assoc.
Qed.

Lemma Step_if {A} i (b : bool) (m1 m2 : TCall (URuntimeMeshComponent VertexType) A) f1 f2 :
  Step i m1 f1 → Step i m2 f2 →
  Step i (if b then m1 else m2) (λ Sec, if b then f1 Sec else f2 Sec).
Proof. by destruct b. Qed.

Lemma Step_pair {A B D} i (p : A * B)
    (k : A → B → TCall (URuntimeMeshComponent VertexType) D) g :
  (∀ a b, Step i (k a b) (g a b)) →
  Step i (let '(a, b) := p in k a b) (λ Sec, g p.1 p.2 Sec).
Proof. intros Hk. destruct p as [a b]. apply Hk. Qed.

Lemma Step_MarkCollisionDirty i : Step i MarkCollisionDirty (λ Sec, (Sec, (), [])).
Proof.
  intros C Sec HS. eexists. split; [done|]. cbn.
  split; [|by rewrite app_nil_r; destruct (bPrePhysicsTickEnabled C)].
  replace (MeshSections _) with (MeshSections C)
    by by destruct (bPrePhysicsTickEnabled C).
  symmetry. apply list_insert_id. by apply SectionAt_Some in HS as [_ ?].
Qed.

Lemma Step_SynchronizeOrDefer i Kind :
  Step i (SynchronizeOrDefer i Kind) (λ Sec, (Sec, (), [])).
Proof.
  intros C Sec HS. eexists. split; [done|]. cbn.
  split; [|by rewrite app_nil_r; destruct (bIsPending (BatchState C))].
  replace (MeshSections _) with (MeshSections C)
    by by destruct (bIsPending (BatchState C)).
  symmetry. apply list_insert_id. by apply SectionAt_Some in HS as [_ ?].
Qed.

Lemma Step_ext {A} i (m : TCall (URuntimeMeshComponent VertexType) A) f f' :
  (∀ Sec, f Sec = f' Sec) → Step i m f → Step i m f'.
Proof. intros Hf Hm C Sec HS. rewrite <- Hf. by apply Hm. Qed.

Lemma Step_UpdateSectionInternal i b1 b2 b3 b4 :
  Step i (UpdateSectionInternal i b1 b2 b3 b4) (λ Sec, (Sec, (), [])).
Proof.
  unfold UpdateSectionInternal.
  eapply Step_ext; [|eapply Step_Bind; [apply Step_Deref|intros Sec'];
    eapply Step_Bind; [apply Step_if; [apply Step_MarkCollisionDirty|apply Step_Return]|intros ?];
    apply Step_SynchronizeOrDefer].
  intros Sec. cbn. by destruct (CollisionEnabled Sec).
Qed.

Lemma Step_CreateSectionInternal i :
  Step i (CreateSectionInternal i) (λ Sec, (Sec, (), [])).
Proof.
  unfold CreateSectionInternal.
  eapply Step_ext; [|eapply Step_Bind; [apply Step_Deref|intros Sec'];
    eapply Step_Bind; [apply Step_if; [apply Step_MarkCollisionDirty|apply Step_Return]|intros ?];
    apply Step_SynchronizeOrDefer].
  intros Sec. cbn. by destruct (CollisionEnabled Sec).
Qed.

Ltac step_rule :=
  lazymatch goal with
  | |- Step _ (Bind _ _) _ => eapply Step_Bind; [|intros ?]
  | |- Step _ (Return _) _ => apply Step_Return
  | |- Step _ (Log _ _) _ => apply Step_Log
  | |- Step _ (Deref _) _ => apply Step_Deref
  | |- Step _ (Invoke _ _) _ => apply Step_Invoke
  | |- Step _ (Assign _ _) _ => unfold Assign; apply Step_Invoke
  | |- Step _ (UpdateSectionInternal _ _ _ _ _) _ => apply Step_UpdateSectionInternal
  | |- Step _ (CreateSectionInternal _) _ => apply Step_CreateSectionInternal
  | |- Step _ (if _ then _ else _) _ => eapply Step_if
  | |- Step _ (match _ with pair _ _ => _ end) _ => eapply Step_pair; intros ? ?
  end.

(** *** The assertions at the head of an update *)

Lemma RMC_VALIDATE_UPDATEPARAMETERS_spec i C :
  RMC_VALIDATE_UPDATEPARAMETERS i C
  = match SectionAt i C with
    | Some _ => Returned () C
    | None =>
        Halted (AssertionFailed (if bool_decide (0 ≤ i) then "Invalid SectionIndex."
                                 else "SectionIndex cannot be negative.")) C
    end.
Proof.
  unfold RMC_VALIDATE_UPDATEPARAMETERS, Bind, Gets, SectionAt.
  case_bool_decide as Hi; cbn.
  - destruct (SlotAt i (MeshSections C)) as [Sec|] eqn:HS.
    + apply (SectionAt_Some i C) in HS as [? _].
      rewrite bool_decide_true by lia. rewrite bool_decide_true by eauto. done.
    + rewrite (bool_decide_false (is_Some None)) by (by intros [? ?]).
      by rewrite andb_false_r.
  - unfold SlotAt. by rewrite bool_decide_false by done.
Qed.

Lemma RMC_VALIDATE_UPDATEPARAMETERS_DUALBUFFER_spec i C :
  RMC_VALIDATE_UPDATEPARAMETERS_DUALBUFFER i C
  = match SectionAt i C with
    | Some Sec =>
        if IsDualBufferSection Sec then Returned () C
        else Halted (AssertionFailed "Section is not dual buffer.") C
    | None =>
        Halted (AssertionFailed (if bool_decide (0 ≤ i) then "Invalid SectionIndex."
                                 else "SectionIndex cannot be negative.")) C
    end.
Proof.
  unfold RMC_VALIDATE_UPDATEPARAMETERS_DUALBUFFER, Bind at 1.
  rewrite RMC_VALIDATE_UPDATEPARAMETERS_spec.
  destruct (SectionAt i C) as [Sec|] eqn:HS; [|done].
  rewrite (Bind_Returned _ _ _ _ _ (Deref_Some _ _ _ HS)).
  by destruct (IsDualBufferSection Sec).
Qed.

Lemma EnsureEquals_spec i VT C Sec :
  SectionAt i C = Some Sec →
  EnsureEquals i VT C
  = if bool_decide (VertexTypeInfo Sec = VT) then Returned () C
    else Halted (LayoutMismatch (VertexTypeInfo Sec) VT) C.
Proof.
  intros HS. unfold EnsureEquals.
  rewrite (Bind_Returned _ _ _ _ _ (Deref_Some _ _ _ HS)).
  by case_bool_decide.
Qed.

(** *** The body of an update, after its assertions *)

Lemma Bind_unit_eq {B} (m : TCall (URuntimeMeshComponent VertexType) ())
    (k : () → TCall (URuntimeMeshComponent VertexType) B) C :
  m C = Returned () C → Bind m k C = k () C.
Proof. apply Bind_Returned. Qed.

Lemma Step_apply i (m : TCall (URuntimeMeshComponent VertexType) ()) f C Sec
    (Out : FRuntimeMeshSection VertexType * list (bool * string)) :
  Step i m f →
  SectionAt i C = Some Sec →
  ((f Sec).1.1, (f Sec).2) = Out →
  ∃ C', m C = Returned () C'
        ∧ MeshSections C' = <[Z.to_nat i := Some Out.1]> (MeshSections C)
        ∧ LogOutput C' = (LogOutput C ++ Out.2)%list.
Proof.
  intros Hm HS <-. destruct (Hm C Sec HS) as (C' & Hrun & ?).
  exists C'. split; [|done]. rewrite Hrun. by destruct (f Sec).1.2.
Qed.

Lemma RunUpdate_accepted (u : EUpdateCall VertexType) C Sec :
  SectionAt (UpdateIndex u) C = Some Sec →
  VertexTypeInfo Sec = UpdateVertexType u →
  UpdateParametersValid u Sec = true →
  ∃ C', RunUpdate u C = Returned () C'
        ∧ MeshSections C'
          = <[Z.to_nat (UpdateIndex u) := Some (UpdateOutcome u Sec).1]> (MeshSections C)
        ∧ LogOutput C' = (LogOutput C ++ (UpdateOutcome u Sec).2)%list.
Proof.
  intros HS HVT HValid.
  destruct u; cbn [RunUpdate UpdateIndex UpdateVertexType] in *;
    unfold UpdateParametersValid in HValid;
    apply andb_true_iff in HValid as [HDual HBox]; cbn in HDual, HBox;
    unfold UpdateMeshSection, UpdateMeshSection_Box, UpdateMeshSection_Triangles,
      UpdateMeshSection_Triangles_Box, UpdateMeshSection_Dual, UpdateMeshSection_Dual_Box,
      UpdateMeshSection_Dual_Triangles, UpdateMeshSection_Dual_Triangles_Box;
    (rewrite Bind_unit_eq
       by (first [ by rewrite RMC_VALIDATE_UPDATEPARAMETERS_spec, HS
                 | by rewrite RMC_VALIDATE_UPDATEPARAMETERS_DUALBUFFER_spec, HS, HDual ]));
    try (rewrite Bind_unit_eq by (by rewrite RMC_VALIDATE_BOUNDINGBOX_spec, HBox));
    (rewrite Bind_unit_eq
       by (by rewrite (EnsureEquals_spec _ _ _ _ HS), bool_decide_true));
    cbn zeta;
    (eapply Step_apply; [repeat step_rule|exact HS|]).
  all: unfold UpdateOutcome, UpdateGuardRejects, UpdatedSection, ApplyTriangles,
         ApplyVertices, ApplyPositions, UpdateWarnings, UpdateVertexBuffer,
         UpdateVertexPositionBuffer, UpdateIndexBuffer, IsDualBufferSection in *.
  all: destruct Sec as [VT0 bDual bInternal Ps0 Vs0 Ts0 Box0 bC0 F0 bV0 bS0]; cbn in *.
  all: destruct bDual; cbn; try done.
  all: repeat (case_bool_decide; cbn); try done.
  all: try (exfalso; unfold Num in *; simpl in *; lia).
Qed.

(** *** Updates that halt *)

Ltac unfold_updates :=
  unfold UpdateMeshSection, UpdateMeshSection_Box, UpdateMeshSection_Triangles,
    UpdateMeshSection_Triangles_Box, UpdateMeshSection_Dual, UpdateMeshSection_Dual_Box,
    UpdateMeshSection_Dual_Triangles, UpdateMeshSection_Dual_Triangles_Box.

Lemma RunUpdate_no_section (u : EUpdateCall VertexType) C :
  SectionAt (UpdateIndex u) C = None →
  ∃ Message, RunUpdate u C = Halted (AssertionFailed Message) C.
Proof.
  intros HS. destruct u; cbn [RunUpdate UpdateIndex] in *; unfold_updates;
    eexists; apply Bind_Halted;
    first [ by rewrite RMC_VALIDATE_UPDATEPARAMETERS_spec, HS
          | by rewrite RMC_VALIDATE_UPDATEPARAMETERS_DUALBUFFER_spec, HS ].
Qed.

Lemma RunUpdate_invalid_parameters (u : EUpdateCall VertexType) C Sec :
  SectionAt (UpdateIndex u) C = Some Sec →
  UpdateParametersValid u Sec = false →
  ∃ Message, RunUpdate u C = Halted (AssertionFailed Message) C.
Proof.
  intros HS HValid. unfold UpdateParametersValid in HValid.
  destruct (IsDualBufferSection Sec) eqn:HDual;
    destruct u; cbn [RunUpdate UpdateIndex] in *; cbn in HValid; unfold_updates;
    try done; eexists.
  all: try (apply Bind_Halted;
            by rewrite RMC_VALIDATE_UPDATEPARAMETERS_DUALBUFFER_spec, HS, HDual).
  all: rewrite Bind_unit_eq
         by (first [ by rewrite RMC_VALIDATE_UPDATEPARAMETERS_spec, HS
                   | by rewrite RMC_VALIDATE_UPDATEPARAMETERS_DUALBUFFER_spec, HS, HDual ]).
  all: apply Bind_Halted; by rewrite RMC_VALIDATE_BOUNDINGBOX_spec, HValid.
Qed.

Lemma RunUpdate_layout_mismatch (u : EUpdateCall VertexType) C Sec :
  SectionAt (UpdateIndex u) C = Some Sec →
  UpdateParametersValid u Sec = true →
  VertexTypeInfo Sec ≠ UpdateVertexType u →
  RunUpdate u C = Halted (LayoutMismatch (VertexTypeInfo Sec) (UpdateVertexType u)) C.
Proof.
  intros HS HValid HVT. unfold UpdateParametersValid in HValid.
  apply andb_true_iff in HValid as [HDual HBox].
  destruct u; cbn [RunUpdate UpdateIndex UpdateVertexType] in *; cbn in HDual, HBox;
    unfold_updates;
    (rewrite Bind_unit_eq
       by (first [ by rewrite RMC_VALIDATE_UPDATEPARAMETERS_spec, HS
                 | by rewrite RMC_VALIDATE_UPDATEPARAMETERS_DUALBUFFER_spec, HS, HDual ]));
    try (rewrite Bind_unit_eq by (by rewrite RMC_VALIDATE_BOUNDINGBOX_spec, HBox));
    apply Bind_Halted; by rewrite (EnsureEquals_spec _ _ _ _ HS), bool_decide_false.
Qed.

(** Every way an update can end. *)
Lemma RunUpdate_cases (u : EUpdateCall VertexType) C :
  (∃ Reason, RunUpdate u C = Halted Reason C)
  ∨ (∃ Sec C',
       SectionAt (UpdateIndex u) C = Some Sec
       ∧ VertexTypeInfo Sec = UpdateVertexType u
       ∧ UpdateParametersValid u Sec = true
       ∧ RunUpdate u C = Returned () C'
       ∧ MeshSections C'
         = <[Z.to_nat (UpdateIndex u) := Some (UpdateOutcome u Sec).1]> (MeshSections C)
       ∧ LogOutput C' = (LogOutput C ++ (UpdateOutcome u Sec).2)%list).
Proof.
  destruct (SectionAt (UpdateIndex u) C) as [Sec|] eqn:HS.
  - destruct (UpdateParametersValid u Sec) eqn:HValid.
    + destruct (decide (VertexTypeInfo Sec = UpdateVertexType u)) as [HVT|HVT].
      * right. destruct (RunUpdate_accepted u C Sec HS HVT HValid) as (C' & ? & ? & ?).
        by exists Sec, C'.
      * left. eexists. by apply RunUpdate_layout_mismatch.
    + left. destruct (RunUpdate_invalid_parameters u C Sec HS HValid) as [Message ?].
      by eexists.
  - left. destruct (RunUpdate_no_section u C HS) as [Message ?]. by eexists.
Qed.

(** *** The buffers of an updated section *)

Lemma UpdatedSection_PositionVertexBuffer (u : EUpdateCall VertexType) Sec :
  PositionVertexBuffer (UpdatedSection u Sec)
  = if bool_decide (UpdatePositions u = []) then PositionVertexBuffer Sec
    else UpdatePositions u.
Proof.
  unfold UpdatedSection, ApplyTriangles, ApplyVertices, ApplyPositions, UpdateVertexBuffer.
  repeat case_bool_decide; repeat case_match; cbn; try done;
    match goal with
    | H : ¬ 0 < Num ?l, H' : ?l ≠ [] |- _ => by apply Num_nil_iff in H'
    | H : 0 < Num ?l, H' : ?l = [] |- _ => by apply Num_nil_iff in H
    end.
Qed.

Lemma UpdatedSection_VertexBuffer (u : EUpdateCall VertexType) Sec :
  VertexBuffer (UpdatedSection u Sec)
  = if bool_decide (UpdateVertices u = []) then VertexBuffer Sec
    else UpdateVertices u.
Proof.
  unfold UpdatedSection, ApplyTriangles, ApplyVertices, ApplyPositions, UpdateVertexBuffer.
  repeat case_bool_decide; repeat case_match; cbn; try done;
    match goal with
    | H : ¬ 0 < Num ?l, H' : ?l ≠ [] |- _ => by apply Num_nil_iff in H'
    | H : 0 < Num ?l, H' : ?l = [] |- _ => by apply Num_nil_iff in H
    end.
Qed.

Lemma UpdatedSection_IndexBuffer (u : EUpdateCall VertexType) Sec :
  IndexBuffer (UpdatedSection u Sec)
  = if bool_decide (UpdateTriangles u = []) then IndexBuffer Sec
    else UpdateTriangles u.
Proof.
  unfold UpdatedSection, ApplyTriangles, ApplyVertices, ApplyPositions, UpdateVertexBuffer.
  repeat case_bool_decide; repeat case_match; cbn; try done;
    match goal with
    | H : ¬ 0 < Num ?l, H' : ?l ≠ [] |- _ => by apply Num_nil_iff in H'
    | H : 0 < Num ?l, H' : ?l = [] |- _ => by apply Num_nil_iff in H
    end.
Qed.

Lemma SectionAt_inserted i C C' Sec Sec' :
  SectionAt i C = Some Sec →
  MeshSections C' = <[Z.to_nat i := Some Sec']> (MeshSections C) →
  SectionAt i C' = Some Sec'.
Proof.
  intros HS Hsec. apply SectionAt_Some in HS as [Hi _].
  unfold SectionAt. rewrite Hsec. by apply SlotAt_insert_eq.
Qed.

(** *** Updates: what is checked, what is applied *)

(** The single-array overloads keep the parallel arrays of a dual-buffer
    section at one length: their guard compares the new vertex array with
    the stored one. *)
Lemma single_array_update_keeps_parallel_arrays (u : EUpdateCall VertexType) C C' Sec :
  UpdateIsDualOverload u = false →
  SectionAt (UpdateIndex u) C = Some Sec →
  ParallelArraysAgree Sec →
  RunUpdate u C = Returned () C' →
  ∃ Sec', SectionAt (UpdateIndex u) C' = Some Sec' ∧ ParallelArraysAgree Sec'.
Proof.
  intros HSingle HS HAgree Hrun.
  destruct (RunUpdate_cases u C)
    as [[Reason Hhalt]|(Sec0 & C0 & HS0 & _ & _ & Hrun0 & Hsec & _)]; [congruence|].
  rewrite Hrun in Hrun0. injection Hrun0 as <-.
  rewrite HS in HS0. injection HS0 as <-.
  unfold UpdateOutcome in Hsec.
  destruct (UpdateGuardRejects u Sec) eqn:HGuard; cbn in Hsec.
  - exists Sec. split; [by eapply SectionAt_inserted|done].
  - exists (UpdatedSection u Sec). split; [by eapply SectionAt_inserted|].
    unfold ParallelArraysAgree in *.
    rewrite UpdatedSection_PositionVertexBuffer, UpdatedSection_VertexBuffer.
    assert (UpdatePositions u = []) as -> by (by destruct u).
    rewrite bool_decide_true by done.
    assert (IsDualBufferSection (UpdatedSection u Sec) = IsDualBufferSection Sec) as ->.
    { unfold UpdatedSection, ApplyTriangles, ApplyVertices, ApplyPositions,
        UpdateVertexBuffer, UpdateVertexPositionBuffer.
      repeat case_bool_decide; repeat case_match; done. }
    intros HDual. specialize (HAgree HDual).
    case_bool_decide as HV; [done|].
    unfold UpdateGuardRejects in HGuard. rewrite HSingle, HDual in HGuard.
    cbn in HGuard. apply bool_decide_eq_false in HGuard.
    apply dec_stable in HGuard. apply Num_eq_iff in HGuard. congruence.
Qed.

(** C9: an update is never applied in part.  A call that halts has
    mutated nothing; a call that returns has either left every section as
    it was, or has stored every non-empty part it was given. *)
Theorem update_applies_every_supplied_part_or_none (u : EUpdateCall VertexType) C :
  match RunUpdate u C with
  | Halted _ C' => C' = C
  | Returned _ C' =>
      MeshSections C' = MeshSections C
      ∨ ∃ Sec', SectionAt (UpdateIndex u) C' = Some Sec'
          ∧ (UpdatePositions u ≠ [] → PositionVertexBuffer Sec' = UpdatePositions u)
          ∧ (UpdateVertices u ≠ [] → VertexBuffer Sec' = UpdateVertices u)
          ∧ (UpdateTriangles u ≠ [] → IndexBuffer Sec' = UpdateTriangles u)
  end.
Proof.
  destruct (RunUpdate_cases u C)
    as [[Reason ->]|(Sec & C' & HS & _ & _ & -> & Hsec & _)]; [done|].
  unfold UpdateOutcome in Hsec. destruct (UpdateGuardRejects u Sec); cbn in Hsec.
  - left. by eapply SectionAt_MeshSections.
  - right. exists (UpdatedSection u Sec). split; [by eapply SectionAt_inserted|].
    rewrite UpdatedSection_PositionVertexBuffer, UpdatedSection_VertexBuffer,
      UpdatedSection_IndexBuffer.
    repeat split; intros ?; by rewrite bool_decide_false.
Qed.

(** An empty array in an update never shrinks or clears the stored
    buffer: whenever the call returns, the buffer of each empty parameter
    is the one the section had. *)
Lemma empty_array_never_clears_the_stored_buffer
    (u : EUpdateCall VertexType) C Sec C' :
  SectionAt (UpdateIndex u) C = Some Sec →
  RunUpdate u C = Returned () C' →
  ∃ Sec', SectionAt (UpdateIndex u) C' = Some Sec'
    ∧ (UpdatePositions u = [] → PositionVertexBuffer Sec' = PositionVertexBuffer Sec)
    ∧ (UpdateVertices u = [] → VertexBuffer Sec' = VertexBuffer Sec)
    ∧ (UpdateTriangles u = [] → IndexBuffer Sec' = IndexBuffer Sec).
Proof.
  intros HS Hrun.
  destruct (RunUpdate_cases u C)
    as [[Reason Hhalt]|(Sec0 & C0 & HS0 & _ & _ & Hrun0 & Hsec & Hlog)];
    [congruence|].
  rewrite Hrun in Hrun0. injection Hrun0 as <-.
  rewrite HS in HS0. injection HS0 as <-.
  unfold UpdateOutcome in Hsec, Hlog.
  destruct (UpdateGuardRejects u Sec); cbn in Hsec, Hlog.
  - exists Sec. split; [by eapply SectionAt_inserted|]. repeat split; done.
  - exists (UpdatedSection u Sec). split; [by eapply SectionAt_inserted|].
    rewrite UpdatedSection_PositionVertexBuffer, UpdatedSection_VertexBuffer,
      UpdatedSection_IndexBuffer.
    repeat split; intros ?; by rewrite bool_decide_true.
Qed.

(** C4, as the code has it: no update overload looks at the length of the
    index array modulo 3.  An index array whose length is not a multiple
    of 3 is stored like any other non-empty one, whenever the call passes
    its assertions and the dual-buffer length guard. *)
Theorem index_buffer_of_any_length_is_stored (u : EUpdateCall VertexType) C Sec :
  (length (UpdateTriangles u) mod 3 ≠ 0)%nat →
  SectionAt (UpdateIndex u) C = Some Sec →
  VertexTypeInfo Sec = UpdateVertexType u →
  UpdateParametersValid u Sec = true →
  UpdateGuardRejects u Sec = false →
  ∃ C' Sec', RunUpdate u C = Returned () C'
             ∧ SectionAt (UpdateIndex u) C' = Some Sec'
             ∧ IndexBuffer Sec' = UpdateTriangles u.
Proof.
  intros Hlen HS HVT HValid HGuard.
  destruct (RunUpdate_accepted u C Sec HS HVT HValid) as (C' & Hrun & Hsec & _).
  unfold UpdateOutcome in Hsec. rewrite HGuard in Hsec. cbn in Hsec.
  exists C', (UpdatedSection u Sec). split; [done|].
  split; [by eapply SectionAt_inserted|].
  rewrite UpdatedSection_IndexBuffer. rewrite bool_decide_false; [done|].
  intros HT. by rewrite HT in Hlen.
Qed.

(** *** Creating a section *)

Lemma Int32Add_Some a b :
  MIN_int32 ≤ a + b ≤ MAX_int32 → Int32Add a b = Some (a + b).
Proof. intros Hab. unfold Int32Add. by rewrite bool_decide_true. Qed.

Lemma Int32Add_None a b : MAX_int32 < a + b → Int32Add a b = None.
Proof. intros Hab. unfold Int32Add. rewrite bool_decide_false; [done|lia]. Qed.

Lemma SlotAt_app_replicate_None j (l : list (option (FRuntimeMeshSection VertexType))) n :
  SlotAt j (l ++ replicate n None) = SlotAt j l.
Proof.
  unfold SlotAt. case_bool_decide; [|done].
  destruct (decide (Z.to_nat j < length l)%nat) as [Hlt|Hge].
  - by rewrite lookup_app_l.
  - rewrite lookup_app_r by lia. rewrite (lookup_ge_None_2 l) by lia.
    destruct (replicate n None !! _) as [Ptr|] eqn:E; [|done].
    apply lookup_replicate in E as [-> _]. done.
Qed.

Lemma CreateOrResetSection_spec VT i bDual bInternal C :
  0 ≤ i →
  SlotIsReachable i C →
  ∃ C1, CreateOrResetSection VT i bDual bInternal C = Returned i C1
        ∧ SectionAt i C1 = Some (Set_bIsInternalSectionType bInternal (NewSection VT bDual))
        ∧ (∀ j, j ≠ i → SectionAt j C1 = SectionAt j C)
        ∧ LogOutput C1 = LogOutput C.
Proof.
  intros Hi HReach.
  unfold CreateOrResetSection, Bind, Gets, Modify, Return, check, SectionAt.
  pose proof (Num_nonneg (MeshSections C)) as HNum.
  case_bool_decide as Hgrow; cbn.
  - rewrite Int32Add_Some
      by (destruct HReach; unfold MIN_int32, MAX_int32 in *; lia).
    cbn. unfold SetNum. rewrite !(bool_decide_false (i + 1 ≤ _)) by lia.
    set (Grown := (MeshSections C ++ replicate _ None)%list).
    assert (Num Grown = i + 1) as HGrown.
    { unfold Grown, Num in *. rewrite length_app, length_replicate. lia. }
    rewrite bool_decide_true by lia. cbn.
    eexists. split; [done|]. cbn. split; [|split; [|done]].
    + apply SlotAt_insert_eq. lia.
    + intros j Hj. rewrite SlotAt_insert_ne by done. apply SlotAt_app_replicate_None.
  - rewrite bool_decide_true by lia. cbn.
    eexists. split; [done|]. cbn. split; [|split; [|done]].
    + apply SlotAt_insert_eq. lia.
    + intros j Hj. by rewrite SlotAt_insert_ne.
Qed.

Lemma Step_run i (m : TCall (URuntimeMeshComponent VertexType) ()) f C Sec :
  Step i m f →
  SectionAt i C = Some Sec →
  ∃ C', m C = Returned () C'
        ∧ SectionAt i C' = Some (f Sec).1.1
        ∧ (∀ j, j ≠ i → SectionAt j C' = SectionAt j C)
        ∧ LogOutput C' = (LogOutput C ++ (f Sec).2)%list.
Proof.
  intros Hm HS. destruct (Hm C Sec HS) as (C' & Hrun & Hsec & Hlog).
  pose proof (SectionAt_Some _ _ _ HS) as [Hi _].
  exists C'. split; [rewrite Hrun; by destruct (f Sec).1.2|].
  split; [by eapply SectionAt_inserted|]. split; [|done].
  intros j Hj. unfold SectionAt. rewrite Hsec. apply SlotAt_insert_ne; [lia|done].
Qed.

Lemma Step_run_from i (m : TCall (URuntimeMeshComponent VertexType) ()) f C C1 Sec Target :
  Step i m f →
  SectionAt i C1 = Some Sec →
  (∀ j, j ≠ i → SectionAt j C1 = SectionAt j C) →
  (f Sec).1.1 = Target →
  ∃ C', m C1 = Returned () C'
        ∧ SectionAt i C' = Some Target
        ∧ (∀ j, j ≠ i → SectionAt j C' = SectionAt j C).
Proof.
  intros Hm HS Hother <-.
  destruct (Step_run i m f C1 Sec Hm HS) as (C' & Hrun & HS' & Hother' & _).
  exists C'. split; [done|]. split; [done|].
  intros j Hj. rewrite Hother' by done. by apply Hother.
Qed.

(** A valid create call for a slot the registry can hold returns and
    leaves [CreatedSection] in its slot; the other slots are as they
    were. *)
Lemma RunCreate_valid (c : ECreateCall VertexType) C :
  CreateValid c →
  SlotIsReachable (CreateIndex c) C →
  ∃ C', RunCreate c C = Returned () C'
        ∧ SectionAt (CreateIndex c) C' = Some (CreatedSection c)
        ∧ (∀ j, j ≠ CreateIndex c → SectionAt j C' = SectionAt j C).
Proof.
  intros (Hi & HV & HT & HBox & HDual) HReach.
  destruct c as [VT i Vs Ts bC F U|VT i Vs Ts Box bC F U
                |VT i Ps Vs Ts bC F U|VT i Ps Vs Ts Box bC F U];
    cbn [RunCreate CreateIndex] in *; cbn in HV, HT, HBox, HDual;
    unfold CreateMeshSection, CreateMeshSection_Box, CreateMeshSectionDualBuffer,
      CreateMeshSectionDualBuffer_Box.
  all: try (specialize (HBox _ eq_refl)); try (specialize (HDual eq_refl)).
  all: (rewrite Bind_unit_eq;
        [|first [ destruct (RMC_VALIDATE_CREATIONPARAMETERS_spec i Vs Ts C)
                    as [(_ & _ & _ & Heq)|[[?|[?|?]] _]]; [exact Heq|lia|done|done]
                | destruct (RMC_VALIDATE_CREATIONPARAMETERS_DUALBUFFER_spec i Vs Ts Ps C)
                    as [(_ & _ & _ & _ & Heq)|[[?|[?|[?|?]]] _]];
                  [exact Heq|lia|done|done|done] ]]).
  all: try (rewrite Bind_unit_eq by (by rewrite RMC_VALIDATE_BOUNDINGBOX_spec, HBox)).
  all: (edestruct (CreateOrResetSection_spec) as (C1 & Hrun1 & HS1 & Hother1 & _);
        [exact Hi|exact HReach|rewrite (Bind_Returned _ _ _ _ _ Hrun1)]).
  all: cbn beta zeta.
  all: (eapply Step_run_from; [repeat step_rule|exact HS1|exact Hother1|]).
  all: done.
Qed.

(** At the last [int32] index, with the slot beyond the end of the
    registry, [SectionIndex + 1] overflows and the create call stops in
    [SetNum], before anything is touched. *)
Lemma CreateOrResetSection_overflow VT i bDual bInternal C :
  Num (MeshSections C) ≤ i →
  MAX_int32 ≤ i →
  CreateOrResetSection VT i bDual bInternal C
  = Halted (AssertionFailed "Array count out of bounds") C.
Proof.
  intros HNum Hi. unfold CreateOrResetSection, Bind, Gets.
  rewrite bool_decide_true by done. by rewrite Int32Add_None by lia.
Qed.

Lemma RunCreate_overflow (c : ECreateCall VertexType) C :
  CreateValid c →
  ¬ SlotIsReachable (CreateIndex c) C →
  RunCreate c C = Halted (AssertionFailed "Array count out of bounds") C.
Proof.
  intros (Hi & HV & HT & HBox & HDual) HReach.
  assert (Num (MeshSections C) ≤ CreateIndex c ∧ MAX_int32 ≤ CreateIndex c) as [HNum HMax].
  { unfold SlotIsReachable in HReach. lia. }
  destruct c as [VT i Vs Ts bC F U|VT i Vs Ts Box bC F U
                |VT i Ps Vs Ts bC F U|VT i Ps Vs Ts Box bC F U];
    cbn [RunCreate CreateIndex] in *; cbn in HV, HT, HBox, HDual;
    unfold CreateMeshSection, CreateMeshSection_Box, CreateMeshSectionDualBuffer,
      CreateMeshSectionDualBuffer_Box.
  all: try (specialize (HBox _ eq_refl)); try (specialize (HDual eq_refl)).
  all: (rewrite Bind_unit_eq;
        [|first [ destruct (RMC_VALIDATE_CREATIONPARAMETERS_spec i Vs Ts C)
                    as [(_ & _ & _ & Heq)|[[?|[?|?]] _]]; [exact Heq|lia|done|done]
                | destruct (RMC_VALIDATE_CREATIONPARAMETERS_DUALBUFFER_spec i Vs Ts Ps C)
                    as [(_ & _ & _ & _ & Heq)|[[?|[?|[?|?]]] _]];
                  [exact Heq|lia|done|done|done] ]]).
  all: try (rewrite Bind_unit_eq by (by rewrite RMC_VALIDATE_BOUNDINGBOX_spec, HBox)).
  all: apply Bind_Halted; by apply CreateOrResetSection_overflow.
Qed.

Lemma SlotIsReachable_dec i C : SlotIsReachable i C ∨ ¬ SlotIsReachable i C.
Proof. unfold SlotIsReachable. lia. Qed.

(** *** The computed bounds are the axis-aligned bounding box *)

Lemma StartedOrAttained_min (get : FVector → Z) Start Now p Ps :
  StartedOrAttained get (Z.min Start (get p)) Now Ps →
  StartedOrAttained get Start Now (p :: Ps).
Proof.
  intros [->|(q & Hq & Hget)].
  - destruct (Z.min_spec Start (get p)) as [[_ ->]|[_ ->]]; [by left|].
    right. exists p. split; [apply elem_of_cons; by left|done].
  - right. exists q. split; [apply elem_of_cons; by right|done].
Qed.

Lemma StartedOrAttained_max (get : FVector → Z) Start Now p Ps :
  StartedOrAttained get (Z.max Start (get p)) Now Ps →
  StartedOrAttained get Start Now (p :: Ps).
Proof.
  intros [->|(q & Hq & Hget)].
  - destruct (Z.max_spec Start (get p)) as [[_ ->]|[_ ->]]; [|by left].
    right. exists p. split; [apply elem_of_cons; by left|done].
  - right. exists q. split; [apply elem_of_cons; by right|done].
Qed.

Lemma StartedOrAttained_first (get : FVector → Z) Now p Ps :
  StartedOrAttained get (get p) Now Ps →
  ∃ q, q ∈ p :: Ps ∧ get q = Now.
Proof.
  intros [->|(q & Hq & Hget)].
  - exists p. split; [apply elem_of_cons; by left|done].
  - exists q. split; [apply elem_of_cons; by right|done].
Qed.

Lemma FBox_AddPoint_valid Box p :
  IsValid Box = true →
  FBox_AddPoint Box p
  = MkFBox (MkFVector (Z.min (X (Min Box)) (X p)) (Z.min (Y (Min Box)) (Y p))
                      (Z.min (Z_ (Min Box)) (Z_ p)))
           (MkFVector (Z.max (X (Max Box)) (X p)) (Z.max (Y (Max Box)) (Y p))
                      (Z.max (Z_ (Max Box)) (Z_ p)))
           true.
Proof. intros HValid. unfold FBox_AddPoint. by rewrite HValid. Qed.

Lemma FBox_scan (Positions : list FVector) :
  ∀ Box, IsValid Box = true →
    let Scanned := foldl FBox_AddPoint Box Positions in
    IsValid Scanned = true
    ∧ (∀ q, FBox_IsInside Box q → FBox_IsInside Scanned q)
    ∧ (∀ p, p ∈ Positions → FBox_IsInside Scanned p)
    ∧ StartedOrAttained X (X (Min Box)) (X (Min Scanned)) Positions
    ∧ StartedOrAttained Y (Y (Min Box)) (Y (Min Scanned)) Positions
    ∧ StartedOrAttained Z_ (Z_ (Min Box)) (Z_ (Min Scanned)) Positions
    ∧ StartedOrAttained X (X (Max Box)) (X (Max Scanned)) Positions
    ∧ StartedOrAttained Y (Y (Max Box)) (Y (Max Scanned)) Positions
    ∧ StartedOrAttained Z_ (Z_ (Max Box)) (Z_ (Max Scanned)) Positions.
Proof.
  induction Positions as [|p Ps IH]; intros Box HValid; cbn zeta.
  - cbn. unfold StartedOrAttained. split; [done|]. split; [done|].
    split; [intros p Hp; by apply elem_of_nil in Hp|]. repeat split; by left.
  - cbn [foldl]. rewrite (FBox_AddPoint_valid _ p HValid).
    match goal with
    | |- context [foldl FBox_AddPoint ?Next Ps] =>
        destruct (IH Next eq_refl)
          as (HV & Hmono & Hin & HxMin & HyMin & HzMin & HxMax & HyMax & HzMax)
    end.
    cbn [Min Max X Y Z_] in HxMin, HyMin, HzMin, HxMax, HyMax, HzMax.
    split; [exact HV|]. split; [|split].
    + intros q Hq. apply Hmono. unfold FBox_IsInside in *. cbn. lia.
    + intros q [->|Hq]%elem_of_cons; [|by apply Hin].
      apply Hmono. unfold FBox_IsInside. cbn. lia.
    + repeat split;
        first [by apply StartedOrAttained_min | by apply StartedOrAttained_max].
Qed.

Lemma ComputeBoundingBox_is_the_bounding_box (Positions : list FVector) :
  Positions ≠ [] →
  IsAxisAlignedBoundsOf (ComputeBoundingBox Positions) Positions.
Proof.
  destruct Positions as [|p Ps]; [done|]. intros _.
  unfold ComputeBoundingBox. cbn [foldl].
  change (FBox_AddPoint FBox_ForceInit p) with (MkFBox p p true).
  destruct (FBox_scan Ps (MkFBox p p true) eq_refl)
    as (HV & Hmono & Hin & HxMin & HyMin & HzMin & HxMax & HyMax & HzMax).
  cbn [Min Max] in HxMin, HyMin, HzMin, HxMax, HyMax, HzMax.
  unfold IsAxisAlignedBoundsOf. split; [done|]. split.
  { intros q [->|Hq]%elem_of_cons; [|by apply Hin].
    apply Hmono. unfold FBox_IsInside. cbn. lia. }
  repeat split; by apply StartedOrAttained_first.
Qed.

(** C5, as the code has it: after a create call that passes validation
    and names a slot the registry can hold (a slot within the array
    already, or an index below [MAX_int32], so that [SectionIndex + 1] is
    an [int32]), the section at its index exists, and its bounding box is
    the box the call supplied or, when it supplied none, the axis-aligned
    bounding box of the positions it supplied. *)
Theorem valid_create_makes_the_section_exist_with_its_bounds
    (c : ECreateCall VertexType) C :
  CreateValid c →
  SlotIsReachable (CreateIndex c) C →
  ∃ C' Box,
    RunCreate c C = Returned () C'
    ∧ DoesSectionExist (CreateIndex c) C' = true
    ∧ GetSectionBoundingBox (CreateIndex c) C' = Some Box
    ∧ match CreateBoundingBox c with
      | Some Supplied => Box = Supplied
      | None => Box = ComputeBoundingBox (CreatePositions c)
                ∧ IsAxisAlignedBoundsOf Box (CreatePositions c)
      end.
Proof.
  intros HValid HReach.
  destruct (RunCreate_valid c C HValid HReach) as (C' & Hrun & HS & _).
  exists C', (NewBounds (CreateBoundingBox c) (CreatePositions c)).
  split; [done|]. unfold DoesSectionExist, GetSectionBoundingBox. rewrite HS.
  split; [by apply bool_decide_true|]. split; [done|].
  destruct (CreateBoundingBox c) as [Supplied|] eqn:HBox; cbn; [done|].
  split; [done|]. apply ComputeBoundingBox_is_the_bounding_box.
  destruct HValid as (_ & HV & _ & _ & HDual).
  destruct c; cbn in *; try done.
  all: try (by destruct Vertices).
  all: specialize (HDual eq_refl); destruct VertexPositions, VertexData; done.
Qed.

(** C10: creating a section at an index that already holds one replaces
    the old section object by a fresh one.  Whatever the flags of the old
    section were, afterwards the collision flag and the update frequency
    are the arguments of the call ([false] and [Average] when omitted), and
    visibility and shadow casting are the constructor's choices. *)
Theorem recreate_resets_every_section_flag (c : ECreateCall VertexType) C Old :
  SectionAt (CreateIndex c) C = Some Old →
  CreateValid c →
  ∃ C' New,
    RunCreate c C = Returned () C'
    ∧ SectionAt (CreateIndex c) C' = Some New
    ∧ New = CreatedSection c
    ∧ CollisionEnabled New = default false (CreateCollisionArgument c)
    ∧ UpdateFrequency New = default Average (CreateUpdateFrequencyArgument c)
    ∧ bIsVisible New = Default_bIsVisible
    ∧ bCastsShadow New = Default_bCastsShadow.
Proof.
  intros HOld HValid. apply SectionAt_Some in HOld as [[_ HOld] _].
  destruct (RunCreate_valid c C HValid (or_introl HOld)) as (C' & Hrun & HS & _).
  exists C', (CreatedSection c). by repeat split.
Qed.

(** *** Invariants, call by call *)

Create HintDb rmc_calls discriminated.

#[local] Hint Unfold
  Run RunCreate RunUpdate
  CreateMeshSection CreateMeshSection_Box CreateMeshSectionDualBuffer
  CreateMeshSectionDualBuffer_Box
  UpdateMeshSection UpdateMeshSection_Box UpdateMeshSection_Triangles
  UpdateMeshSection_Triangles_Box UpdateMeshSection_Dual UpdateMeshSection_Dual_Box
  UpdateMeshSection_Dual_Triangles UpdateMeshSection_Dual_Triangles_Box
  SetMeshSectionVisible SetMeshSectionCastsShadow SetMeshSectionCollisionEnabled
  ClearMeshSection ClearAllMeshSections SetMeshCollisionSection
  ClearMeshCollisionSection ClearAllMeshCollisionSections AddCollisionConvexMesh
  ClearCollisionConvexMeshes SetCollisionConvexMeshes BeginBatchUpdates EndBatchUpdates
  ExecuteTick BakeCollision
  RMC_VALIDATE_CREATIONPARAMETERS RMC_VALIDATE_CREATIONPARAMETERS_DUALBUFFER
  RMC_VALIDATE_BOUNDINGBOX RMC_VALIDATE_UPDATEPARAMETERS
  RMC_VALIDATE_UPDATEPARAMETERS_DUALBUFFER EnsureEquals CreateOrResetSection
  CreateSectionInternal UpdateSectionInternal UpdateSectionPropertiesInternal
  Invoke Assign Deref Log check MarkCollisionDirty SynchronizeOrDefer
  : rmc_calls.

Section Invariants.

Context {A : Type} (I : URuntimeMeshComponent VertexType → Prop).

Lemma Preserves_Return (a : A) : Preserves I (Return a).
Proof. by intros C HI. Qed.

Lemma Preserves_Halt (h : EHalt) :
  Preserves I (Halt h : TCall (URuntimeMeshComponent VertexType) A).
Proof. by intros C HI. Qed.

Lemma Preserves_Gets (Member : URuntimeMeshComponent VertexType → A) :
  Preserves I (Gets Member).
Proof. by intros C HI. Qed.

Lemma Preserves_Modify (f : URuntimeMeshComponent VertexType → URuntimeMeshComponent VertexType) :
  (∀ C, I C → I (f C)) → Preserves I (Modify f).
Proof. intros Hf C HI. by apply Hf. Qed.

Lemma Preserves_Bind {B} (m : TCall (URuntimeMeshComponent VertexType) B)
    (k : B → TCall (URuntimeMeshComponent VertexType) A) :
  Preserves I m → (∀ b, Preserves I (k b)) → Preserves I (Bind m k).
Proof.
  intros Hm Hk C HI. specialize (Hm C HI). unfold Bind.
  destruct (m C) as [b C1|h C1]; cbn in *; [by apply Hk|done].
Qed.

End Invariants.

Ltac preserves_rule :=
  lazymatch goal with
  | |- Preserves _ (Bind _ _) => apply Preserves_Bind; [|intros ?]
  | |- Preserves _ (Return _) => apply Preserves_Return
  | |- Preserves _ (Halt _) => apply Preserves_Halt
  | |- Preserves _ (Gets _) => apply Preserves_Gets
  | |- Preserves _ (Modify _) => apply Preserves_Modify
  | |- Preserves _ (if ?b then _ else _) => destruct b
  | |- Preserves _ (match ?x with _ => _ end) => destruct x
  end.

(** Every call keeps the scheduler's request in step with the tick. *)
Lemma Run_TickRequested (c : ECall VertexType) : Preserves TickRequested (Run c).
Proof.
  destruct c as [c|u| | | | | | | | | | | | | |]; [destruct c|destruct u|..];
    autounfold with rmc_calls; cbn zeta; repeat preserves_rule.
  all: intros [Sections Batch bDirty CollisionSections Convex bEnabled Body Lines Syncs Requests];
    unfold TickRequested, SetSlot; cbn.
  all: try done.
  all: repeat case_match; cbn; try done; try lia; intros ->; done.
Qed.

Lemma RunAll_TickRequested (cs : list (ECall VertexType)) :
  Preserves TickRequested (RunAll cs).
Proof.
  induction cs as [|c cs IH]; cbn [RunAll]; [apply Preserves_Return|].
  apply Preserves_Bind; [apply Run_TickRequested|by intros ?].
Qed.

Lemma Reachable_TickRequested C : Reachable C → TickRequested C.
Proof.
  intros [cs Hrun]. pose proof (RunAll_TickRequested cs NewComponent eq_refl) as HI.
  by rewrite Hrun in HI.
Qed.

(** No call but the tick itself clears a pending bake. *)
Lemma Run_BakePending (c : ECall VertexType) :
  (∀ bCookSucceeds, c ≠ CallExecuteTick bCookSucceeds) →
  Preserves BakePending (Run c).
Proof.
  intros Hc.
  destruct c as [c|u| | | | | | | | | | | | | |bCook]; [destruct c|destruct u|..];
    try (by destruct (Hc bCook));
    autounfold with rmc_calls; cbn zeta; repeat preserves_rule.
  all: intros [Sections Batch bDirty CollisionSections Convex bEnabled Body Lines Syncs Requests];
    unfold BakePending, SetSlot; cbn.
  all: try done.
  all: repeat case_match; cbn; try done.
Qed.

(** *** Calls that affect collision request a bake *)

Lemma Ensures_Bind {A B} (Q : URuntimeMeshComponent VertexType → Prop)
    (m : TCall (URuntimeMeshComponent VertexType) A)
    (k : A → TCall (URuntimeMeshComponent VertexType) B) :
  (∀ a, Ensures Q (k a)) → Ensures Q (Bind m k).
Proof.
  intros Hk C b C' Hrun. unfold Bind in Hrun.
  destruct (m C) as [a C1|h C1]; [by eapply Hk|done].
Qed.

Lemma Ensures_MarkCollisionDirty :
  Ensures BakePending (MarkCollisionDirty (VertexType := VertexType)).
Proof.
  unfold MarkCollisionDirty, Modify. intros C [] C' [= <-].
  unfold BakePending. destruct C as [? ? ? ? ? bEnabled ? ? ? ?]. cbn.
  by destruct bEnabled.
Qed.

Lemma Ensures_CreateSectionInternal i :
  Ensures (λ C', ∀ Sec, SectionAt i C' = Some Sec → CollisionEnabled Sec = true →
                 BakePending C')
          (CreateSectionInternal i).
Proof.
  intros C [] C' Hrun Sec HS HCollision.
  unfold CreateSectionInternal, Deref, Bind, Gets in Hrun.
  destruct (bool_decide (0 ≤ i < Num (MeshSections C))); [|done].
  destruct (SlotAt i (MeshSections C)) as [Sec0|] eqn:HS0; [|done].
  cbn in Hrun.
  assert (Sec0 = Sec) as ->.
  { unfold SectionAt in HS.
    destruct C as [Sections [bPending Touched] ? ? ? bEnabled ? ? ? ?];
      destruct (CollisionEnabled Sec0), bEnabled, bPending;
      injection Hrun as <-; cbn in *; congruence. }
  rewrite HCollision in Hrun. injection Hrun as <-.
  unfold BakePending.
  destruct C as [Sections [bPending Touched] ? ? ? bEnabled ? ? ? ?].
  by destruct bEnabled, bPending.
Qed.

(** A create call returns only when its arguments are valid. *)
Lemma RunCreate_Returned_valid (c : ECreateCall VertexType) C C' :
  RunCreate c C = Returned () C' → CreateValid c.
Proof.
  destruct c as [VT i Vs Ts bC F U|VT i Vs Ts Box bC F U
                |VT i Ps Vs Ts bC F U|VT i Ps Vs Ts Box bC F U];
    cbn [RunCreate]; unfold CreateValid; cbn;
    unfold CreateMeshSection, CreateMeshSection_Box, CreateMeshSectionDualBuffer,
      CreateMeshSectionDualBuffer_Box; intros Hrun.
  - destruct (RMC_VALIDATE_CREATIONPARAMETERS_spec i Vs Ts C)
      as [(Hi & HV & HT & _)|[_ [Message Heq]]];
      [|by rewrite (Bind_Halted _ _ _ _ _ Heq) in Hrun].
    by repeat split.
  - destruct (RMC_VALIDATE_CREATIONPARAMETERS_spec i Vs Ts C)
      as [(Hi & HV & HT & Heq)|[_ [Message Heq]]];
      [|by rewrite (Bind_Halted _ _ _ _ _ Heq) in Hrun].
    rewrite (Bind_Returned _ _ _ _ _ Heq) in Hrun. unfold Bind at 1 in Hrun.
    rewrite RMC_VALIDATE_BOUNDINGBOX_spec in Hrun.
    destruct (IsValid Box) eqn:HBox; [|done].
    repeat split; try done. by intros ? [= <-].
  - destruct (RMC_VALIDATE_CREATIONPARAMETERS_DUALBUFFER_spec i Vs Ts Ps C)
      as [(Hi & HV & HT & HP & _)|[_ [Message Heq]]];
      [|by rewrite (Bind_Halted _ _ _ _ _ Heq) in Hrun].
    by repeat split.
  - destruct (RMC_VALIDATE_CREATIONPARAMETERS_DUALBUFFER_spec i Vs Ts Ps C)
      as [(Hi & HV & HT & HP & Heq)|[_ [Message Heq]]];
      [|by rewrite (Bind_Halted _ _ _ _ _ Heq) in Hrun].
    rewrite (Bind_Returned _ _ _ _ _ Heq) in Hrun. unfold Bind at 1 in Hrun.
    rewrite RMC_VALIDATE_BOUNDINGBOX_spec in Hrun.
    destruct (IsValid Box) eqn:HBox; [|done].
    repeat split; try done. by intros ? [= <-].
Qed.

Lemma RunCreate_collision (c : ECreateCall VertexType) C C' :
  Arg_bCreateCollision (CreateCollisionArgument c) = true →
  RunCreate c C = Returned () C' →
  BakePending C'.
Proof.
  intros HCollision Hrun.
  pose proof (RunCreate_Returned_valid c C C' Hrun) as HValid.
  destruct (SlotIsReachable_dec (CreateIndex c) C) as [HReach|HReach];
    [|by rewrite (RunCreate_overflow c C HValid HReach) in Hrun].
  destruct (RunCreate_valid c C HValid HReach) as (C1 & Hrun1 & HS & _).
  rewrite Hrun in Hrun1. injection Hrun1 as <-.
  assert (Ensures (λ C', ∀ Sec, SectionAt (CreateIndex c) C' = Some Sec →
                           CollisionEnabled Sec = true → BakePending C')
                  (RunCreate c)) as HEnsures.
  { destruct c; cbn [RunCreate CreateIndex];
      unfold CreateMeshSection, CreateMeshSection_Box, CreateMeshSectionDualBuffer,
        CreateMeshSectionDualBuffer_Box;
      repeat lazymatch goal with
             | |- Ensures _ (Bind _ _) => apply Ensures_Bind; intros ?
             | |- Ensures _ (let _ := _ in _) => cbn zeta
             end;
      apply Ensures_CreateSectionInternal. }
  by eapply (HEnsures C () C' Hrun).
Qed.

Lemma Run_affects_collision (c : ECall VertexType) C C' :
  AffectsCollision c C = true →
  Run c C = Returned () C' →
  BakePending C'.
Proof.
  intros HAffects Hrun.
  destruct c as [c|u| | | | | | | | | | | | | |]; cbn [AffectsCollision] in HAffects;
    try done; cbn [Run] in Hrun.
  - by eapply RunCreate_collision.
  - (* SetMeshSectionCollisionEnabled *)
    unfold SetMeshSectionCollisionEnabled, Bind at 1, Gets in Hrun.
    unfold SectionAt in HAffects.
    destruct (SlotAt SectionIndex (MeshSections C)) as [Sec|]; [|done].
    apply negb_true_iff in HAffects. rewrite HAffects in Hrun.
    eapply (Ensures_Bind BakePending); [|exact Hrun].
    intros ?. apply Ensures_MarkCollisionDirty.
  - (* ClearMeshSection *)
    unfold ClearMeshSection, Bind at 1, Gets in Hrun.
    unfold SectionAt in HAffects.
    destruct (SlotAt SectionIndex (MeshSections C)) as [Sec|]; [|done].
    rewrite HAffects in Hrun.
    eapply (Ensures_Bind BakePending); [|exact Hrun].
    intros ?. apply Ensures_MarkCollisionDirty.
  - (* ClearAllMeshSections *)
    unfold ClearAllMeshSections, Bind at 1, Gets in Hrun.
    rewrite HAffects in Hrun.
    eapply (Ensures_Bind BakePending); [|exact Hrun].
    intros ?. apply Ensures_MarkCollisionDirty.
  - (* SetMeshCollisionSection *)
    unfold SetMeshCollisionSection in Hrun. rewrite HAffects in Hrun.
    eapply (Ensures_Bind BakePending); [|exact Hrun].
    intros ?. apply Ensures_MarkCollisionDirty.
  - (* ClearMeshCollisionSection *)
    unfold ClearMeshCollisionSection, Bind at 1, Gets in Hrun.
    rewrite HAffects in Hrun.
    eapply (Ensures_Bind BakePending); [|exact Hrun].
    intros ?. apply Ensures_MarkCollisionDirty.
  - eapply (Ensures_Bind BakePending); [|exact Hrun].
    intros ?. apply Ensures_MarkCollisionDirty.
  - eapply (Ensures_Bind BakePending); [|exact Hrun].
    intros ?. apply Ensures_MarkCollisionDirty.
  - eapply (Ensures_Bind BakePending); [|exact Hrun].
    intros ?. apply Ensures_MarkCollisionDirty.
  - eapply (Ensures_Bind BakePending); [|exact Hrun].
    intros ?. apply Ensures_MarkCollisionDirty.
Qed.

(** C7: take any component the calls can produce and any non-empty
    sequence of mutations that each affect collision, with no bake in
    between.  After the sequence the collision is marked dirty and the
    scheduler holds exactly one request for the bake, however long the
    sequence was. *)
Theorem collision_mutations_leave_one_pending_bake
    (cs : list (ECall VertexType)) C C' :
  Reachable C →
  cs ≠ [] →
  AllAffectCollision cs C →
  RunAll cs C = Returned () C' →
  bCollisionDirty C' = true ∧ PendingBakeRequests C' = 1%nat.
Proof.
  intros HReach Hne HAll Hrun.
  assert (TickRequested C') as HTick.
  { pose proof (RunAll_TickRequested cs C (Reachable_TickRequested C HReach)) as HI.
    by rewrite Hrun in HI. }
  assert (BakePending C') as [HDirty HEnabled].
  { clear HReach HTick. destruct cs as [|c cs]; [done|]. clear Hne.
    revert c C HAll Hrun. induction cs as [|c' cs IH]; intros c C [HAffects HRest] Hrun;
      cbn [RunAll] in Hrun; unfold Bind at 1 in Hrun;
      destruct (Run c C) as [[] C1|h C1] eqn:Hc; try done.
    - injection Hrun as <-. by eapply Run_affects_collision.
    - eapply (IH c' C1); [by apply HRest|exact Hrun]. }
  split; [done|]. unfold TickRequested in HTick. by rewrite HEnabled in HTick.
Qed.

(** *** A batch against the same calls run at once *)

Section Simulation.

Context {A : Type}
  (R : URuntimeMeshComponent VertexType → URuntimeMeshComponent VertexType → Prop).

Lemma Simulates_Return (a : A) : Simulates R (Return a).
Proof. by intros Cb Ci HR. Qed.

Lemma Simulates_Halt (h : EHalt) :
  Simulates R (Halt h : TCall (URuntimeMeshComponent VertexType) A).
Proof. by intros Cb Ci HR. Qed.

Lemma Simulates_Gets (Member : URuntimeMeshComponent VertexType → A) :
  (∀ Cb Ci, R Cb Ci → Member Cb = Member Ci) → Simulates R (Gets Member).
Proof. intros HMember Cb Ci HR. cbn. split; [by apply HMember|done]. Qed.

Lemma Simulates_Bind {B} (m : TCall (URuntimeMeshComponent VertexType) B)
    (k : B → TCall (URuntimeMeshComponent VertexType) A) :
  Simulates R m → (∀ b, Simulates R (k b)) → Simulates R (Bind m k).
Proof.
  intros Hm Hk Cb Ci HR. specialize (Hm Cb Ci HR). unfold Bind.
  destruct (m Cb) as [b Cb1|h Cb1], (m Ci) as [b' Ci1|h' Ci1]; try done.
  destruct Hm as [<- HR1]. by apply Hk.
Qed.

End Simulation.

Lemma Simulates_Modify R
    (f : URuntimeMeshComponent VertexType → URuntimeMeshComponent VertexType) :
  (∀ Cb Ci, R Cb Ci → R (f Cb) (f Ci)) → Simulates R (Modify f).
Proof. intros Hf Cb Ci HR. cbn. split; [done|by apply Hf]. Qed.

Ltac simulates_rule :=
  lazymatch goal with
  | |- Simulates _ (Bind _ _) => apply Simulates_Bind; [|intros ?]
  | |- Simulates _ (Return _) => apply Simulates_Return
  | |- Simulates _ (Halt _) => apply Simulates_Halt
  | |- Simulates _ (Gets _) => apply Simulates_Gets
  | |- Simulates _ (Modify _) => apply Simulates_Modify
  | |- Simulates _ (if ?b then _ else _) => destruct b
  | |- Simulates _ (match ?x with _ => _ end) => destruct x
  end.

Lemma list_to_set_snoc (l : list Z) (i : Z) :
  ({[i]} ∪ list_to_set l : gset Z) = list_to_set (l ++ [i]).
Proof.
  rewrite list_to_set_app_L. cbn. rewrite (right_id_L ∅ (∪)). apply (comm_L (∪)).
Qed.

(** Every call but the two batch brackets does the same to the data of a
    component inside a batch and of one outside, and touches inside the
    batch the very sections it synchronises outside. *)
Lemma Run_BatchedAgainst Base (c : ECall VertexType) :
  IsBatchBracket c = false → Simulates (BatchedAgainst Base) (Run c).
Proof.
  intros Hc.
  destruct c as [c|u| | | | | | | | | | | | | |]; try done; [destruct c|destruct u|..];
    autounfold with rmc_calls; cbn zeta; repeat simulates_rule.
  all: intros [Sections1 [bPending1 Touched1] bDirty1 Collision1 Convex1 bEnabled1
                 Body1 Lines1 Syncs1 Requests1]
              [Sections2 [bPending2 Touched2] bDirty2 Collision2 Convex2 bEnabled2
                 Body2 Lines2 Syncs2 Requests2]
              ((HSections & HDirty & HCollision & HConvex & HEnabled & HBody & HLines
                & HRequests) & HbP & HiP & HBase & Immediate & HSyncs & HTouched);
    cbn in *; subst.
  all: try done.
  all: unfold BatchedAgainst, SameData, SetSlot, SectionAt; cbn.
  all: try (split_and!; try done;
            repeat lazymatch goal with
                   | |- context [if ?b then _ else _] => destruct b
                   end; cbn; try done;
            eexists; split; done).
  all: split_and!; try done.
  all: eexists; split; [by rewrite <- app_assoc|].
  all: rewrite fmap_app; cbn; apply list_to_set_snoc.
Qed.

Lemma RunAll_BatchedAgainst Base (ms : list (ECall VertexType)) :
  Forall (λ m, IsBatchBracket m = false) ms →
  Simulates (BatchedAgainst Base) (RunAll ms).
Proof.
  induction 1 as [|m ms Hm _ IH]; cbn [RunAll]; [apply Simulates_Return|].
  apply Simulates_Bind; [by apply Run_BatchedAgainst|by intros ?].
Qed.

Lemma BeginBatchUpdates_BatchedAgainst C :
  bIsPending (BatchState C) = false →
  ∃ Cb, BeginBatchUpdates C = Returned () Cb ∧ BatchedAgainst (RenderSyncs C) Cb C.
Proof.
  intros HIdle. eexists. split; [done|].
  unfold BatchedAgainst, SameData, StartBatch. rewrite HIdle. cbn.
  split_and!; try done. exists []. by rewrite app_nil_r.
Qed.

(** What a batch has done when its mutations are through: nothing has
    been synchronised, and the same mutations run at once end in the same
    data, having synchronised the sections the batch has touched. *)
Lemma batch_body (ms : list (ECall VertexType)) C0 C1 :
  bIsPending (BatchState C0) = false →
  Forall (λ m, IsBatchBracket m = false) ms →
  RunAll (CallBeginBatchUpdates :: ms) C0 = Returned () C1 →
  ∃ Ci, RunAll ms C0 = Returned () Ci ∧ BatchedAgainst (RenderSyncs C0) C1 Ci.
Proof.
  intros HIdle Hms Hrun.
  destruct (BeginBatchUpdates_BatchedAgainst C0 HIdle) as (Cb & HBegin & HR).
  cbn [RunAll Run] in Hrun. rewrite (Bind_Returned _ _ _ _ _ HBegin) in Hrun.
  pose proof (RunAll_BatchedAgainst (RenderSyncs C0) ms Hms Cb C0 HR) as HSim.
  rewrite Hrun in HSim. destruct (RunAll ms C0) as [[] Ci|h Ci]; [|done].
  exists Ci. by destruct HSim.
Qed.


(** ** The registry under creates and updates *)

(** *** The registry as a whole *)

(** Two registries of one length that hold the same section in every slot
    are equal. *)
Lemma MeshSections_ext (l1 l2 : list (option (FRuntimeMeshSection VertexType))) :
  Num l1 = Num l2 → (∀ j, SlotAt j l1 = SlotAt j l2) → l1 = l2.
Proof.
  intros HNum HSlot. apply list_eq. intros n.
  specialize (HSlot (Z.of_nat n)). unfold SlotAt in HSlot.
  rewrite bool_decide_true in HSlot by lia. rewrite Nat2Z.id in HSlot.
  destruct (l1 !! n) as [x1|] eqn:E1, (l2 !! n) as [x2|] eqn:E2; cbn in HSlot.
  - by rewrite HSlot.
  - apply lookup_lt_Some in E1. apply lookup_ge_None in E2. unfold Num in HNum. lia.
  - apply lookup_lt_Some in E2. apply lookup_ge_None in E1. unfold Num in HNum. lia.
  - done.
Qed.

(** Storing the section a slot already holds changes nothing but the
    log. *)
Lemma StoreAndLog_same i C Sec Lines :
  SectionAt i C = Some Sec →
  StoreAndLog i Sec Lines C = Set_LogOutput (LogOutput C ++ Lines) C.
Proof.
  intros HS. apply SectionAt_Some in HS as [_ HS].
  unfold StoreAndLog, SetSlot. destruct C. cbn in *. by rewrite list_insert_id.
Qed.

Lemma StoreAndLog_nil i C Sec :
  SectionAt i C = Some Sec → StoreAndLog i Sec [] C = C.
Proof.
  intros HS. rewrite (StoreAndLog_same _ _ _ _ HS). destruct C. cbn.
  by rewrite app_nil_r.
Qed.

Lemma SectionAt_StoreAndLog i C Sec Lines :
  0 ≤ i < Num (MeshSections C) → SectionAt i (StoreAndLog i Sec Lines C) = Some Sec.
Proof. intros Hi. unfold SectionAt, StoreAndLog. cbn. by apply SlotAt_insert_eq. Qed.

(** A member call through the section pointer and a log line, run on a
    component of the form [StoreAndLog i Sec Lines C]. *)
Lemma Invoke_StoreAndLog {A} i C Sec Lines
    (Method : FRuntimeMeshSection VertexType → FRuntimeMeshSection VertexType * A) :
  0 ≤ i < Num (MeshSections C) →
  Invoke i Method (StoreAndLog i Sec Lines C)
  = Returned (Method Sec).2 (StoreAndLog i (Method Sec).1 Lines C).
Proof.
  intros Hi. unfold Invoke.
  rewrite (Bind_Returned _ _ _ _ _
             (Deref_Some _ _ _ (SectionAt_StoreAndLog i C Sec Lines Hi))).
  destruct (Method Sec) as [Sec' Value]. cbn.
  unfold StoreAndLog, SetSlot. destruct C. cbn. by rewrite list_insert_insert_eq.
Qed.

Lemma Log_StoreAndLog i C Sec Lines Text bIsError :
  Log Text bIsError (StoreAndLog i Sec Lines C)
  = Returned () (StoreAndLog i Sec (Lines ++ [(bIsError, Text)]) C).
Proof. unfold Log, Modify, StoreAndLog. destruct C. cbn. by rewrite app_assoc. Qed.

(** *** An update, run on the whole component *)

(** Runs a chain of member calls and log lines on a component of the
    form [StoreAndLog i Sec Lines C]. *)
Ltac run_body Hi :=
  unfold Bind, Return;
  repeat first
    [ rewrite (Invoke_StoreAndLog _ _ _ _ _ Hi)
    | rewrite Log_StoreAndLog
    | progress cbn beta iota ].

(** What an update does to the component once its checks have passed:
    the early return of the guard, or every part stored and every empty
    parameter logged and then the finaliser, or nothing but the
    warnings. *)
Lemma RunUpdate_exact (u : EUpdateCall VertexType) C Sec :
  SectionAt (UpdateIndex u) C = Some Sec →
  VertexTypeInfo Sec = UpdateVertexType u →
  UpdateParametersValid u Sec = true →
  RunUpdate u C
  = if UpdateGuardRejects u Sec
    then Returned () (StoreAndLog (UpdateIndex u) Sec [LengthGuardError] C)
    else if UpdateSuppliesAny u
    then UpdateSectionInternal (UpdateIndex u)
           (bool_decide (0 < Num (UpdatePositions u)))
           (bool_decide (0 < Num (UpdateVertices u)))
           (bool_decide (0 < Num (UpdateTriangles u)))
           (UpdateNeedsBounds u Sec)
           (StoreAndLog (UpdateIndex u) (UpdatedSection u Sec) (UpdateWarnings u) C)
    else Returned () (StoreAndLog (UpdateIndex u) Sec (UpdateWarnings u) C).
Proof.
  intros HS HVT HValid. pose proof (SectionAt_Some _ _ _ HS) as [Hi _].
  destruct u; cbn [RunUpdate UpdateIndex UpdateVertexType] in *;
    unfold UpdateParametersValid in HValid;
    apply andb_true_iff in HValid as [HDual HBox]; cbn in HDual, HBox;
    unfold_updates;
    (rewrite Bind_unit_eq
       by (first [ by rewrite RMC_VALIDATE_UPDATEPARAMETERS_spec, HS
                 | by rewrite RMC_VALIDATE_UPDATEPARAMETERS_DUALBUFFER_spec, HS, HDual ]));
    try (rewrite Bind_unit_eq by (by rewrite RMC_VALIDATE_BOUNDINGBOX_spec, HBox));
    (rewrite Bind_unit_eq
       by (by rewrite (EnsureEquals_spec _ _ _ _ HS), bool_decide_true));
    rewrite (Bind_Returned _ _ _ _ _ (Deref_Some _ _ _ HS));
    cbn zeta;
    unfold UpdateGuardRejects, UpdateSuppliesAny, UpdateNeedsBounds, UpdatedSection,
      ApplyTriangles, ApplyVertices, ApplyPositions, UpdateWarnings;
    cbn [UpdateIsDualOverload UpdatePositions UpdateVertices UpdateTriangles
         UpdateBoundingBox UpdateHasTriangles andb negb orb].
  all: match goal with
       | |- (if ?g then _ else _) _ = _ => destruct g eqn:HGuard
       end.
  all: try (rewrite (StoreAndLog_same _ _ _ _ HS); reflexivity).
  all: rewrite <- (StoreAndLog_nil _ _ _ HS) at 1.
  all: repeat match goal with
              | |- context [bool_decide (0 < Num ?l)] =>
                  destruct (bool_decide (0 < Num l)) eqn:?
              end.
  all: try match goal with
           | H : bool_decide (0 < Num []) = true |- _ => by vm_compute in H
           end.
  all: run_body Hi; cbn [orb app]; reflexivity.
Qed.

(** *** The first check that fails *)

Lemma FirstFailedCreateCheck_None (c : ECreateCall VertexType) :
  FirstFailedCreateCheck c = None → CreateValid c.
Proof.
  unfold FirstFailedCreateCheck, CreateValid.
  destruct (bool_decide (0 ≤ CreateIndex c)) eqn:Hi; cbn [negb]; [|done].
  destruct (bool_decide (0 < Num (CreateVertices c))) eqn:HV; cbn [negb]; [|done].
  destruct (bool_decide (0 < Num (CreateTriangles c))) eqn:HT; cbn [negb]; [|done].
  apply bool_decide_eq_true in Hi, HV, HT. apply Num_nil_iff in HV, HT.
  destruct (CreateIsDual c) eqn:HDual; cbn [andb].
  - destruct (bool_decide (Num (CreatePositions c) = Num (CreateVertices c))) eqn:HP;
      cbn [negb]; [|done].
    apply bool_decide_eq_true, Num_eq_iff in HP.
    destruct (CreateBoundingBox c) as [Box|]; [destruct (IsValid Box) eqn:HBox|]; try done.
    all: intros _; split_and!; try done.
    by intros ? [= <-].
  - destruct (CreateBoundingBox c) as [Box|]; [destruct (IsValid Box) eqn:HBox|]; try done.
    all: intros _; split_and!; try done.
    by intros ? [= <-].
Qed.

(** The checks of a create overload run in the order of
    [FirstFailedCreateCheck], and the first that fails stops the call. *)
Lemma RunCreate_halts_at_the_first_failed_check (c : ECreateCall VertexType) C Message :
  FirstFailedCreateCheck c = Some Message →
  RunCreate c C = Halted (AssertionFailed Message) C.
Proof.
  unfold FirstFailedCreateCheck.
  destruct c as [VT i Vs Ts bC F U|VT i Vs Ts Box bC F U
                |VT i Ps Vs Ts bC F U|VT i Ps Vs Ts Box bC F U];
    cbn [RunCreate CreateIndex CreateVertices CreateTriangles CreatePositions
         CreateIsDual CreateBoundingBox andb];
    unfold CreateMeshSection, CreateMeshSection_Box, CreateMeshSectionDualBuffer,
      CreateMeshSectionDualBuffer_Box, RMC_VALIDATE_CREATIONPARAMETERS_DUALBUFFER,
      RMC_VALIDATE_CREATIONPARAMETERS, RMC_VALIDATE_BOUNDINGBOX, Bind, check.
  all: destruct (bool_decide (0 ≤ i)); cbn [negb]; [|by intros [= <-]].
  all: destruct (bool_decide (0 < Num Vs)); cbn [negb]; [|by intros [= <-]].
  all: destruct (bool_decide (0 < Num Ts)); cbn [negb]; [|by intros [= <-]].
  all: try (destruct (bool_decide (Num Ps = Num Vs)); cbn [negb]; [|by intros [= <-]]).
  all: try (destruct (IsValid Box); [|by intros [= <-]]).
  all: done.
Qed.

(** X1: a create call halts at the first of its checks that fails, in
    the order of the macros (section index, vertex array, triangle array,
    length of the position array, bounding box), with the text of that
    check and an untouched component.  When no check fails and the
    registry can hold the slot (the slot lies within the array already,
    or [SectionIndex + 1] is an [int32]), the call returns. *)
Theorem create_halts_at_its_first_failed_check (c : ECreateCall VertexType) C :
  match FirstFailedCreateCheck c with
  | Some Message => RunCreate c C = Halted (AssertionFailed Message) C
  | None => SlotIsReachable (CreateIndex c) C → ∃ C', RunCreate c C = Returned () C'
  end.
Proof.
  destruct (FirstFailedCreateCheck c) as [Message|] eqn:HFirst.
  - by apply RunCreate_halts_at_the_first_failed_check.
  - apply FirstFailedCreateCheck_None in HFirst.
    intros HReach. destruct (RunCreate_valid c C HFirst HReach) as (C' & Hrun & _).
    by exists C'.
Qed.

Lemma SectionAt_negative i C : i < 0 → SectionAt i C = None.
Proof. intros Hi. unfold SectionAt, SlotAt. by rewrite bool_decide_false by lia. Qed.

(** The checks of an update overload run in the order of
    [FirstFailedUpdateCheck], and the first that fails stops the call. *)
Lemma RunUpdate_halts_at_the_first_failed_check (u : EUpdateCall VertexType) C Message :
  FirstFailedUpdateCheck u C = Some Message →
  RunUpdate u C = Halted (AssertionFailed Message) C.
Proof.
  unfold FirstFailedUpdateCheck. case_bool_decide as Hi; cbn [negb].
  - destruct (SectionAt (UpdateIndex u) C) as [Sec|] eqn:HS.
    + destruct (IsDualBufferSection Sec) eqn:HDual.
      * rewrite andb_false_r.
        destruct (UpdateBoundingBox u) as [Box|] eqn:HBox; [|done].
        destruct (IsValid Box) eqn:HValid; [done|]. intros [= <-].
        destruct u; cbn [RunUpdate UpdateIndex UpdateBoundingBox] in *; try done;
          injection HBox as ->; unfold_updates;
          (rewrite Bind_unit_eq
             by (first [ by rewrite RMC_VALIDATE_UPDATEPARAMETERS_spec, HS
                       | by rewrite RMC_VALIDATE_UPDATEPARAMETERS_DUALBUFFER_spec, HS,
                              HDual ]));
          apply Bind_Halted; by rewrite RMC_VALIDATE_BOUNDINGBOX_spec, HValid.
      * rewrite andb_true_r. destruct (UpdateIsDualOverload u) eqn:HOverload.
        -- intros [= <-].
           destruct u; cbn [RunUpdate UpdateIndex UpdateIsDualOverload] in *; try done;
             unfold_updates; apply Bind_Halted;
             by rewrite RMC_VALIDATE_UPDATEPARAMETERS_DUALBUFFER_spec, HS, HDual.
        -- destruct (UpdateBoundingBox u) as [Box|] eqn:HBox; [|done].
           destruct (IsValid Box) eqn:HValid; [done|]. intros [= <-].
           destruct u; cbn [RunUpdate UpdateIndex UpdateBoundingBox
                            UpdateIsDualOverload] in *; try done;
             injection HBox as ->; unfold_updates;
             (rewrite Bind_unit_eq by (by rewrite RMC_VALIDATE_UPDATEPARAMETERS_spec, HS));
             apply Bind_Halted; by rewrite RMC_VALIDATE_BOUNDINGBOX_spec, HValid.
    + intros [= <-].
      destruct u; cbn [RunUpdate UpdateIndex] in *; unfold_updates; apply Bind_Halted;
        first [ by rewrite RMC_VALIDATE_UPDATEPARAMETERS_spec, HS, bool_decide_true
              | by rewrite RMC_VALIDATE_UPDATEPARAMETERS_DUALBUFFER_spec, HS,
                     bool_decide_true ].
  - intros [= <-].
    assert (SectionAt (UpdateIndex u) C = None) as HS by (apply SectionAt_negative; lia).
    destruct u; cbn [RunUpdate UpdateIndex] in *; unfold_updates; apply Bind_Halted;
      first [ by rewrite RMC_VALIDATE_UPDATEPARAMETERS_spec, HS, bool_decide_false
            | by rewrite RMC_VALIDATE_UPDATEPARAMETERS_DUALBUFFER_spec, HS,
                   bool_decide_false ].
Qed.

Lemma FirstFailedUpdateCheck_None (u : EUpdateCall VertexType) C :
  FirstFailedUpdateCheck u C = None →
  ∃ Sec, SectionAt (UpdateIndex u) C = Some Sec ∧ UpdateParametersValid u Sec = true.
Proof.
  unfold FirstFailedUpdateCheck, UpdateParametersValid.
  case_bool_decide; cbn [negb]; [|done].
  destruct (SectionAt (UpdateIndex u) C) as [Sec|]; [|done].
  intros HNone. exists Sec. split; [done|].
  destruct (UpdateIsDualOverload u), (IsDualBufferSection Sec); cbn in *; try done.
  all: destruct (UpdateBoundingBox u) as [Box|]; [|done]; by destruct (IsValid Box).
Qed.

(** C8, as the code has it: every typed update overload compares the
    vertex type of the call with the one recorded in the section before
    it mutates anything, and after the parameter assertions of its
    validation macros.  On a mismatch the call halts with the component
    exactly as it was: with the first failed assertion when one of the
    parameter assertions fails (the section is not dual buffer for an
    overload with a position array, the bounding box is not valid), and
    with the layout mismatch of the recorded and the requested type when
    they all hold. *)
Theorem update_with_wrong_vertex_type_is_rejected (u : EUpdateCall VertexType) C Sec :
  SectionAt (UpdateIndex u) C = Some Sec →
  VertexTypeInfo Sec ≠ UpdateVertexType u →
  RunUpdate u C
  = Halted (match FirstFailedUpdateCheck u C with
            | Some Message => AssertionFailed Message
            | None => LayoutMismatch (VertexTypeInfo Sec) (UpdateVertexType u)
            end) C.
Proof.
  intros HS HVT. destruct (FirstFailedUpdateCheck u C) as [Message|] eqn:HFirst.
  - by apply RunUpdate_halts_at_the_first_failed_check.
  - apply FirstFailedUpdateCheck_None in HFirst as (Sec0 & HS0 & HValid).
    rewrite HS in HS0. injection HS0 as <-.
    by apply RunUpdate_layout_mismatch.
Qed.

(** X2: an update call fails an assertion exactly when one of the
    checks at its head fails, and then it halts at the first of them, in
    the order of the macros (negative index, no section in the slot, not a
    dual-buffer section for the overloads with a position array, invalid
    bounding box), with the text of that check and an untouched
    component. *)
Theorem update_halts_at_its_first_failed_check (u : EUpdateCall VertexType) C :
  match FirstFailedUpdateCheck u C with
  | Some Message => RunUpdate u C = Halted (AssertionFailed Message) C
  | None => ∀ Message C', RunUpdate u C ≠ Halted (AssertionFailed Message) C'
  end.
Proof.
  destruct (FirstFailedUpdateCheck u C) as [Message|] eqn:HFirst.
  - by apply RunUpdate_halts_at_the_first_failed_check.
  - apply FirstFailedUpdateCheck_None in HFirst as (Sec & HS & HValid).
    intros Message C'.
    destruct (decide (VertexTypeInfo Sec = UpdateVertexType u)) as [HVT|HVT].
    + destruct (RunUpdate_accepted u C Sec HS HVT HValid) as (C1 & -> & _). done.
    + by rewrite (RunUpdate_layout_mismatch u C Sec HS HValid HVT).
Qed.

(** *** Creating a section: the slot, the other slots, the size of the registry *)

Lemma CreateOrResetSection_exact VT i bDual bInternal C :
  0 ≤ i →
  SlotIsReachable i C →
  ∃ C1, CreateOrResetSection VT i bDual bInternal C = Returned i C1
        ∧ SectionAt i C1 = Some (Set_bIsInternalSectionType bInternal (NewSection VT bDual))
        ∧ (∀ j, j ≠ i → SectionAt j C1 = SectionAt j C)
        ∧ Num (MeshSections C1) = Z.max (Num (MeshSections C)) (i + 1)
        ∧ C1 = Set_MeshSections (MeshSections C1) C.
Proof.
  intros Hi HReach.
  unfold CreateOrResetSection, Bind, Gets, Modify, Return, check, SectionAt.
  pose proof (Num_nonneg (MeshSections C)) as HNum.
  case_bool_decide as Hgrow; cbn.
  - rewrite Int32Add_Some
      by (destruct HReach; unfold MIN_int32, MAX_int32 in *; lia).
    cbn. unfold SetNum. rewrite !(bool_decide_false (i + 1 ≤ _)) by lia.
    set (Grown := (MeshSections C ++ replicate _ None)%list).
    assert (Num Grown = i + 1) as HGrown.
    { unfold Grown, Num in *. rewrite length_app, length_replicate. lia. }
    rewrite bool_decide_true by lia. cbn.
    eexists. split; [done|]. cbn. split_and!.
    + apply SlotAt_insert_eq. lia.
    + intros j Hj. rewrite SlotAt_insert_ne by done. apply SlotAt_app_replicate_None.
    + unfold Num in *. rewrite length_insert. lia.
    + done.
  - rewrite bool_decide_true by lia. cbn.
    eexists. split; [done|]. cbn. split_and!.
    + apply SlotAt_insert_eq. lia.
    + intros j Hj. by rewrite SlotAt_insert_ne.
    + unfold Num in *. rewrite length_insert. lia.
    + done.
Qed.

(** X3: [CreateOrResetSection] on a non-negative index of a slot the
    registry can hold (a slot within the array already, or an index below
    [MAX_int32], so that [SectionIndex + 1] is an [int32]) returns that
    index with a newly constructed section in its slot, whatever the slot
    held.  Every other slot is as it was; the registry is as long as
    before, or reaches just to the index when that lay beyond its end;
    nothing else of the component is touched. *)
Theorem CreateOrResetSection_fills_its_slot_and_no_other VT i bDual bInternal C :
  0 ≤ i →
  SlotIsReachable i C →
  ∃ C1, CreateOrResetSection VT i bDual bInternal C = Returned i C1
        ∧ SectionAt i C1 = Some (Set_bIsInternalSectionType bInternal (NewSection VT bDual))
        ∧ (∀ j, j ≠ i → SectionAt j C1 = SectionAt j C)
        ∧ Num (MeshSections C1) = Z.max (Num (MeshSections C)) (i + 1)
        ∧ C1 = Set_MeshSections (MeshSections C1) C.
Proof. intros Hi HReach. by apply CreateOrResetSection_exact. Qed.

Lemma Step_run_whole i (m : TCall (URuntimeMeshComponent VertexType) ()) f C C1 Sec Target :
  Step i m f →
  SectionAt i C1 = Some Sec →
  (∀ j, j ≠ i → SectionAt j C1 = SectionAt j C) →
  (f Sec).1.1 = Target →
  (f Sec).2 = [] →
  ∃ C', m C1 = Returned () C'
        ∧ SectionAt i C' = Some Target
        ∧ (∀ j, j ≠ i → SectionAt j C' = SectionAt j C)
        ∧ Num (MeshSections C') = Num (MeshSections C1)
        ∧ LogOutput C' = LogOutput C1.
Proof.
  intros Hm HS Hother <- HLines.
  destruct (Hm C1 Sec HS) as (C' & Hrun & Hsec & Hlog).
  pose proof (SectionAt_Some _ _ _ HS) as [Hi _].
  exists C'. split; [rewrite Hrun; by destruct (f Sec).1.2|].
  split; [by eapply SectionAt_inserted|]. split_and!.
  - intros j Hj. rewrite <- Hother by done. unfold SectionAt. rewrite Hsec.
    apply SlotAt_insert_ne; [lia|done].
  - rewrite Hsec. unfold Num. by rewrite length_insert.
  - by rewrite Hlog, HLines, app_nil_r.
Qed.

(** A valid create call on the whole registry: the slot, the other
    slots, the length, the log. *)
Lemma RunCreate_whole (c : ECreateCall VertexType) C :
  CreateValid c →
  SlotIsReachable (CreateIndex c) C →
  ∃ C', RunCreate c C = Returned () C'
        ∧ SectionAt (CreateIndex c) C' = Some (CreatedSection c)
        ∧ (∀ j, j ≠ CreateIndex c → SectionAt j C' = SectionAt j C)
        ∧ Num (MeshSections C') = Z.max (Num (MeshSections C)) (CreateIndex c + 1)
        ∧ LogOutput C' = LogOutput C.
Proof.
  intros (Hi & HV & HT & HBox & HDual) HReach.
  destruct c as [VT i Vs Ts bC F U|VT i Vs Ts Box bC F U
                |VT i Ps Vs Ts bC F U|VT i Ps Vs Ts Box bC F U];
    cbn [RunCreate CreateIndex] in *; cbn in HV, HT, HBox, HDual;
    unfold CreateMeshSection, CreateMeshSection_Box, CreateMeshSectionDualBuffer,
      CreateMeshSectionDualBuffer_Box.
  all: try (specialize (HBox _ eq_refl)); try (specialize (HDual eq_refl)).
  all: (rewrite Bind_unit_eq;
        [|first [ destruct (RMC_VALIDATE_CREATIONPARAMETERS_spec i Vs Ts C)
                    as [(_ & _ & _ & Heq)|[[?|[?|?]] _]]; [exact Heq|lia|done|done]
                | destruct (RMC_VALIDATE_CREATIONPARAMETERS_DUALBUFFER_spec i Vs Ts Ps C)
                    as [(_ & _ & _ & _ & Heq)|[[?|[?|[?|?]]] _]];
                  [exact Heq|lia|done|done|done] ]]).
  all: try (rewrite Bind_unit_eq by (by rewrite RMC_VALIDATE_BOUNDINGBOX_spec, HBox)).
  all: (edestruct (CreateOrResetSection_exact) as (C1 & Hrun1 & HS1 & Hother1 & HNum1 & HRest1);
        [exact Hi|exact HReach|rewrite (Bind_Returned _ _ _ _ _ Hrun1)]).
  all: cbn beta zeta.
  all: rewrite <- HNum1.
  all: replace (LogOutput C) with (LogOutput C1) by (by rewrite HRest1).
  all: (eapply Step_run_whole; [repeat step_rule|exact HS1|exact Hother1|..]).
  all: done.
Qed.

(** A create call that returns has passed its checks, named a slot the
    registry can hold, and left [CreatedSection] in that slot. *)
Lemma RunCreate_Returned_whole (c : ECreateCall VertexType) C C' :
  RunCreate c C = Returned () C' →
  CreateValid c
  ∧ SlotIsReachable (CreateIndex c) C
  ∧ SectionAt (CreateIndex c) C' = Some (CreatedSection c).
Proof.
  intros Hrun. pose proof (RunCreate_Returned_valid c C C' Hrun) as HValid.
  destruct (SlotIsReachable_dec (CreateIndex c) C) as [HReach|HReach];
    [|by rewrite (RunCreate_overflow c C HValid HReach) in Hrun].
  destruct (RunCreate_whole c C HValid HReach) as (C1 & Hrun1 & HS & _).
  rewrite Hrun in Hrun1. injection Hrun1 as <-. done.
Qed.

(** X4: a create call that passes its checks and names a slot the
    registry can hold (a slot within the array already, or an index below
    [MAX_int32]) stores what it was given: afterwards the section in its
    slot has the vertex type and buffer layout of the overload and holds
    the vertex array, the triangle array and (dual-buffer creates) the
    position array of the call.  No other slot changes, the registry is
    as long as before or reaches just to the new index, and nothing is
    logged. *)
Theorem create_stores_its_arrays_and_touches_no_other_slot (c : ECreateCall VertexType) C :
  CreateValid c →
  SlotIsReachable (CreateIndex c) C →
  ∃ C' Sec,
    RunCreate c C = Returned () C'
    ∧ SectionAt (CreateIndex c) C' = Some Sec
    ∧ VertexTypeInfo Sec = CreateVertexType c
    ∧ IsDualBufferSection Sec = CreateIsDual c
    ∧ VertexBuffer Sec = CreateVertices c
    ∧ IndexBuffer Sec = CreateTriangles c
    ∧ PositionVertexBuffer Sec = (if CreateIsDual c then CreatePositions c else [])
    ∧ (∀ j, j ≠ CreateIndex c → SectionAt j C' = SectionAt j C)
    ∧ Num (MeshSections C') = Z.max (Num (MeshSections C)) (CreateIndex c + 1)
    ∧ LogOutput C' = LogOutput C.
Proof.
  intros HValid HReach.
  destruct (RunCreate_whole c C HValid HReach) as (C' & Hrun & HS & Hother & HNum & HLog).
  exists C', (CreatedSection c). by split_and!.
Qed.

(** *** The legacy validation *)

Lemma RMC_VALIDATE_UPDATEPARAMETERS_INTERNALSECTION_spec i C :
  RMC_VALIDATE_UPDATEPARAMETERS_INTERNALSECTION i C
  = match SectionAt i C with
    | Some Sec =>
        if bIsInternalSectionType Sec then Returned () C
        else Halted (AssertionFailed "Section is not of legacy type.") C
    | None =>
        Halted (AssertionFailed (if bool_decide (0 ≤ i) then "Invalid SectionIndex."
                                 else "SectionIndex cannot be negative.")) C
    end.
Proof.
  unfold RMC_VALIDATE_UPDATEPARAMETERS_INTERNALSECTION, Bind at 1.
  rewrite RMC_VALIDATE_UPDATEPARAMETERS_spec.
  destruct (SectionAt i C) as [Sec|] eqn:HS; [|done].
  rewrite (Bind_Returned _ _ _ _ _ (Deref_Some _ _ _ HS)).
  by destruct (bIsInternalSectionType Sec).
Qed.

(** X5: the section a typed create overload leaves is never of the
    legacy kind: whenever such a create call returns,
    [RMC_VALIDATE_UPDATEPARAMETERS_INTERNALSECTION] on its index fails its
    last check, while the plain update validation passes on it. *)
Theorem typed_sections_fail_the_legacy_validation (c : ECreateCall VertexType) C C' :
  RunCreate c C = Returned () C' →
  RMC_VALIDATE_UPDATEPARAMETERS (CreateIndex c) C' = Returned () C'
  ∧ RMC_VALIDATE_UPDATEPARAMETERS_INTERNALSECTION (CreateIndex c) C'
    = Halted (AssertionFailed "Section is not of legacy type.") C'.
Proof.
  intros Hrun. apply RunCreate_Returned_whole in Hrun as (_ & _ & HS).
  rewrite RMC_VALIDATE_UPDATEPARAMETERS_spec,
    RMC_VALIDATE_UPDATEPARAMETERS_INTERNALSECTION_spec, HS. done.
Qed.

(** *** What an update leaves alone *)

Lemma UpdateOutcome_keeps_everything_but_the_buffers (u : EUpdateCall VertexType) Sec :
  VertexTypeInfo (UpdateOutcome u Sec).1 = VertexTypeInfo Sec
  ∧ IsDualBufferSection (UpdateOutcome u Sec).1 = IsDualBufferSection Sec
  ∧ bIsInternalSectionType (UpdateOutcome u Sec).1 = bIsInternalSectionType Sec
  ∧ CollisionEnabled (UpdateOutcome u Sec).1 = CollisionEnabled Sec
  ∧ UpdateFrequency (UpdateOutcome u Sec).1 = UpdateFrequency Sec
  ∧ bIsVisible (UpdateOutcome u Sec).1 = bIsVisible Sec
  ∧ bCastsShadow (UpdateOutcome u Sec).1 = bCastsShadow Sec.
Proof.
  unfold UpdateOutcome. destruct (UpdateGuardRejects u Sec); cbn [fst]; [done|].
  unfold UpdatedSection, ApplyTriangles, ApplyVertices, ApplyPositions,
    UpdateVertexBuffer, UpdateVertexPositionBuffer, IsDualBufferSection.
  repeat case_bool_decide; repeat case_match; done.
Qed.

(** X6: an update call, however it ends, changes nothing of the
    registry but the buffers and bounds of the section it names: the
    registry keeps its length, every other slot is as it was, the section
    keeps its vertex type, its buffer layout and its collision, update
    frequency, visibility and shadow flags, and an update of a slot that
    holds no section leaves the component untouched. *)
Theorem update_changes_only_the_buffers_of_its_section (u : EUpdateCall VertexType) C :
  Num (MeshSections (ComponentOf (RunUpdate u C))) = Num (MeshSections C)
  ∧ (∀ j, j ≠ UpdateIndex u → SectionAt j (ComponentOf (RunUpdate u C)) = SectionAt j C)
  ∧ match SectionAt (UpdateIndex u) C with
    | None => ComponentOf (RunUpdate u C) = C
    | Some Sec =>
        ∃ Sec', SectionAt (UpdateIndex u) (ComponentOf (RunUpdate u C)) = Some Sec'
          ∧ VertexTypeInfo Sec' = VertexTypeInfo Sec
          ∧ IsDualBufferSection Sec' = IsDualBufferSection Sec
          ∧ bIsInternalSectionType Sec' = bIsInternalSectionType Sec
          ∧ CollisionEnabled Sec' = CollisionEnabled Sec
          ∧ UpdateFrequency Sec' = UpdateFrequency Sec
          ∧ bIsVisible Sec' = bIsVisible Sec
          ∧ bCastsShadow Sec' = bCastsShadow Sec
    end.
Proof.
  destruct (RunUpdate_cases u C)
    as [[Reason Hhalt]|(Sec & C' & HS & _ & _ & Hrun & Hsec & _)].
  - rewrite Hhalt. cbn [ComponentOf]. split; [done|]. split; [done|].
    destruct (SectionAt (UpdateIndex u) C) as [Sec|]; [|done]. by exists Sec.
  - rewrite Hrun, HS. cbn [ComponentOf].
    pose proof (SectionAt_Some _ _ _ HS) as [Hi _]. split_and!.
    + rewrite Hsec. unfold Num. by rewrite length_insert.
    + intros j Hj. unfold SectionAt. rewrite Hsec. apply SlotAt_insert_ne; [lia|done].
    + exists (UpdateOutcome u Sec).1. split; [by eapply SectionAt_inserted|].
      apply UpdateOutcome_keeps_everything_but_the_buffers.
Qed.

(** *** Updates that store nothing *)

(** X7: an update the length guard rejects does nothing but log the
    guard's error: the call returns, and the component differs from the
    one before only by that one line at error level.  Nothing is stored,
    and the section is not handed to the finaliser. *)
Theorem guard_rejected_update_only_logs_the_error (u : EUpdateCall VertexType) C Sec :
  SectionAt (UpdateIndex u) C = Some Sec →
  VertexTypeInfo Sec = UpdateVertexType u →
  UpdateParametersValid u Sec = true →
  UpdateGuardRejects u Sec = true →
  RunUpdate u C = Returned () (Set_LogOutput (LogOutput C ++ [LengthGuardError]) C).
Proof.
  intros HS HVT HValid HGuard.
  rewrite (RunUpdate_exact u C Sec HS HVT HValid), HGuard.
  by rewrite (StoreAndLog_same _ _ _ _ HS).
Qed.

(** X8: an update whose arrays are all empty does nothing but log: the
    call returns, and the component differs from the one before only by
    the lines logged (one warning for each empty parameter, or the
    guard's error).  The section is not handed to the finaliser. *)
Theorem update_without_data_only_logs (u : EUpdateCall VertexType) C Sec :
  SectionAt (UpdateIndex u) C = Some Sec →
  VertexTypeInfo Sec = UpdateVertexType u →
  UpdateParametersValid u Sec = true →
  UpdateSuppliesAny u = false →
  RunUpdate u C
  = Returned () (Set_LogOutput (LogOutput C ++ (UpdateOutcome u Sec).2) C).
Proof.
  intros HS HVT HValid HNone.
  rewrite (RunUpdate_exact u C Sec HS HVT HValid), HNone. unfold UpdateOutcome.
  destruct (UpdateGuardRejects u Sec); cbn [snd]; by rewrite (StoreAndLog_same _ _ _ _ HS).
Qed.

(** X9: an update that passes its checks and the length guard and
    supplies at least one non-empty array ends in exactly one call of
    [UpdateSectionInternal], made after every supplied array is stored
    and every empty parameter is logged; its flags say which arrays were
    supplied (positions, vertices, indices), and its last flag is what the
    position setter returned in the overloads with a position array and
    what the vertex setter returned in the others. *)
Theorem accepted_update_is_finalised_once_with_the_parts_supplied
    (u : EUpdateCall VertexType) C Sec :
  SectionAt (UpdateIndex u) C = Some Sec →
  VertexTypeInfo Sec = UpdateVertexType u →
  UpdateParametersValid u Sec = true →
  UpdateGuardRejects u Sec = false →
  UpdateSuppliesAny u = true →
  RunUpdate u C
  = UpdateSectionInternal (UpdateIndex u)
      (bool_decide (UpdatePositions u ≠ []))
      (bool_decide (UpdateVertices u ≠ []))
      (bool_decide (UpdateTriangles u ≠ []))
      (UpdateNeedsBounds u Sec)
      (StoreAndLog (UpdateIndex u) (UpdatedSection u Sec) (UpdateWarnings u) C).
Proof.
  intros HS HVT HValid HGuard HAny.
  rewrite (RunUpdate_exact u C Sec HS HVT HValid), HGuard, HAny.
  by rewrite !(bool_decide_ext _ _ (Num_nil_iff _)).
Qed.

(** *** An empty triangle array against the overload without triangles *)

(** The finaliser does not read the log. *)
Lemma UpdateSectionInternal_AgreeButLog i b1 b2 b3 b4 C Sec Lines1 Lines2 :
  0 ≤ i < Num (MeshSections C) →
  AgreeButLog (UpdateSectionInternal i b1 b2 b3 b4 (StoreAndLog i Sec Lines1 C))
              (UpdateSectionInternal i b1 b2 b3 b4 (StoreAndLog i Sec Lines2 C)).
Proof.
  intros Hi. unfold UpdateSectionInternal.
  rewrite !(Bind_Returned _ _ _ _ _
              (Deref_Some _ _ _ (SectionAt_StoreAndLog i C Sec _ Hi))).
  unfold MarkCollisionDirty, SynchronizeOrDefer, Bind, Modify, Return, StoreAndLog,
    SetSlot, SectionAt, AgreeButLog.
  destruct C as [Sections [bPending Touched] bDirty CollisionSections Convex bEnabled
                   Body Lines Syncs Requests].
  by destruct (CollisionEnabled Sec), bEnabled, bPending.
Qed.

(** X10: passing an empty triangle array to an overload with a triangle
    parameter is the same as calling the overload without that parameter:
    the two calls end the same way, with the same halt or the same
    component, up to the lines they log. *)
Theorem empty_triangles_are_as_the_overload_without_triangles
    (u : EUpdateCall VertexType) C :
  UpdateTriangles u = [] →
  AgreeButLog (RunUpdate u C) (RunUpdate (WithoutTriangles u) C).
Proof.
  intros HT.
  assert (FirstFailedUpdateCheck (WithoutTriangles u) C = FirstFailedUpdateCheck u C)
    as HSameCheck by (by destruct u).
  destruct (FirstFailedUpdateCheck u C) as [Message|] eqn:HFirst.
  { rewrite (RunUpdate_halts_at_the_first_failed_check u C Message HFirst),
      (RunUpdate_halts_at_the_first_failed_check _ C Message HSameCheck). done. }
  apply FirstFailedUpdateCheck_None in HFirst as (Sec & HS & HValid).
  pose proof (SectionAt_Some _ _ _ HS) as [Hi _].
  assert (SectionAt (UpdateIndex (WithoutTriangles u)) C = Some Sec) as HS'
    by (by destruct u).
  assert (UpdateParametersValid (WithoutTriangles u) Sec = true) as HValid'
    by (by destruct u).
  destruct (decide (VertexTypeInfo Sec = UpdateVertexType u)) as [HVT|HVT].
  - assert (VertexTypeInfo Sec = UpdateVertexType (WithoutTriangles u)) as HVT'
      by (by destruct u).
    rewrite (RunUpdate_exact u C Sec HS HVT HValid),
      (RunUpdate_exact _ C Sec HS' HVT' HValid').
    destruct u; cbn [UpdateTriangles] in HT; subst;
      cbn [WithoutTriangles UpdateIndex] in *.
    all: unfold UpdateGuardRejects, UpdateSuppliesAny, UpdateNeedsBounds, UpdatedSection,
           ApplyTriangles, ApplyVertices, ApplyPositions;
         cbn [UpdateIsDualOverload UpdatePositions UpdateVertices UpdateTriangles
              UpdateBoundingBox].
    all: repeat match goal with
                | |- context [if ?b then _ else _] => destruct b
                end.
    all: first [ by apply UpdateSectionInternal_AgreeButLog
               | unfold AgreeButLog, StoreAndLog, SetSlot; by destruct C ].
  - assert (VertexTypeInfo Sec ≠ UpdateVertexType (WithoutTriangles u)) as HVT'
      by (by destruct u).
    rewrite (RunUpdate_layout_mismatch u C Sec HS HValid HVT),
      (RunUpdate_layout_mismatch _ C Sec HS' HValid' HVT').
    split; [by destruct u|done].
Qed.

(** *** Repeating an update *)

(** The section an update leaves is a fixed point of that update. *)
Lemma UpdateOutcome_idempotent (u : EUpdateCall VertexType) Sec :
  (UpdateOutcome u (UpdateOutcome u Sec).1).1 = (UpdateOutcome u Sec).1.
Proof.
  unfold UpdateOutcome.
  destruct (UpdateGuardRejects u Sec) eqn:HGuard; cbn [fst]; [by rewrite HGuard|].
  assert (UpdateGuardRejects u (UpdatedSection u Sec) = false) as ->.
  { unfold UpdateGuardRejects in *.
    assert (IsDualBufferSection (UpdatedSection u Sec) = IsDualBufferSection Sec) as ->.
    { unfold UpdatedSection, ApplyTriangles, ApplyVertices, ApplyPositions,
        UpdateVertexBuffer, UpdateVertexPositionBuffer, IsDualBufferSection.
      repeat case_bool_decide; repeat case_match; done. }
    rewrite UpdatedSection_VertexBuffer.
    destruct (IsDualBufferSection Sec); [|by destruct (UpdateIsDualOverload u)].
    cbn [andb] in *.
    destruct (bool_decide (UpdateVertices u = [])); [done|].
    rewrite (bool_decide_false (Num (UpdateVertices u) ≠ Num (UpdateVertices u)))
      by (by intros ?).
    by destruct (UpdateIsDualOverload u). }
  cbn [fst].
  unfold UpdatedSection, ApplyTriangles, ApplyVertices, ApplyPositions,
    UpdateVertexBuffer, UpdateVertexPositionBuffer, IsDualBufferSection.
  destruct Sec as [VT0 bDual bInternal Ps0 Vs0 Ts0 Box0 bC0 F0 bV0 bS0].
  destruct bDual; repeat case_bool_decide; cbn; done.
Qed.

(** X11: an update call that returns can be repeated: run again on the
    component it left, the same call returns again and leaves every
    section as the first run left it. *)
Theorem repeating_an_update_changes_no_section (u : EUpdateCall VertexType) C C1 :
  RunUpdate u C = Returned () C1 →
  ∃ C2, RunUpdate u C1 = Returned () C2 ∧ MeshSections C2 = MeshSections C1.
Proof.
  intros Hrun.
  destruct (RunUpdate_cases u C)
    as [[Reason Hhalt]|(Sec & C' & HS & HVT & HValid & Hrun' & Hsec & _)];
    [congruence|].
  rewrite Hrun in Hrun'. injection Hrun' as <-.
  pose proof (UpdateOutcome_keeps_everything_but_the_buffers u Sec)
    as (HVT1 & HDual1 & _).
  assert (SectionAt (UpdateIndex u) C1 = Some (UpdateOutcome u Sec).1) as HS1
    by (by eapply SectionAt_inserted).
  destruct (RunUpdate_accepted u C1 _ HS1) as (C2 & Hrun2 & Hsec2 & _).
  - congruence.
  - unfold UpdateParametersValid in *. by rewrite HDual1.
  - exists C2. split; [done|]. rewrite Hsec2, UpdateOutcome_idempotent.
    apply list_insert_id. by apply SectionAt_Some in HS1 as [_ ?].
Qed.

(** *** The vertex count of a section *)

(** X12: a section made by [CreateMeshSection], in a slot the registry
    can hold, has one buffer, and the length guard does not apply to it:
    afterwards every overload without
    a position array, called with the vertex type of the section (and a
    valid box, where it takes one), returns and stores each non-empty
    array it is given, whatever the length of the new vertex array; an
    empty array leaves the array of the create call in place. *)
Theorem single_buffer_section_takes_a_vertex_array_of_any_length
    (c : ECreateCall VertexType) (u : EUpdateCall VertexType) C :
  CreateValid c →
  SlotIsReachable (CreateIndex c) C →
  CreateIsDual c = false →
  UpdateIsDualOverload u = false →
  UpdateIndex u = CreateIndex c →
  UpdateVertexType u = CreateVertexType c →
  (∀ Box, UpdateBoundingBox u = Some Box → IsValid Box = true) →
  ∃ C1 C2 Sec',
    RunCreate c C = Returned () C1
    ∧ RunUpdate u C1 = Returned () C2
    ∧ SectionAt (CreateIndex c) C2 = Some Sec'
    ∧ VertexBuffer Sec'
      = (if bool_decide (UpdateVertices u = []) then CreateVertices c
         else UpdateVertices u)
    ∧ IndexBuffer Sec'
      = (if bool_decide (UpdateTriangles u = []) then CreateTriangles c
         else UpdateTriangles u).
Proof.
  intros HValid HReach HSingle HOverload Hi HVT HBox.
  destruct (RunCreate_whole c C HValid HReach) as (C1 & Hrun1 & HS1 & _).
  rewrite <- Hi in HS1.
  destruct (RunUpdate_accepted u C1 _ HS1) as (C2 & Hrun2 & Hsec2 & _).
  - by rewrite HVT.
  - unfold UpdateParametersValid. rewrite HOverload. cbn [andb].
    destruct (UpdateBoundingBox u) as [Box|]; [by apply HBox|done].
  - exists C1, C2, (UpdatedSection u (CreatedSection c)).
    split; [done|]. split; [done|].
    assert (UpdateOutcome u (CreatedSection c) = (UpdatedSection u (CreatedSection c),
                                                   UpdateWarnings u)) as HOutcome.
    { unfold UpdateOutcome, UpdateGuardRejects. rewrite HOverload.
      unfold IsDualBufferSection. cbn. by rewrite HSingle. }
    rewrite HOutcome in Hsec2. cbn [fst] in Hsec2.
    split; [rewrite <- Hi; by eapply SectionAt_inserted|].
    by rewrite UpdatedSection_VertexBuffer, UpdatedSection_IndexBuffer.
Qed.

(** X13: the overloads without a position array never change the
    vertex count of a dual-buffer section: however such a call ends, the
    section holds as many vertex entries as before, and its position
    array is the one it had. *)
Theorem single_array_update_keeps_the_vertex_count_of_a_dual_buffer_section
    (u : EUpdateCall VertexType) C Sec :
  UpdateIsDualOverload u = false →
  SectionAt (UpdateIndex u) C = Some Sec →
  IsDualBufferSection Sec = true →
  ∃ Sec', SectionAt (UpdateIndex u) (ComponentOf (RunUpdate u C)) = Some Sec'
    ∧ length (VertexBuffer Sec') = length (VertexBuffer Sec)
    ∧ PositionVertexBuffer Sec' = PositionVertexBuffer Sec.
Proof.
  intros HOverload HS HDual.
  destruct (RunUpdate_cases u C)
    as [[Reason Hhalt]|(Sec0 & C' & HS0 & _ & _ & Hrun & Hsec & _)].
  { rewrite Hhalt. cbn [ComponentOf]. by exists Sec. }
  rewrite HS in HS0. injection HS0 as <-. rewrite Hrun. cbn [ComponentOf].
  exists (UpdateOutcome u Sec).1. split; [by eapply SectionAt_inserted|].
  unfold UpdateOutcome. destruct (UpdateGuardRejects u Sec) eqn:HGuard; cbn [fst]; [done|].
  rewrite UpdatedSection_PositionVertexBuffer, UpdatedSection_VertexBuffer.
  assert (UpdatePositions u = []) as -> by (by destruct u).
  rewrite (bool_decide_true (@nil FVector = [])) by done. split; [|done].
  case_bool_decide as HV; [done|].
  unfold UpdateGuardRejects in HGuard. rewrite HOverload, HDual in HGuard.
  cbn in HGuard. apply bool_decide_eq_false in HGuard.
  apply dec_stable in HGuard. by apply Num_eq_iff in HGuard.
Qed.

(** X14: on a dual-buffer section, an overload with a position array
    that is given a position array and a vertex array of one length, not
    0, is applied whatever the lengths stored: the call returns, both
    arrays are stored, and the two parallel arrays of the section have
    one length afterwards. *)
Theorem dual_update_with_arrays_of_one_length_is_applied
    (u : EUpdateCall VertexType) C Sec :
  UpdateIsDualOverload u = true →
  SectionAt (UpdateIndex u) C = Some Sec →
  VertexTypeInfo Sec = UpdateVertexType u →
  UpdateParametersValid u Sec = true →
  UpdateVertices u ≠ [] →
  length (UpdatePositions u) = length (UpdateVertices u) →
  ∃ C' Sec',
    RunUpdate u C = Returned () C'
    ∧ SectionAt (UpdateIndex u) C' = Some Sec'
    ∧ PositionVertexBuffer Sec' = UpdatePositions u
    ∧ VertexBuffer Sec' = UpdateVertices u
    ∧ ParallelArraysAgree Sec'.
Proof.
  intros HOverload HS HVT HValid HV HLength.
  destruct (RunUpdate_accepted u C Sec HS HVT HValid) as (C' & Hrun & Hsec & _).
  assert (UpdateGuardRejects u Sec = false) as HGuard.
  { unfold UpdateGuardRejects. rewrite HOverload.
    rewrite (bool_decide_false (Num (UpdatePositions u) ≠ Num (UpdateVertices u)))
      by (intros HNe; by apply HNe, Num_eq_iff).
    by rewrite andb_false_r. }
  unfold UpdateOutcome in Hsec. rewrite HGuard in Hsec. cbn [fst] in Hsec.
  assert (UpdatePositions u ≠ []) as HP.
  { intros HNil. rewrite HNil in HLength. by destruct (UpdateVertices u). }
  exists C', (UpdatedSection u Sec). split; [done|].
  split; [by eapply SectionAt_inserted|].
  unfold ParallelArraysAgree.
  rewrite UpdatedSection_PositionVertexBuffer, UpdatedSection_VertexBuffer.
  by rewrite !bool_decide_false by done.
Qed.

(** X15: on a dual-buffer section that holds vertices, an update
    cannot leave the vertex array out.  A call with an empty vertex array
    is rejected by the length guard, through the overloads without a
    position array always, through those with a position array whenever
    positions are supplied: the positions or triangles passed along are
    not stored, and the call does nothing but log the guard's error. *)
Theorem dual_buffer_update_without_vertices_is_rejected
    (u : EUpdateCall VertexType) C Sec :
  SectionAt (UpdateIndex u) C = Some Sec →
  VertexTypeInfo Sec = UpdateVertexType u →
  UpdateParametersValid u Sec = true →
  IsDualBufferSection Sec = true →
  VertexBuffer Sec ≠ [] →
  UpdateVertices u = [] →
  (UpdateIsDualOverload u = true → UpdatePositions u ≠ []) →
  RunUpdate u C = Returned () (Set_LogOutput (LogOutput C ++ [LengthGuardError]) C).
Proof.
  intros HS HVT HValid HDual HStored HV HP.
  assert (UpdateGuardRejects u Sec = true) as HGuard.
  { unfold UpdateGuardRejects. rewrite HDual, HV. cbn [andb].
    apply Num_nil_iff in HStored.
    rewrite (bool_decide_true (Num [] ≠ Num (VertexBuffer Sec)))
      by (unfold Num in *; simpl; lia).
    destruct (UpdateIsDualOverload u); [|done].
    specialize (HP eq_refl). apply Num_nil_iff in HP.
    rewrite bool_decide_true by (unfold Num in *; simpl; lia). done. }
  rewrite (RunUpdate_exact u C Sec HS HVT HValid), HGuard.
  by rewrite (StoreAndLog_same _ _ _ _ HS).
Qed.

(** X16: how far the overloads with a position array can drive the
    parallel arrays apart.  On a section whose arrays have one length, a
    call that returns leaves them at one length exactly when the guard
    rejected it, or it supplied no positions, or the positions it
    supplied are as many as the vertex entries the section then holds. *)
Theorem dual_update_keeps_parallel_arrays_unless_positions_differ
    (u : EUpdateCall VertexType) C C' Sec :
  UpdateIsDualOverload u = true →
  SectionAt (UpdateIndex u) C = Some Sec →
  ParallelArraysAgree Sec →
  RunUpdate u C = Returned () C' →
  ∃ Sec', SectionAt (UpdateIndex u) C' = Some Sec'
    ∧ (ParallelArraysAgree Sec'
       ↔ UpdateGuardRejects u Sec = true
         ∨ UpdatePositions u = []
         ∨ length (UpdatePositions u) = length (VertexBuffer Sec')).
Proof.
  intros HOverload HS HAgree Hrun.
  destruct (RunUpdate_cases u C)
    as [[Reason Hhalt]|(Sec0 & C0 & HS0 & _ & HValid & Hrun0 & Hsec & _)]; [congruence|].
  rewrite Hrun in Hrun0. injection Hrun0 as <-.
  rewrite HS in HS0. injection HS0 as <-.
  assert (IsDualBufferSection Sec = true) as HDual.
  { unfold UpdateParametersValid in HValid. rewrite HOverload in HValid.
    by apply andb_true_iff in HValid as [? _]. }
  specialize (HAgree HDual).
  exists (UpdateOutcome u Sec).1. split; [by eapply SectionAt_inserted|].
  pose proof (UpdateOutcome_keeps_everything_but_the_buffers u Sec) as (_ & HDual' & _).
  unfold ParallelArraysAgree. rewrite HDual', HDual.
  unfold UpdateOutcome in *.
  destruct (UpdateGuardRejects u Sec) eqn:HGuard; cbn [fst]; [by intuition|].
  rewrite UpdatedSection_PositionVertexBuffer, UpdatedSection_VertexBuffer.
  unfold UpdateGuardRejects in HGuard. rewrite HOverload, HDual in HGuard.
  cbn [andb] in HGuard. apply andb_false_iff in HGuard.
  destruct (bool_decide (UpdatePositions u = [])) eqn:HP.
  - apply bool_decide_eq_true in HP. split; [by intros _; right; left|]. intros _ _.
    destruct (bool_decide (UpdateVertices u = [])) eqn:HV; [done|].
    apply bool_decide_eq_false in HV.
    destruct HGuard as [HGuard|HGuard]; apply bool_decide_eq_false, dec_stable in HGuard.
    + apply Num_eq_iff in HGuard. congruence.
    + apply Num_eq_iff in HGuard. rewrite HP in HGuard.
      by destruct (UpdateVertices u).
  - apply bool_decide_eq_false in HP. split.
    + intros HLength. right. right. by apply HLength.
    + intros [?|[?|?]] _; done.
Qed.

(** *** An update with the data of a create call *)

(** On the section of a create call, the update with the data of another
    create call leaves the section of that other call. *)
Lemma UpdateOutcome_with_the_data_of_a_create (c0 c1 : ECreateCall VertexType) :
  CreateValid c1 →
  SameSlotAndFlags c0 c1 →
  (UpdateOutcome (UpdateWithDataOf c1) (CreatedSection c0)).1 = CreatedSection c1.
Proof.
  intros (_ & HV & HT & _ & HDual) (_ & HVT & HSameDual & HCollision & HFrequency).
  apply Num_nil_iff in HV, HT.
  unfold CreatedSection. rewrite HVT, HSameDual, HCollision, HFrequency.
  unfold UpdateOutcome, UpdateGuardRejects, UpdatedSection, ApplyTriangles, ApplyVertices,
    ApplyPositions, UpdateVertexBuffer, UpdateVertexPositionBuffer, IsDualBufferSection.
  destruct c1 as [VT i Vs Ts bC F U|VT i Vs Ts Box bC F U
                 |VT i Ps Vs Ts bC F U|VT i Ps Vs Ts Box bC F U];
    cbn in HV, HT, HDual |- *.
  all: try (specialize (HDual eq_refl); apply Num_eq_iff in HDual).
  all: try (assert (0 < Num Ps) by lia).
  all: rewrite ?(bool_decide_true (0 < Num _)) by done.
  all: rewrite ?(bool_decide_false (Num Ps ≠ Num Vs)) by (by intros ?).
  all: rewrite ?andb_false_r.
  all: done.
Qed.

(** X17: updating a section with all the arrays of a create call, through
    the overload with the same parameters, leaves the registry as that
    create call would have left it, when the section was created for the
    same slot, vertex type and buffer layout with the same collision and
    update-frequency arguments, and the slot is one the registry can
    hold. *)
Theorem full_update_leaves_the_sections_of_a_recreate
    (c0 c1 : ECreateCall VertexType) C :
  CreateValid c0 →
  CreateValid c1 →
  SameSlotAndFlags c0 c1 →
  SlotIsReachable (CreateIndex c0) C →
  ∃ C1 C2 C2',
    RunCreate c0 C = Returned () C1
    ∧ RunUpdate (UpdateWithDataOf c1) C1 = Returned () C2
    ∧ RunCreate c1 C = Returned () C2'
    ∧ MeshSections C2 = MeshSections C2'.
Proof.
  intros HValid0 HValid1 HSame HReach.
  pose proof HSame as (Hi & HVT & HSameDual & _).
  destruct (RunCreate_whole c0 C HValid0 HReach) as (C1 & Hrun0 & HS0 & Hother0 & HNum0 & _).
  rewrite Hi in HReach.
  destruct (RunCreate_whole c1 C HValid1 HReach) as (C2' & Hrun1 & HS1 & Hother1 & HNum1 & _).
  assert (UpdateIndex (UpdateWithDataOf c1) = CreateIndex c0) as Hiu
    by (rewrite Hi; by destruct c1).
  rewrite <- Hiu in HS0.
  destruct (RunUpdate_accepted (UpdateWithDataOf c1) C1 _ HS0) as (C2 & Hrun2 & Hsec2 & _).
  - cbn. rewrite HVT. by destruct c1.
  - unfold UpdateParametersValid, IsDualBufferSection. cbn. rewrite HSameDual.
    destruct HValid1 as (_ & _ & _ & HBox & _).
    destruct c1; cbn in *; try done; by apply HBox.
  - exists C1, C2, C2'. split; [done|]. split; [done|]. split; [done|].
    rewrite (UpdateOutcome_with_the_data_of_a_create c0 c1 HValid1 HSame) in Hsec2.
    pose proof (SectionAt_Some _ _ _ HS0) as [Hi0 _].
    apply MeshSections_ext.
    + rewrite HNum1, <- Hi, <- HNum0, Hsec2. unfold Num. by rewrite length_insert.
    + intros j. rewrite Hsec2. destruct (decide (j = CreateIndex c1)) as [->|Hj].
      * rewrite <- Hi, <- Hiu. rewrite SlotAt_insert_eq by done.
        symmetry. rewrite Hiu, Hi. exact HS1.
      * rewrite SlotAt_insert_ne by (rewrite Hiu, Hi; first [lia|done]).
        change (SectionAt j C1 = SectionAt j C2').
        rewrite Hother0 by (by rewrite Hi). by rewrite Hother1.
Qed.

(** *** Creates in another order *)

(** X18: two create calls for different slots that the registry can
    hold commute: run in either order from the same component, both calls
    return and the registry holds the same sections. *)
Theorem creates_for_different_slots_commute (c1 c2 : ECreateCall VertexType) C :
  CreateValid c1 →
  CreateValid c2 →
  CreateIndex c1 ≠ CreateIndex c2 →
  SlotIsReachable (CreateIndex c1) C →
  SlotIsReachable (CreateIndex c2) C →
  ∃ Ca Cab Cb Cba,
    RunCreate c1 C = Returned () Ca
    ∧ RunCreate c2 Ca = Returned () Cab
    ∧ RunCreate c2 C = Returned () Cb
    ∧ RunCreate c1 Cb = Returned () Cba
    ∧ MeshSections Cab = MeshSections Cba.
Proof.
  intros HValid1 HValid2 HNe HReach1 HReach2.
  destruct (RunCreate_whole c1 C HValid1 HReach1) as (Ca & Hrun1 & HSa & Hothera & HNuma & _).
  destruct (RunCreate_whole c2 Ca HValid2) as (Cab & Hrun12 & HSab & Hotherab & HNumab & _);
    [unfold SlotIsReachable in *; lia|].
  destruct (RunCreate_whole c2 C HValid2 HReach2) as (Cb & Hrun2 & HSb & Hotherb & HNumb & _).
  destruct (RunCreate_whole c1 Cb HValid1) as (Cba & Hrun21 & HSba & Hotherba & HNumba & _);
    [unfold SlotIsReachable in *; lia|].
  exists Ca, Cab, Cb, Cba. split_and!; try done.
  apply MeshSections_ext; [lia|]. intros j.
  change (SectionAt j Cab = SectionAt j Cba).
  destruct (decide (j = CreateIndex c1)) as [->|Hj1];
    [by rewrite Hotherab, HSa, HSba|].
  destruct (decide (j = CreateIndex c2)) as [->|Hj2];
    [by rewrite HSab, Hotherba, HSb|].
  by rewrite Hotherab, Hothera, Hotherba, Hotherb.
Qed.

(** *** Updates in another order *)

(** X19: updates of different sections commute: when two update calls
    for different slots return one after the other, they also return in
    the other order, and the registry holds the same sections. *)
Theorem updates_of_different_sections_commute (u1 u2 : EUpdateCall VertexType) C Ca Cab :
  UpdateIndex u1 ≠ UpdateIndex u2 →
  RunUpdate u1 C = Returned () Ca →
  RunUpdate u2 Ca = Returned () Cab →
  ∃ Cb Cba,
    RunUpdate u2 C = Returned () Cb
    ∧ RunUpdate u1 Cb = Returned () Cba
    ∧ MeshSections Cba = MeshSections Cab.
Proof.
  intros HNe Hrun1 Hrun2.
  destruct (RunUpdate_cases u1 C)
    as [[Reason Hhalt]|(Sec1 & Ca' & HS1 & HVT1 & HValid1 & Hrun1' & Hsec1 & _)];
    [congruence|].
  rewrite Hrun1 in Hrun1'. injection Hrun1' as <-.
  destruct (RunUpdate_cases u2 Ca)
    as [[Reason Hhalt]|(Sec2 & Cab' & HS2a & HVT2 & HValid2 & Hrun2' & Hsec2 & _)];
    [congruence|].
  rewrite Hrun2 in Hrun2'. injection Hrun2' as <-.
  pose proof (SectionAt_Some _ _ _ HS1) as [Hi1 _].
  pose proof (SectionAt_Some _ _ _ HS2a) as [Hi2 _].
  assert (SectionAt (UpdateIndex u2) C = Some Sec2) as HS2.
  { unfold SectionAt in HS2a |- *. rewrite Hsec1 in HS2a.
    by rewrite SlotAt_insert_ne in HS2a by lia. }
  destruct (RunUpdate_accepted u2 C Sec2 HS2 HVT2 HValid2) as (Cb & Hrunb & Hsecb & _).
  assert (SectionAt (UpdateIndex u1) Cb = Some Sec1) as HS1b.
  { unfold SectionAt. rewrite Hsecb. by rewrite SlotAt_insert_ne by lia. }
  destruct (RunUpdate_accepted u1 Cb Sec1 HS1b HVT1 HValid1) as (Cba & Hrunba & Hsecba & _).
  exists Cb, Cba. split; [done|]. split; [done|].
  rewrite Hsecba, Hsecb, Hsec2, Hsec1. apply list_insert_insert_ne. lia.
Qed.

(** *** A create, run on the whole component *)

(** X20: a create call that passes its checks and names a slot the
    registry can hold ends in exactly one call of
    [CreateSectionInternal], made when the section is complete: the
    slot already holds the arrays, the bounds and the collision and
    update-frequency arguments of the call; every other slot and every
    other member of the component is still as it was. *)
Theorem valid_create_is_finalised_once_on_the_complete_section
    (c : ECreateCall VertexType) C :
  CreateValid c →
  SlotIsReachable (CreateIndex c) C →
  ∃ C1, RunCreate c C = CreateSectionInternal (CreateIndex c) C1
        ∧ SectionAt (CreateIndex c) C1 = Some (CreatedSection c)
        ∧ (∀ j, j ≠ CreateIndex c → SectionAt j C1 = SectionAt j C)
        ∧ C1 = Set_MeshSections (MeshSections C1) C.
Proof.
  intros (Hi & HV & HT & HBox & HDual) HReach.
  destruct c as [VT i Vs Ts bC F U|VT i Vs Ts Box bC F U
                |VT i Ps Vs Ts bC F U|VT i Ps Vs Ts Box bC F U];
    cbn [RunCreate CreateIndex] in *; cbn in HV, HT, HBox, HDual;
    unfold CreateMeshSection, CreateMeshSection_Box, CreateMeshSectionDualBuffer,
      CreateMeshSectionDualBuffer_Box.
  all: try (specialize (HBox _ eq_refl)); try (specialize (HDual eq_refl)).
  all: (rewrite Bind_unit_eq;
        [|first [ destruct (RMC_VALIDATE_CREATIONPARAMETERS_spec i Vs Ts C)
                    as [(_ & _ & _ & Heq)|[[?|[?|?]] _]]; [exact Heq|lia|done|done]
                | destruct (RMC_VALIDATE_CREATIONPARAMETERS_DUALBUFFER_spec i Vs Ts Ps C)
                    as [(_ & _ & _ & _ & Heq)|[[?|[?|[?|?]]] _]];
                  [exact Heq|lia|done|done|done] ]]).
  all: try (rewrite Bind_unit_eq by (by rewrite RMC_VALIDATE_BOUNDINGBOX_spec, HBox)).
  all: (edestruct (CreateOrResetSection_exact) as (C0 & Hrun0 & HS0 & Hother0 & _ & HRest0);
        [exact Hi|exact HReach|rewrite (Bind_Returned _ _ _ _ _ Hrun0)]).
  all: cbn beta zeta.
  all: pose proof (SectionAt_Some _ _ _ HS0) as [Hi0 _].
  all: match goal with
       | HS : SectionAt ?i ?C0 = Some _ |- ∃ C1, ?m ?C0 = _ ∧ _ =>
           assert (m C0 = m (StoreAndLog i _ [] C0)) as ->
             by (by rewrite (StoreAndLog_nil _ _ _ HS))
       end.
  all: unfold Assign; run_body Hi0.
  all: eexists; split; [reflexivity|].
  all: split; [by rewrite SectionAt_StoreAndLog|].
  all: split.
  all: try (intros j Hj; rewrite <- Hother0 by done; unfold SectionAt, StoreAndLog; cbn;
            by apply SlotAt_insert_ne).
  all: rewrite HRest0 at 1; unfold StoreAndLog, SetSlot; destruct C; cbn;
       by rewrite app_nil_r.
Qed.

(** *** Sequences of creates and updates *)

Lemma RunAll_Preserves (I : URuntimeMeshComponent VertexType → Prop)
    (cs : list (ECall VertexType)) :
  Forall (λ c, Preserves I (Run c)) cs → Preserves I (RunAll cs).
Proof.
  induction 1 as [|c cs Hc _ IH]; cbn [RunAll]; [apply Preserves_Return|].
  apply Preserves_Bind; [done|by intros ?].
Qed.

(** Every way a typed create or update can end, on the registry: the
    component untouched, a created section in the slot of the create, or
    the outcome of the update in its slot. *)
Lemma Run_create_or_update_cases (c : ECall VertexType) C :
  IsCreateOrUpdate c = true →
  ComponentOf (Run c C) = C
  ∨ (∃ cc Sec', c = CallCreate cc ∧ CreateValid cc ∧ Sec' = CreatedSection cc
       ∧ SectionAt (CreateIndex cc) (ComponentOf (Run c C)) = Some Sec'
       ∧ ∀ j, j ≠ CreateIndex cc → SectionAt j (ComponentOf (Run c C)) = SectionAt j C)
  ∨ (∃ u Sec, c = CallUpdate u ∧ SectionAt (UpdateIndex u) C = Some Sec
       ∧ Run c C = Returned () (ComponentOf (Run c C))
       ∧ SectionAt (UpdateIndex u) (ComponentOf (Run c C)) = Some (UpdateOutcome u Sec).1
       ∧ ∀ j, j ≠ UpdateIndex u → SectionAt j (ComponentOf (Run c C)) = SectionAt j C).
Proof.
  destruct c as [cc|u| | | | | | | | | | | | | |]; try done; intros _; cbn [Run].
  - destruct (FirstFailedCreateCheck cc) as [Message|] eqn:HFirst.
    + left. by rewrite (RunCreate_halts_at_the_first_failed_check cc C Message HFirst).
    + apply FirstFailedCreateCheck_None in HFirst.
      destruct (SlotIsReachable_dec (CreateIndex cc) C) as [HReach|HReach];
        [|left; by rewrite (RunCreate_overflow cc C HFirst HReach)].
      destruct (RunCreate_whole cc C HFirst HReach) as (C' & -> & HS & Hother & _).
      right. left. by exists cc, (CreatedSection cc).
  - destruct (RunUpdate_cases u C)
      as [[Reason ->]|(Sec & C' & HS & _ & _ & -> & Hsec & _)]; [by left|].
    right. right. exists u, Sec. cbn [ComponentOf].
    pose proof (SectionAt_Some _ _ _ HS) as [Hi _].
    split_and!; try done; [by eapply SectionAt_inserted|].
    intros j Hj. unfold SectionAt. rewrite Hsec. apply SlotAt_insert_ne; [lia|done].
Qed.

(** X21: no typed create and no typed update ever removes a section: a
    slot that holds a section holds one after any sequence of create and
    update calls, wherever the sequence stops. *)
Theorem creates_and_updates_never_remove_a_section
    (cs : list (ECall VertexType)) C j :
  Forall (λ c, IsCreateOrUpdate c = true) cs →
  is_Some (SectionAt j C) →
  is_Some (SectionAt j (ComponentOf (RunAll cs C))).
Proof.
  intros Hcs. apply (RunAll_Preserves (λ C, is_Some (SectionAt j C))).
  eapply Forall_impl; [exact Hcs|]. clear. intros c Hc C HSome.
  destruct (Run_create_or_update_cases c C Hc)
    as [->|[(cc & Sec' & _ & _ & _ & HS & Hother)|(u & Sec & _ & _ & _ & HS & Hother)]];
    [done|..].
  - destruct (decide (j = CreateIndex cc)) as [->|Hj]; [by rewrite HS|].
    by rewrite Hother.
  - destruct (decide (j = UpdateIndex u)) as [->|Hj]; [by rewrite HS|].
    by rewrite Hother.
Qed.

(** X22: the two parallel arrays of the dual-buffer sections cannot be
    driven apart without the overloads that take a position array: when
    every dual-buffer section of the registry has arrays of one length,
    this still holds after any sequence of typed creates and of updates
    through the overloads without a position array, wherever the
    sequence stops. *)
Theorem parallel_arrays_agree_without_the_position_overloads
    (cs : list (ECall VertexType)) C :
  Forall (λ c, IsCreateOrSingleArrayUpdate c = true) cs →
  AllParallelArraysAgree C →
  AllParallelArraysAgree (ComponentOf (RunAll cs C)).
Proof.
  intros Hcs. apply RunAll_Preserves.
  eapply Forall_impl; [exact Hcs|]. clear. intros c Hc C HAgree.
  assert (IsCreateOrUpdate c = true) as Hc' by (by destruct c).
  destruct (Run_create_or_update_cases c C Hc')
    as [->|[(cc & Sec' & _ & HValid & -> & HS & Hother)
           |(u & Sec & -> & HS & Hrun & _ & Hother)]];
    [done|..]; intros j Sec1 HS1.
  - destruct (decide (j = CreateIndex cc)) as [->|Hj].
    + rewrite HS in HS1. injection HS1 as <-.
      destruct HValid as (_ & _ & _ & _ & HDual).
      unfold ParallelArraysAgree, IsDualBufferSection. cbn. intros HIsDual.
      rewrite HIsDual. by apply HDual.
    + rewrite Hother in HS1 by done. by eapply HAgree.
  - destruct (decide (j = UpdateIndex u)) as [->|Hj].
    + cbn [Run] in *.
      destruct (single_array_update_keeps_parallel_arrays
                  u C (ComponentOf (RunUpdate u C)) Sec) as (Sec' & HS' & ?);
        [by destruct u; cbn in Hc|done|by eapply HAgree|exact Hrun|].
      rewrite HS' in HS1. by injection HS1 as <-.
    + rewrite Hother in HS1 by done. by eapply HAgree.
Qed.

End RuntimeMeshTheory.

(** * Worked examples *)

#[local] Existing Instance FSimpleVertex_Vertex.
#[local] Existing Instance ExampleDefaults.

(** C1 at a concrete call: the dual-buffer triangle holds three positions
    and three attribute entries; an update with five positions and three
    attribute entries passes the guard, because the attribute array has
    the stored length, and leaves five positions next to three attribute
    entries. *)
Theorem dual_update_guard_lets_the_parallel_arrays_diverge :
  ∃ C' Sec',
    RunUpdate FivePositionsUpdate DualScene = Returned () C'
    ∧ SectionAt 0 C' = Some Sec'
    ∧ IsDualBufferSection Sec' = true
    ∧ length (PositionVertexBuffer Sec') = 5%nat
    ∧ length (VertexBuffer Sec') = 3%nat
    ∧ ¬ ParallelArraysAgree Sec'.
Proof.
  eexists _, _. split; [vm_compute; reflexivity|].
  split; [vm_compute; reflexivity|].
  repeat split. intros Hagree. specialize (Hagree eq_refl). discriminate Hagree.
Qed.

Lemma invalid_create_halts_witness :
  CreateRejected NegativeIndexCreate
  ∧ ∃ Message,
      RunCreate NegativeIndexCreate NewComponent
      = Halted (AssertionFailed Message) NewComponent.
Proof.
  split; [left; cbn; lia|].
  apply invalid_create_halts_before_any_mutation. left. cbn. lia.
Defined.

(** C2 as worded fails on a create with a negative index: the call does
    not return, so it is not a logged no-op. *)
Lemma negative_index_create_is_not_a_logged_noop :
  ¬ RejectedAsLoggedNoOp (RunCreate NegativeIndexCreate) NewComponent.
Proof. intros (C' & Hrun & _). vm_compute in Hrun. discriminate Hrun. Qed.

(** C3 at a concrete call: the dual-buffer triangle holds three attribute
    entries and the indices [0; 1; 2].  An update through the overload
    with a vertex and a triangle array leaves the vertex array empty and
    supplies new triangles.  The length guard compares the empty array
    with the three stored entries before the emptiness tests run, and
    rejects the call: it returns, logs the guard's error alone, and the
    new triangles are not stored.  The overload with a position array,
    given the same triangles and both vertex arrays empty, stores them. *)
Theorem empty_vertex_array_drops_the_triangles_of_a_dual_buffer_section :
  UpdateVertices DualTrianglesOnlyUpdate = []
  ∧ UpdateTriangles DualTrianglesOnlyUpdate = [0; 2; 1]
  ∧ (∃ C' Sec',
       RunUpdate DualTrianglesOnlyUpdate DualScene = Returned () C'
       ∧ SectionAt 0 C' = Some Sec'
       ∧ IsDualBufferSection Sec' = true
       ∧ IndexBuffer Sec' = [0; 1; 2]
       ∧ LogOutput C' = (LogOutput DualScene ++ [LengthGuardError])%list)
  ∧ ¬ AppliesEveryNonEmptyPart DualTrianglesOnlyUpdate DualScene
  ∧ (∃ C' Sec',
       RunUpdate DualTrianglesOnlyUpdate_Positions DualScene = Returned () C'
       ∧ SectionAt 0 C' = Some Sec'
       ∧ IndexBuffer Sec' = [0; 2; 1]).
Proof.
  split; [reflexivity|]. split; [reflexivity|]. split.
  { eexists _, _. split; [vm_compute; reflexivity|].
    split; [vm_compute; reflexivity|]. by split_and!. }
  split.
  - intros Happlies.
    assert (RunUpdate DualTrianglesOnlyUpdate DualScene
            = Returned () (ComponentOf (RunUpdate DualTrianglesOnlyUpdate DualScene)))
      as Hrun by (vm_compute; reflexivity).
    destruct (Happlies _ Hrun) as (Sec' & HS & _ & _ & HT).
    vm_compute in HS. injection HS as <-.
    specialize (HT ltac:(discriminate)). vm_compute in HT. discriminate HT.
  - eexists _, _. split; [vm_compute; reflexivity|].
    split; [vm_compute; reflexivity|]. reflexivity.
Qed.

Lemma index_buffer_of_any_length_witness :
  (length (UpdateTriangles TwoIndexUpdate) mod 3 ≠ 0)%nat
  ∧ ∃ C' Sec', RunUpdate TwoIndexUpdate QuadScene = Returned () C'
               ∧ SectionAt 0 C' = Some Sec'
               ∧ IndexBuffer Sec' = [0; 1].
Proof.
  split; [cbn; lia|].
  apply (index_buffer_of_any_length_is_stored TwoIndexUpdate QuadScene QuadSection);
    [cbn; lia|vm_compute; reflexivity..].
Defined.

(** C4 as worded fails on the quad: two indices replace the six stored
    ones. *)
Lemma two_indices_replace_the_index_buffer :
  ¬ KeepsIndexBufferOnBadLength TwoIndexUpdate QuadScene.
Proof.
  intros Hkeeps. specialize (Hkeeps ltac:(cbn; lia)).
  vm_compute in Hkeeps. discriminate Hkeeps.
Qed.

Lemma valid_create_witness :
  CreateValid QuadCreate
  ∧ SlotIsReachable (CreateIndex QuadCreate) (NewComponent (VertexType := FSimpleVertex))
  ∧ ∃ C' Box,
      RunCreate QuadCreate NewComponent = Returned () C'
      ∧ DoesSectionExist 0 C' = true
      ∧ GetSectionBoundingBox 0 C' = Some Box
      ∧ Box = ComputeBoundingBox (CreatePositions QuadCreate)
      ∧ IsAxisAlignedBoundsOf Box (CreatePositions QuadCreate).
Proof.
  assert (CreateValid QuadCreate) as HValid.
  { unfold CreateValid. cbn. repeat split; try done; lia. }
  assert (SlotIsReachable (CreateIndex QuadCreate)
            (NewComponent (VertexType := FSimpleVertex))) as HReach
    by (right; vm_compute; reflexivity).
  split; [exact HValid|]. split; [exact HReach|].
  exact (valid_create_makes_the_section_exist_with_its_bounds
           QuadCreate NewComponent HValid HReach).
Defined.

(** C5 as worded fails on a create for the last index an [int32] can
    name: the call passes validation, but [SectionIndex + 1] overflows,
    the call stops in [SetNum], and no section exists afterwards. *)
Lemma create_at_the_last_index_makes_no_section :
  ¬ ValidCreateMakesTheSectionExist LastIndexCreate NewComponent.
Proof.
  intros Hexists.
  assert (CreateValid LastIndexCreate) as HValid.
  { unfold CreateValid. cbn. repeat split; try done. }
  destruct (Hexists HValid) as (C' & Hrun & _).
  vm_compute in Hrun. discriminate Hrun.
Qed.

Lemma wrong_vertex_type_witness :
  SectionAt (UpdateIndex WrongTypeUpdate) QuadScene = Some QuadSection
  ∧ VertexTypeInfo QuadSection ≠ UpdateVertexType WrongTypeUpdate
  ∧ RunUpdate WrongTypeUpdate QuadScene
    = Halted (LayoutMismatch SimpleVertexType OtherVertexType) QuadScene.
Proof.
  assert (SectionAt (UpdateIndex WrongTypeUpdate) QuadScene = Some QuadSection)
    as HS by (vm_compute; reflexivity).
  assert (VertexTypeInfo QuadSection ≠ UpdateVertexType WrongTypeUpdate)
    as HVT by (intros HVT; vm_compute in HVT; discriminate HVT).
  split; [exact HS|]. split; [exact HVT|].
  exact (update_with_wrong_vertex_type_is_rejected
           WrongTypeUpdate QuadScene QuadSection HS HVT).
Defined.

(** C8 as worded fails on an update of the quad under another vertex
    type with a box that is not valid: the box assertion comes before the
    comparison of the vertex types, and the call halts on it, not on a
    layout mismatch. *)
Lemma wrong_vertex_type_with_invalid_box_fails_the_box_assertion :
  ¬ RejectedAsLayoutMismatch WrongTypeInvalidBoxUpdate QuadScene.
Proof.
  intros Hrejected.
  destruct (Hrejected QuadSection) as (Recorded & Requested & Hrun).
  - vm_compute. reflexivity.
  - intros HVT. vm_compute in HVT. discriminate HVT.
  - vm_compute in Hrun. discriminate Hrun.
Qed.

Lemma recreate_witness :
  SectionAt (CreateIndex QuadCreate) HiddenScene = Some HiddenSection
  ∧ bIsVisible HiddenSection = false
  ∧ CollisionEnabled HiddenSection = true
  ∧ ∃ C' New,
      RunCreate QuadCreate HiddenScene = Returned () C'
      ∧ SectionAt (CreateIndex QuadCreate) C' = Some New
      ∧ New = CreatedSection QuadCreate
      ∧ CollisionEnabled New = default false (CreateCollisionArgument QuadCreate)
      ∧ UpdateFrequency New = default Average (CreateUpdateFrequencyArgument QuadCreate)
      ∧ bIsVisible New = Default_bIsVisible
      ∧ bCastsShadow New = Default_bCastsShadow.
Proof.
  assert (SectionAt (CreateIndex QuadCreate) HiddenScene = Some HiddenSection)
    as HS by (vm_compute; reflexivity).
  split; [exact HS|]. split; [reflexivity|]. split; [reflexivity|].
  apply (recreate_resets_every_section_flag QuadCreate HiddenScene HiddenSection HS).
  unfold CreateValid. cbn. repeat split; try done; lia.
Defined.


Lemma collision_mutations_witness :
  Reachable QuadScene
  ∧ CollisionMutations ≠ []
  ∧ AllAffectCollision CollisionMutations QuadScene
  ∧ RunAll CollisionMutations QuadScene = Returned () CollisionScene
  ∧ bCollisionDirty CollisionScene = true
  ∧ PendingBakeRequests CollisionScene = 1%nat.
Proof.
  assert (Reachable QuadScene) as HReach
    by (exists [CallCreate QuadCreate]; vm_compute; reflexivity).
  assert (AllAffectCollision CollisionMutations QuadScene) as HAll.
  { split; [vm_compute; reflexivity|]. intros C1 H1. vm_compute in H1. injection H1 as <-.
    split; [vm_compute; reflexivity|]. intros C2 H2. vm_compute in H2. injection H2 as <-.
    split; [vm_compute; reflexivity|]. intros C3 _. exact I. }
  assert (RunAll CollisionMutations QuadScene = Returned () CollisionScene)
    as Hrun by (vm_compute; reflexivity).
  split; [exact HReach|]. split; [discriminate|]. split; [exact HAll|].
  split; [exact Hrun|].
  exact (collision_mutations_leave_one_pending_bake
           CollisionMutations QuadScene CollisionScene HReach ltac:(discriminate) HAll Hrun).
Defined.

Lemma create_returns_witness :
  FirstFailedCreateCheck QuadCreate = None
  ∧ SlotIsReachable (CreateIndex QuadCreate) (NewComponent (VertexType := FSimpleVertex))
  ∧ ∃ C', RunCreate QuadCreate NewComponent = Returned () C'.
Proof.
  assert (SlotIsReachable (CreateIndex QuadCreate) (NewComponent (VertexType := FSimpleVertex)))
    as HReach by (right; vm_compute; reflexivity).
  split; [reflexivity|]. split; [exact HReach|].
  exact (create_halts_at_its_first_failed_check QuadCreate NewComponent HReach).
Defined.

Lemma CreateOrResetSection_witness :
  0 ≤ 2
  ∧ SlotIsReachable 2 QuadScene
  ∧ ∃ C1, CreateOrResetSection SimpleVertexType 2 false false QuadScene = Returned 2 C1
          ∧ SectionAt 2 C1
            = Some (Set_bIsInternalSectionType false (NewSection SimpleVertexType false))
          ∧ (∀ j, j ≠ 2 → SectionAt j C1 = SectionAt j QuadScene)
          ∧ Num (MeshSections C1) = Z.max (Num (MeshSections QuadScene)) (2 + 1)
          ∧ C1 = Set_MeshSections (MeshSections C1) QuadScene.
Proof.
  assert (SlotIsReachable 2 QuadScene) as HReach by (right; vm_compute; reflexivity).
  split; [lia|]. split; [exact HReach|].
  apply (CreateOrResetSection_fills_its_slot_and_no_other
           SimpleVertexType 2 false false QuadScene); [lia|exact HReach].
Defined.

Lemma create_stores_its_arrays_witness :
  CreateValid (TriangleCreate 2)
  ∧ SlotIsReachable (CreateIndex (TriangleCreate 2)) QuadScene
  ∧ ∃ C' Sec,
      RunCreate (TriangleCreate 2) QuadScene = Returned () C'
      ∧ SectionAt 2 C' = Some Sec
      ∧ VertexTypeInfo Sec = SimpleVertexType
      ∧ IsDualBufferSection Sec = false
      ∧ VertexBuffer Sec = [V 0 0 0; V 1 0 0; V 0 1 0]
      ∧ IndexBuffer Sec = [0; 1; 2]
      ∧ PositionVertexBuffer Sec = []
      ∧ (∀ j, j ≠ 2 → SectionAt j C' = SectionAt j QuadScene)
      ∧ Num (MeshSections C') = Z.max (Num (MeshSections QuadScene)) (2 + 1)
      ∧ LogOutput C' = LogOutput QuadScene.
Proof.
  assert (CreateValid (TriangleCreate 2)) as HValid.
  { unfold CreateValid. cbn. repeat split; try done; lia. }
  assert (SlotIsReachable (CreateIndex (TriangleCreate 2)) QuadScene) as HReach
    by (right; vm_compute; reflexivity).
  split; [exact HValid|]. split; [exact HReach|].
  exact (create_stores_its_arrays_and_touches_no_other_slot
           (TriangleCreate 2) QuadScene HValid HReach).
Defined.

Lemma typed_sections_witness :
  RunCreate QuadCreate NewComponent = Returned () QuadScene
  ∧ RMC_VALIDATE_UPDATEPARAMETERS 0 QuadScene = Returned () QuadScene
  ∧ RMC_VALIDATE_UPDATEPARAMETERS_INTERNALSECTION 0 QuadScene
    = Halted (AssertionFailed "Section is not of legacy type.") QuadScene.
Proof.
  assert (RunCreate QuadCreate NewComponent = Returned () QuadScene) as Hrun
    by (vm_compute; reflexivity).
  split; [exact Hrun|].
  exact (typed_sections_fail_the_legacy_validation QuadCreate NewComponent QuadScene Hrun).
Defined.

Lemma guard_rejected_update_witness :
  SectionAt (UpdateIndex LongerVerticesUpdate) DualScene = Some DualSection
  ∧ UpdateGuardRejects LongerVerticesUpdate DualSection = true
  ∧ RunUpdate LongerVerticesUpdate DualScene
    = Returned () (Set_LogOutput (LogOutput DualScene ++ [LengthGuardError]) DualScene).
Proof.
  assert (SectionAt (UpdateIndex LongerVerticesUpdate) DualScene = Some DualSection)
    as HS by (vm_compute; reflexivity).
  split; [exact HS|]. split; [vm_compute; reflexivity|].
  apply (guard_rejected_update_only_logs_the_error
           LongerVerticesUpdate DualScene DualSection HS);
    vm_compute; reflexivity.
Defined.

Lemma update_without_data_witness :
  SectionAt (UpdateIndex EmptyUpdate) QuadScene = Some QuadSection
  ∧ UpdateSuppliesAny EmptyUpdate = false
  ∧ RunUpdate EmptyUpdate QuadScene
    = Returned ()
        (Set_LogOutput (LogOutput QuadScene ++ [EmptyVerticesWarning; EmptyTrianglesWarning])
           QuadScene).
Proof.
  assert (SectionAt (UpdateIndex EmptyUpdate) QuadScene = Some QuadSection)
    as HS by (vm_compute; reflexivity).
  split; [exact HS|]. split; [vm_compute; reflexivity|].
  apply (update_without_data_only_logs EmptyUpdate QuadScene QuadSection HS);
    vm_compute; reflexivity.
Defined.

Lemma accepted_update_witness :
  SectionAt (UpdateIndex TrianglesOnlyUpdate) QuadScene = Some QuadSection
  ∧ UpdateGuardRejects TrianglesOnlyUpdate QuadSection = false
  ∧ UpdateSuppliesAny TrianglesOnlyUpdate = true
  ∧ RunUpdate TrianglesOnlyUpdate QuadScene
    = UpdateSectionInternal 0 false false true false
        (StoreAndLog 0 (Set_IndexBuffer [0; 2; 1; 0; 3; 2] QuadSection)
           [EmptyVerticesWarning] QuadScene).
Proof.
  assert (SectionAt (UpdateIndex TrianglesOnlyUpdate) QuadScene = Some QuadSection)
    as HS by (vm_compute; reflexivity).
  split; [exact HS|]. split; [vm_compute; reflexivity|]. split; [vm_compute; reflexivity|].
  apply (accepted_update_is_finalised_once_with_the_parts_supplied
           TrianglesOnlyUpdate QuadScene QuadSection HS);
    vm_compute; reflexivity.
Defined.

Lemma empty_triangles_witness :
  UpdateTriangles MovedTriangleUpdate = []
  ∧ AgreeButLog
      (RunUpdate MovedTriangleUpdate QuadScene)
      (RunUpdate (Update SimpleVertexType 0 MovedTriangle ESectionUpdateFlags_None)
         QuadScene).
Proof.
  split; [reflexivity|].
  exact (empty_triangles_are_as_the_overload_without_triangles
           MovedTriangleUpdate QuadScene eq_refl).
Defined.

Lemma repeating_an_update_witness :
  RunUpdate TrianglesOnlyUpdate QuadScene
  = Returned () (ComponentOf (RunUpdate TrianglesOnlyUpdate QuadScene))
  ∧ ∃ C2,
      RunUpdate TrianglesOnlyUpdate (ComponentOf (RunUpdate TrianglesOnlyUpdate QuadScene))
      = Returned () C2
      ∧ MeshSections C2
        = MeshSections (ComponentOf (RunUpdate TrianglesOnlyUpdate QuadScene)).
Proof.
  assert (RunUpdate TrianglesOnlyUpdate QuadScene
          = Returned () (ComponentOf (RunUpdate TrianglesOnlyUpdate QuadScene)))
    as Hrun by (vm_compute; reflexivity).
  split; [exact Hrun|].
  exact (repeating_an_update_changes_no_section TrianglesOnlyUpdate QuadScene _ Hrun).
Defined.

Lemma single_buffer_section_witness :
  CreateValid QuadCreate
  ∧ SlotIsReachable (CreateIndex QuadCreate) (NewComponent (VertexType := FSimpleVertex))
  ∧ ∃ C1 C2 Sec',
      RunCreate QuadCreate NewComponent = Returned () C1
      ∧ RunUpdate MovedTriangleUpdate C1 = Returned () C2
      ∧ SectionAt 0 C2 = Some Sec'
      ∧ VertexBuffer Sec' = MovedTriangle
      ∧ IndexBuffer Sec' = [0; 1; 2; 0; 2; 3].
Proof.
  assert (CreateValid QuadCreate) as HValid.
  { unfold CreateValid. cbn. repeat split; try done; lia. }
  assert (SlotIsReachable (CreateIndex QuadCreate) (NewComponent (VertexType := FSimpleVertex)))
    as HReach by (right; vm_compute; reflexivity).
  split; [exact HValid|]. split; [exact HReach|].
  apply (single_buffer_section_takes_a_vertex_array_of_any_length
           QuadCreate MovedTriangleUpdate NewComponent HValid HReach);
    try reflexivity.
  intros Box HBox. discriminate HBox.
Defined.

Lemma single_array_update_witness :
  UpdateIsDualOverload SameLengthUpdate = false
  ∧ SectionAt (UpdateIndex SameLengthUpdate) DualScene = Some DualSection
  ∧ IsDualBufferSection DualSection = true
  ∧ ∃ Sec',
      SectionAt 0 (ComponentOf (RunUpdate SameLengthUpdate DualScene)) = Some Sec'
      ∧ length (VertexBuffer Sec') = 3%nat
      ∧ PositionVertexBuffer Sec' = [P 0 0 0; P 1 0 0; P 0 1 0].
Proof.
  assert (SectionAt (UpdateIndex SameLengthUpdate) DualScene = Some DualSection)
    as HS by (vm_compute; reflexivity).
  split; [reflexivity|]. split; [exact HS|]. split; [reflexivity|].
  exact (single_array_update_keeps_the_vertex_count_of_a_dual_buffer_section
           SameLengthUpdate DualScene DualSection eq_refl HS eq_refl).
Defined.

Lemma dual_update_witness :
  UpdateIsDualOverload FourAndFourUpdate = true
  ∧ SectionAt (UpdateIndex FourAndFourUpdate) DualScene = Some DualSection
  ∧ length (UpdatePositions FourAndFourUpdate) = length (UpdateVertices FourAndFourUpdate)
  ∧ ∃ C' Sec',
      RunUpdate FourAndFourUpdate DualScene = Returned () C'
      ∧ SectionAt 0 C' = Some Sec'
      ∧ PositionVertexBuffer Sec' = [P 0 0 0; P 1 0 0; P 1 1 0; P 0 1 0]
      ∧ VertexBuffer Sec' = [V 0 0 0; V 0 0 0; V 0 0 0; V 0 0 0]
      ∧ ParallelArraysAgree Sec'.
Proof.
  assert (SectionAt (UpdateIndex FourAndFourUpdate) DualScene = Some DualSection)
    as HS by (vm_compute; reflexivity).
  split; [reflexivity|]. split; [exact HS|]. split; [reflexivity|].
  apply (dual_update_with_arrays_of_one_length_is_applied
           FourAndFourUpdate DualScene DualSection eq_refl HS);
    [vm_compute; reflexivity|vm_compute; reflexivity|discriminate|reflexivity].
Defined.

Lemma full_update_witness :
  CreateValid QuadCreate
  ∧ CreateValid MovedTriangleCreate
  ∧ SameSlotAndFlags QuadCreate MovedTriangleCreate
  ∧ SlotIsReachable (CreateIndex QuadCreate) (NewComponent (VertexType := FSimpleVertex))
  ∧ ∃ C1 C2 C2',
      RunCreate QuadCreate NewComponent = Returned () C1
      ∧ RunUpdate (Update_Triangles SimpleVertexType 0 MovedTriangle [0; 1; 2]
                     ESectionUpdateFlags_None) C1 = Returned () C2
      ∧ RunCreate MovedTriangleCreate NewComponent = Returned () C2'
      ∧ MeshSections C2 = MeshSections C2'.
Proof.
  assert (CreateValid QuadCreate) as HValid0.
  { unfold CreateValid. cbn. repeat split; try done; lia. }
  assert (CreateValid MovedTriangleCreate) as HValid1.
  { unfold CreateValid. cbn. repeat split; try done; lia. }
  assert (SameSlotAndFlags QuadCreate MovedTriangleCreate) as HSame
    by (by repeat split).
  assert (SlotIsReachable (CreateIndex QuadCreate) (NewComponent (VertexType := FSimpleVertex)))
    as HReach by (right; vm_compute; reflexivity).
  split; [exact HValid0|]. split; [exact HValid1|]. split; [exact HSame|].
  split; [exact HReach|].
  exact (full_update_leaves_the_sections_of_a_recreate
           QuadCreate MovedTriangleCreate NewComponent HValid0 HValid1 HSame HReach).
Defined.

Lemma creates_commute_witness :
  CreateValid (TriangleCreate 0)
  ∧ CreateValid (TriangleCreate 1)
  ∧ SlotIsReachable 0 (NewComponent (VertexType := FSimpleVertex))
  ∧ SlotIsReachable 1 (NewComponent (VertexType := FSimpleVertex))
  ∧ ∃ Ca Cab Cb Cba,
      RunCreate (TriangleCreate 0) NewComponent = Returned () Ca
      ∧ RunCreate (TriangleCreate 1) Ca = Returned () Cab
      ∧ RunCreate (TriangleCreate 1) NewComponent = Returned () Cb
      ∧ RunCreate (TriangleCreate 0) Cb = Returned () Cba
      ∧ MeshSections Cab = MeshSections Cba.
Proof.
  assert (∀ i, 0 ≤ i → CreateValid (TriangleCreate i)) as HValid.
  { intros i Hi. unfold CreateValid. cbn. repeat split; try done. }
  assert (∀ i, i < MAX_int32 → SlotIsReachable i (NewComponent (VertexType := FSimpleVertex)))
    as HReach by (intros i Hi; by right).
  split; [apply HValid; lia|]. split; [apply HValid; lia|].
  split; [apply HReach; vm_compute; reflexivity|].
  split; [apply HReach; vm_compute; reflexivity|].
  apply (creates_for_different_slots_commute
           (TriangleCreate 0) (TriangleCreate 1) NewComponent);
    [apply HValid; lia|apply HValid; lia|cbn; lia
    |apply HReach; vm_compute; reflexivity|apply HReach; vm_compute; reflexivity].
Defined.

Lemma updates_commute_witness :
  RunUpdate MovedTriangleUpdate TwoTriangleScene
  = Returned () (ComponentOf (RunUpdate MovedTriangleUpdate TwoTriangleScene))
  ∧ RunUpdate SecondTriangleUpdate
      (ComponentOf (RunUpdate MovedTriangleUpdate TwoTriangleScene))
    = Returned ()
        (ComponentOf
           (RunUpdate SecondTriangleUpdate
              (ComponentOf (RunUpdate MovedTriangleUpdate TwoTriangleScene))))
  ∧ ∃ Cb Cba,
      RunUpdate SecondTriangleUpdate TwoTriangleScene = Returned () Cb
      ∧ RunUpdate MovedTriangleUpdate Cb = Returned () Cba
      ∧ MeshSections Cba
        = MeshSections
            (ComponentOf
               (RunUpdate SecondTriangleUpdate
                  (ComponentOf (RunUpdate MovedTriangleUpdate TwoTriangleScene)))).
Proof.
  assert (RunUpdate MovedTriangleUpdate TwoTriangleScene
          = Returned () (ComponentOf (RunUpdate MovedTriangleUpdate TwoTriangleScene)))
    as Hrun1 by (vm_compute; reflexivity).
  assert (RunUpdate SecondTriangleUpdate
            (ComponentOf (RunUpdate MovedTriangleUpdate TwoTriangleScene))
          = Returned ()
              (ComponentOf
                 (RunUpdate SecondTriangleUpdate
                    (ComponentOf (RunUpdate MovedTriangleUpdate TwoTriangleScene)))))
    as Hrun2 by (vm_compute; reflexivity).
  split; [exact Hrun1|]. split; [exact Hrun2|].
  apply (updates_of_different_sections_commute
           MovedTriangleUpdate SecondTriangleUpdate TwoTriangleScene _ _
           ltac:(cbn; lia) Hrun1 Hrun2).
Defined.

Lemma valid_create_is_finalised_witness :
  CreateValid QuadCreate
  ∧ SlotIsReachable (CreateIndex QuadCreate) (NewComponent (VertexType := FSimpleVertex))
  ∧ ∃ C1, RunCreate QuadCreate NewComponent = CreateSectionInternal 0 C1
          ∧ SectionAt 0 C1 = Some QuadSection
          ∧ (∀ j, j ≠ 0 → SectionAt j C1 = SectionAt j NewComponent)
          ∧ C1 = Set_MeshSections (MeshSections C1) NewComponent.
Proof.
  assert (CreateValid QuadCreate) as HValid.
  { unfold CreateValid. cbn. repeat split; try done; lia. }
  assert (SlotIsReachable (CreateIndex QuadCreate) (NewComponent (VertexType := FSimpleVertex)))
    as HReach by (right; vm_compute; reflexivity).
  split; [exact HValid|]. split; [exact HReach|].
  exact (valid_create_is_finalised_once_on_the_complete_section
           QuadCreate NewComponent HValid HReach).
Defined.

Lemma never_remove_a_section_witness :
  Forall (λ c, IsCreateOrUpdate c = true) BatchMutations
  ∧ is_Some (SectionAt 0 QuadScene)
  ∧ is_Some (SectionAt 0 (ComponentOf (RunAll BatchMutations QuadScene))).
Proof.
  assert (Forall (λ c : ECall FSimpleVertex, IsCreateOrUpdate c = true) BatchMutations)
    as Hcs by (repeat constructor).
  assert (is_Some (SectionAt 0 QuadScene)) as HSome
    by (exists QuadSection; vm_compute; reflexivity).
  split; [exact Hcs|]. split; [exact HSome|].
  exact (creates_and_updates_never_remove_a_section BatchMutations QuadScene 0 Hcs HSome).
Defined.

Lemma parallel_arrays_agree_witness :
  Forall (λ c, IsCreateOrSingleArrayUpdate c = true) SingleArrayMutations
  ∧ AllParallelArraysAgree (NewComponent (VertexType := FSimpleVertex))
  ∧ AllParallelArraysAgree (ComponentOf (RunAll SingleArrayMutations NewComponent)).
Proof.
  assert (Forall (λ c : ECall FSimpleVertex, IsCreateOrSingleArrayUpdate c = true)
            SingleArrayMutations) as Hcs by (repeat constructor).
  assert (AllParallelArraysAgree (NewComponent (VertexType := FSimpleVertex))) as HAgree.
  { intros j Sec HS. unfold SectionAt, SlotAt in HS. cbn in HS.
    rewrite lookup_nil in HS. by destruct (bool_decide (0 ≤ j)). }
  split; [exact Hcs|]. split; [exact HAgree|].
  exact (parallel_arrays_agree_without_the_position_overloads
           SingleArrayMutations NewComponent Hcs HAgree).
Defined.

Lemma dual_buffer_update_without_vertices_witness :
  SectionAt (UpdateIndex DualTrianglesOnlyUpdate) DualScene = Some DualSection
  ∧ IsDualBufferSection DualSection = true
  ∧ VertexBuffer DualSection ≠ []
  ∧ UpdateVertices DualTrianglesOnlyUpdate = []
  ∧ RunUpdate DualTrianglesOnlyUpdate DualScene
    = Returned () (Set_LogOutput (LogOutput DualScene ++ [LengthGuardError]) DualScene).
Proof.
  assert (SectionAt (UpdateIndex DualTrianglesOnlyUpdate) DualScene = Some DualSection)
    as HS by (vm_compute; reflexivity).
  split; [exact HS|]. split; [reflexivity|]. split; [discriminate|]. split; [reflexivity|].
  apply (dual_buffer_update_without_vertices_is_rejected
           DualTrianglesOnlyUpdate DualScene DualSection HS);
    [reflexivity|reflexivity|reflexivity|discriminate|reflexivity|discriminate].
Defined.

Lemma dual_update_keeps_parallel_arrays_witness :
  UpdateIsDualOverload FourAndFourUpdate = true
  ∧ SectionAt (UpdateIndex FourAndFourUpdate) DualScene = Some DualSection
  ∧ ParallelArraysAgree DualSection
  ∧ RunUpdate FourAndFourUpdate DualScene
    = Returned () (ComponentOf (RunUpdate FourAndFourUpdate DualScene))
  ∧ ∃ Sec',
      SectionAt 0 (ComponentOf (RunUpdate FourAndFourUpdate DualScene)) = Some Sec'
      ∧ (ParallelArraysAgree Sec'
         ↔ UpdateGuardRejects FourAndFourUpdate DualSection = true
           ∨ UpdatePositions FourAndFourUpdate = []
           ∨ length (UpdatePositions FourAndFourUpdate) = length (VertexBuffer Sec')).
Proof.
  assert (SectionAt (UpdateIndex FourAndFourUpdate) DualScene = Some DualSection)
    as HS by (vm_compute; reflexivity).
  assert (ParallelArraysAgree DualSection) as HAgree by (intros _; reflexivity).
  assert (RunUpdate FourAndFourUpdate DualScene
          = Returned () (ComponentOf (RunUpdate FourAndFourUpdate DualScene)))
    as Hrun by (vm_compute; reflexivity).
  split; [reflexivity|]. split; [exact HS|]. split; [exact HAgree|]. split; [exact Hrun|].
  exact (dual_update_keeps_parallel_arrays_unless_positions_differ
           FourAndFourUpdate DualScene _ DualSection eq_refl HS HAgree Hrun).
Defined.
